(** * StockScreen: the screening and scoring engine of [stock_screener.py]

    A shallow embedding of the algorithmic core of the screener: the
    moving-average trend classifier ([check_ma_trend]), the filter pipeline
    ([filter_stocks]), the trading-signal scorer ([analyze_trading_signals]),
    the per-stock loop of the limit-up analysis ([analyze_limit_up_stocks])
    and the money-flow magnitude parser ([convert_flow_value]).

    Conventions of the embedding.
    - A pandas DataFrame is the list of its rows, in index order; a boolean
      mask [df[mask]] is [List.filter].
    - A Python/numpy float is a [pyfloat]: an exact rational, one of the two
      infinities, or NaN.  Finite arithmetic is exact (rounding and overflow
      are abstracted, and zero has no sign); every comparison with NaN is
      false, as in IEEE 754.
    - Code that can raise lives in the error monad [res]; a [try/except] is a
      [match] on the outcome.
    - The market-data provider ([ak]) is a record of functions; a call may
      raise. *)

From Stdlib Require Import QArith ZArith NArith List Bool Lia String Ascii.
From Stdlib Require Import Sorted Permutation Qabs.
From stdpp Require Import gmap strings.
Import ListNotations.

Local Open Scope Q_scope.

(** ** Floats *)

Inductive pyfloat : Type :=
| Fin (q : Q)
| PInf
| NInf
| NaN.

Definition Qltb (x y : Q) : bool := negb (Qle_bool y x).

Definition Qsgn (q : Q) : Z := Z.sgn (Qnum q).

Definition fneg (x : pyfloat) : pyfloat :=
  match x with
  | Fin q => Fin (- q)
  | PInf => NInf
  | NInf => PInf
  | NaN => NaN
  end.

Definition fadd (x y : pyfloat) : pyfloat :=
  match x, y with
  | NaN, _ | _, NaN => NaN
  | Fin a, Fin b => Fin (a + b)
  | PInf, NInf | NInf, PInf => NaN
  | PInf, _ | _, PInf => PInf
  | NInf, _ | _, NInf => NInf
  end.

Definition fsub (x y : pyfloat) : pyfloat := fadd x (fneg y).

(** The infinity of a given sign; a zero sign is the invalid operation. *)
Definition inf_of_sign (s : Z) : pyfloat :=
  match s with
  | Z0 => NaN
  | Zpos _ => PInf
  | Zneg _ => NInf
  end.

Definition fsign (x : pyfloat) : Z :=
  match x with
  | Fin q => Qsgn q
  | PInf => 1%Z
  | NInf => (-1)%Z
  | NaN => 0%Z
  end.

Definition fmul (x y : pyfloat) : pyfloat :=
  match x, y with
  | NaN, _ | _, NaN => NaN
  | Fin a, Fin b => Fin (a * b)
  | _, _ => inf_of_sign (fsign x * fsign y)
  end.

(** numpy division: [x / 0] is an infinity of the sign of [x], [0 / 0] is
    NaN; nothing raises. *)
Definition fdiv (x y : pyfloat) : pyfloat :=
  match x, y with
  | NaN, _ | _, NaN => NaN
  | Fin a, Fin b => if Qeq_bool b 0 then inf_of_sign (Qsgn a) else Fin (a / b)
  | Fin _, _ => Fin 0
  | _, Fin b => if Qeq_bool b 0 then x else inf_of_sign (fsign x * Qsgn b)
  | _, _ => NaN
  end.

Definition flt (x y : pyfloat) : bool :=
  match x, y with
  | NaN, _ | _, NaN => false
  | Fin a, Fin b => Qltb a b
  | NInf, NInf | PInf, _ => false
  | NInf, _ => true
  | Fin _, PInf => true
  | Fin _, NInf => false
  end.

Definition fle (x y : pyfloat) : bool :=
  match x, y with
  | NaN, _ | _, NaN => false
  | Fin a, Fin b => Qle_bool a b
  | NInf, _ => true
  | PInf, PInf => true
  | PInf, _ => false
  | Fin _, PInf => true
  | Fin _, NInf => false
  end.

Definition fgt (x y : pyfloat) : bool := flt y x.
Definition fge (x y : pyfloat) : bool := fle y x.

Definition feq (x y : pyfloat) : bool :=
  match x, y with
  | Fin a, Fin b => Qeq_bool a b
  | PInf, PInf | NInf, NInf => true
  | _, _ => false
  end.

Definition is_nan (x : pyfloat) : bool :=
  match x with NaN => true | _ => false end.

Definition of_Z (z : Z) : pyfloat := Fin (inject_Z z).
Definition of_nat (n : nat) : pyfloat := Fin (inject_Z (Z.of_nat n)).

Declare Scope pyfloat_scope.
Delimit Scope pyfloat_scope with F.
Bind Scope pyfloat_scope with pyfloat.
Infix "+" := fadd : pyfloat_scope.
Infix "-" := fsub : pyfloat_scope.
Infix "*" := fmul : pyfloat_scope.
Infix "/" := fdiv : pyfloat_scope.
Infix ">?" := fgt (at level 70, no associativity) : pyfloat_scope.
Infix ">=?" := fge (at level 70, no associativity) : pyfloat_scope.
Infix "<?" := flt (at level 70, no associativity) : pyfloat_scope.
Infix "<=?" := fle (at level 70, no associativity) : pyfloat_scope.

(** ** Exceptions *)

Inductive res (A : Type) : Type :=
| Ok (a : A)
| Raise.
Arguments Ok {A} a.
Arguments Raise {A}.

Definition rbind {A B} (m : res A) (k : A -> res B) : res B :=
  match m with
  | Ok a => k a
  | Raise => Raise
  end.

Notation "'do' x <- m ; k" := (rbind m (fun x => k))
  (at level 10, x name, m at level 100, k at level 200,
   format "'[v' 'do'  x  <-  m ; '/' k ']'").

(** Python's [a and b] on truth values: [b] is evaluated only when [a] is
    true. *)
Definition and_then (a : res bool) (b : res bool) : res bool :=
  do x <- a; if x then b else Ok false.

Notation "a 'and' b" := (and_then a b) (at level 85, right associativity).

(** ** Series *)

Definition Qsum (l : list Q) : Q := fold_right Qplus 0 l.

Definition Qmean (l : list Q) : Q := Qsum l / inject_Z (Z.of_nat (length l)).

(** [s.iloc[i]], negative positions counting from the end; out of range is
    an IndexError. *)
Definition iloc {A} (s : list A) (i : Z) : res A :=
  let n := Z.of_nat (length s) in
  let j := if (i <? 0)%Z then (n + i)%Z else i in
  if ((j <? 0) || (n <=? j))%Z then Raise
  else match nth_error s (Z.to_nat j) with
       | Some x => Ok x
       | None => Raise
       end.

(** A slice bound, clipped as Python clips it. *)
Definition slice_bound (n i : Z) : nat :=
  Z.to_nat (Z.max 0 (Z.min n (if (i <? 0)%Z then (n + i)%Z else i))).

(** [s.iloc[a:b]]. *)
Definition iloc_slice {A} (s : list A) (a b : Z) : list A :=
  let n := Z.of_nat (length s) in
  let lo := slice_bound n a in
  let hi := slice_bound n b in
  firstn (hi - lo) (skipn lo s).

(** [s.tail(k)]. *)
Definition tail_n {A} (k : nat) (s : list A) : list A :=
  skipn (length s - k) s.

(** The window of [n] values that ends at position [i]. *)
Definition window {A} (n i : nat) (s : list A) : list A :=
  firstn n (skipn (S i - n) s).

(** [s.rolling(n).mean()]: undefined (NaN) until the window is full.  The
    mean is exact here, where pandas rolls a running sum in doubles; the
    properties below use of a moving average only its length, where it is
    defined, and that the mean of equal values is that value. *)
Definition rolling_mean (n : nat) (s : list Q) : list pyfloat :=
  map (fun i => if (S i <? n)%nat then NaN else Fin (Qmean (window n i s)))
      (seq 0 (length s)).

(** [s.diff()]: first difference, NaN at position 0. *)
Definition diff (s : list pyfloat) : list pyfloat :=
  map (fun i => match i with
                | O => NaN
                | S j => (nth i s NaN - nth j s NaN)%F
                end)
      (seq 0 (length s)).

(** [s.mean()]: NaN entries are skipped; the mean of nothing is NaN. *)
Definition series_mean (s : list pyfloat) : pyfloat :=
  let v := List.filter (fun x => negb (is_nan x)) s in
  match v with
  | [] => NaN
  | _ => (fold_left fadd v (Fin 0) / of_nat (length v))%F
  end.

(** ** Market data *)

(** One row of a daily (or one-minute) history frame. *)
Record Bar : Type := mkBar {
  bar_date : string;      (* 日期 *)
  bar_open : Q;           (* 开盘 *)
  bar_close : Q;          (* 收盘 *)
  bar_high : Q;           (* 最高 *)
  bar_low : Q;            (* 最低 *)
  bar_volume : Q;         (* 成交量 *)
  bar_pct : Q             (* 涨跌幅 *)
}.

(** One row of the real-time snapshot frame. *)
Record Snapshot : Type := mkSnapshot {
  code : string;              (* 代码 *)
  name : string;              (* 名称 *)
  latest_price : pyfloat;     (* 最新价 *)
  pct_change : pyfloat;       (* 涨跌幅 *)
  turnover : pyfloat;         (* 换手率 *)
  volume_ratio : pyfloat;     (* 量比 *)
  total_cap : pyfloat;        (* 总市值 *)
  amount : pyfloat;           (* 成交额 *)
  industry : string;          (* 所属行业 *)
  cap : pyfloat               (* 市值 *)
}.

(** The provider: the snapshot of all instruments, the daily history of a
    symbol over the trailing [days] calendar days, and today's one-minute
    history of a symbol. *)
Record Provider : Type := mkProvider {
  stock_zh_a_spot_em : res (list Snapshot);
  stock_zh_a_hist : string -> Z -> res (list Bar);
  stock_zh_a_hist_min_em : string -> res (list Bar)
}.

Definition closes (hist : list Bar) : list Q := map bar_close hist.

Definition empty {A} (df : list A) : bool :=
  match df with [] => true | _ => false end.

(** ** check_ma_trend *)

Definition lookback_days : Z := 3.

(** [slope.iloc[-1] > 0]. *)
Definition rising (slope : list pyfloat) : res bool :=
  do x <- iloc slope (-1); Ok (x >? Fin 0)%F.

(** One conjunct pair of [is_turning_up]: the latest slope is positive and
    the mean slope of the [lookback_days - 1] bars before it is not. *)
Definition turning (slope : list pyfloat) : res bool :=
  rising slope and
  Ok (series_mean (iloc_slice slope (- lookback_days) (-1)) <=? Fin 0)%F.

Definition is_turning_up (ma5_slope ma10_slope ma20_slope : list pyfloat)
  : res bool :=
  turning ma5_slope and turning ma10_slope and turning ma20_slope.

Definition is_bullish (ma5 ma10 ma20 ma30 s5 s10 s20 s30 : list pyfloat)
  : res bool :=
  (do a <- iloc ma5 (-1);
   do b <- iloc ma10 (-1);
   if negb (a >? b)%F then Ok false else
   do c <- iloc ma20 (-1);
   if negb (b >? c)%F then Ok false else
   do d <- iloc ma30 (-1);
   Ok (c >? d)%F) and
  rising s5 and rising s10 and rising s20 and rising s30.

(** The body of the [try] once the frame is fetched; [None] is the early
    [return (False, None)] of an empty frame, which is not cached. *)
Definition ma_trend_of (hist_data : list Bar) : res (option (bool * option Bar)) :=
  if empty hist_data then Ok None else
  let ma5 := rolling_mean 5 (closes hist_data) in
  let ma10 := rolling_mean 10 (closes hist_data) in
  let ma20 := rolling_mean 20 (closes hist_data) in
  let ma30 := rolling_mean 30 (closes hist_data) in
  let ma5_slope := diff ma5 in
  let ma10_slope := diff ma10 in
  let ma20_slope := diff ma20 in
  let ma30_slope := diff ma30 in
  do up <- is_turning_up ma5_slope ma10_slope ma20_slope;
  do bull <- is_bullish ma5 ma10 ma20 ma30
                        ma5_slope ma10_slope ma20_slope ma30_slope;
  do latest <- iloc hist_data (-1);
  Ok (Some (up || bull, Some latest)).

(** [check_ma_trend]: the answer and the cache after the call. *)
Definition check_ma_trend (ak : Provider)
    (ma_trend_cache : gmap string (bool * option Bar)) (stock_code : string)
  : (bool * option Bar) * gmap string (bool * option Bar) :=
  match ma_trend_cache !! stock_code with
  | Some cached => (cached, ma_trend_cache)
  | None =>
      match (do hist_data <- stock_zh_a_hist ak stock_code 60;
             ma_trend_of hist_data) with
      | Ok (Some result) => (result, <[stock_code := result]> ma_trend_cache)
      | Ok None => ((false, None), ma_trend_cache)
      | Raise => ((false, None), ma_trend_cache)
      end
  end.

(** ** Indicators of the technical filters *)

Definition map2 {A B C} (f : A -> B -> C) (a : list A) (b : list B) : list C :=
  map (fun p => f (fst p) (snd p)) (combine a b).

Definition Qmin' (a b : Q) : Q := if Qle_bool a b then a else b.
Definition Qmax' (a b : Q) : Q := if Qle_bool a b then b else a.

(** [s.min()] and [s.max()] of a series of prices; NaN on an empty one. *)
Definition series_min (s : list Q) : pyfloat :=
  match s with
  | [] => NaN
  | x :: t => Fin (fold_left Qmin' t x)
  end.

Definition series_max (s : list Q) : pyfloat :=
  match s with
  | [] => NaN
  | x :: t => Fin (fold_left Qmax' t x)
  end.

(** [s.rolling(n, min_periods=n).min()] and [.max()]. *)
Definition rolling_min (n : nat) (s : list Q) : list pyfloat :=
  map (fun i => if (S i <? n)%nat then NaN else series_min (window n i s))
      (seq 0 (length s)).

Definition rolling_max (n : nat) (s : list Q) : list pyfloat :=
  map (fun i => if (S i <? n)%nat then NaN else series_max (window n i s))
      (seq 0 (length s)).

(** The running state of pandas' exponentially weighted mean: the current
    weighted value, the weight of the past and the number of observations
    seen. *)
Record ewm_state : Type := mkEwm {
  weighted : pyfloat;
  old_wt : Q;
  nobs : nat
}.

Section Ewm.
Variable alpha : Q.
Variable adjust : bool.

Let old_wt_factor : Q := 1 - alpha.
Let new_wt : Q := if adjust then 1 else alpha.
Let minp : nat := 1.

Definition ewm_step (st : ewm_state) (cur : pyfloat) : ewm_state :=
  let is_observation := negb (is_nan cur) in
  let nobs' := (nobs st + if is_observation then 1 else 0)%nat in
  if negb (is_nan (weighted st)) then
    let old_wt' := old_wt st * old_wt_factor in
    if is_observation then
      let w := if negb (feq (weighted st) cur)
               then ((Fin old_wt' * weighted st + Fin new_wt * cur)
                     / Fin (old_wt' + new_wt))%F
               else weighted st in
      mkEwm w (if adjust then old_wt' + new_wt else 1) nobs'
    else mkEwm (weighted st) old_wt' nobs'
  else if is_observation then mkEwm cur (old_wt st) nobs'
  else mkEwm (weighted st) (old_wt st) nobs'.

Definition ewm_out (st : ewm_state) : pyfloat :=
  if (minp <=? nobs st)%nat then weighted st else NaN.

Fixpoint ewm_run (st : ewm_state) (vals : list pyfloat) : list pyfloat :=
  match vals with
  | [] => []
  | cur :: rest =>
      let st' := ewm_step st cur in
      ewm_out st' :: ewm_run st' rest
  end.

(** [s.ewm(alpha, adjust).mean()] with [ignore_na=False],
    [min_periods=0]. *)
Definition ewm_mean (vals : list pyfloat) : list pyfloat :=
  match vals with
  | [] => []
  | v0 :: rest =>
      let st := mkEwm v0 1 (if is_nan v0 then 0 else 1) in
      ewm_out st :: ewm_run st rest
  end.
End Ewm.

Definition alpha_of_span (span : Q) : Q := 2 / (span + 1).
Definition alpha_of_com (com : Q) : Q := 1 / (1 + com).

(** The instantaneous MA5 > MA10 > MA20 test of the filter pipeline. *)
Definition ma_alignment (hist_data : list Bar) : res bool :=
  do ma5 <- iloc (rolling_mean 5 (closes hist_data)) (-1);
  do ma10 <- iloc (rolling_mean 10 (closes hist_data)) (-1);
  do ma20 <- iloc (rolling_mean 20 (closes hist_data)) (-1);
  Ok ((ma5 >? ma10) && (ma10 >? ma20))%F.

(** [x.iloc[-1] > y.iloc[-1] and x.iloc[-2] <= y.iloc[-2]]. *)
Definition golden_cross (x y : list pyfloat) : res bool :=
  (do a <- iloc x (-1); do b <- iloc y (-1); Ok (a >? b)%F) and
  (do a <- iloc x (-2); do b <- iloc y (-2); Ok (a <=? b)%F).

Definition macd_line (hist_data : list Bar) : list pyfloat :=
  let exp1 := ewm_mean (alpha_of_span 12) false (map Fin (closes hist_data)) in
  let exp2 := ewm_mean (alpha_of_span 26) false (map Fin (closes hist_data)) in
  map2 fsub exp1 exp2.

Definition macd_golden (hist_data : list Bar) : res bool :=
  let macd := macd_line hist_data in
  let signal := ewm_mean (alpha_of_span 9) false macd in
  golden_cross macd signal.

Definition kdj_golden (hist_data : list Bar) : res bool :=
  let low_list := rolling_min 9 (map bar_low hist_data) in
  let high_list := rolling_max 9 (map bar_high hist_data) in
  let rsv := map2 (fun x y => (x / y * Fin 100)%F)
                  (map2 fsub (map Fin (closes hist_data)) low_list)
                  (map2 fsub high_list low_list) in
  let k := ewm_mean (alpha_of_com 2) true rsv in
  let d := ewm_mean (alpha_of_com 2) true k in
  golden_cross k d.

(** ** The filter pipeline *)

(** The filter widgets: [QDoubleSpinBox] values are rationals, [QSpinBox]
    values integers, check boxes booleans. *)
Record Criteria : Type := mkCriteria {
  turnover_min : Q;
  turnover_max : Q;
  price_change_min : Q;
  price_change_max : Q;
  volume_ratio_min : Q;
  volume_ratio_max : Q;
  price_min : Q;
  price_max : Q;
  market_cap_min : Q;
  market_cap_max : Q;
  remove_green_cb : bool;
  remove_limit_up_cb : bool;
  volume_increase_cb : bool;
  ma_alignment_cb : bool;
  macd_golden_cb : bool;
  kdj_golden_cb : bool;
  hot_stocks_n : Z;
  top_n_spin : Z;
  limit_up_times : Z;
  months_spin : Z
}.

(** [df[df['代码'].isin(codes)]]. *)
Definition isin (codes : list string) (df : list Snapshot) : list Snapshot :=
  List.filter (fun row => existsb (String.eqb (code row)) codes) df.

(** A [for index, row in df.iterrows()] loop that threads an accumulator;
    an exception in one iteration leaves the loop. *)
Fixpoint iterrows {A S} (body : A -> S -> res S) (df : list A) (acc : S)
  : res S :=
  match df with
  | [] => Ok acc
  | row :: rest => do acc' <- body row acc; iterrows body rest acc'
  end.

Definition in_range (x : pyfloat) (lo hi : Q) : bool :=
  ((x >=? Fin lo) && (x <=? Fin hi))%F.

(** The five range criteria, in the order of the source. *)
Definition range_filters (c : Criteria) (df : list Snapshot) : list Snapshot :=
  let df := List.filter
              (fun r => in_range (turnover r) (turnover_min c) (turnover_max c))
              df in
  let df := List.filter
              (fun r => in_range (pct_change r) (price_change_min c)
                                 (price_change_max c))
              df in
  let df := List.filter (fun r => (volume_ratio r >=? Fin (volume_ratio_min c))%F)
                        df in
  let df := if Qltb 0 (volume_ratio_max c)
            then List.filter
                   (fun r => (volume_ratio r <=? Fin (volume_ratio_max c))%F) df
            else df in
  let df := List.filter
              (fun r => in_range (latest_price r) (price_min c) (price_max c))
              df in
  let min_cap := market_cap_min c * 100000000 in
  let max_cap := market_cap_max c * 100000000 in
  List.filter (fun r => in_range (total_cap r) min_cap max_cap) df.

Definition checkbox_filters (c : Criteria) (df : list Snapshot)
  : list Snapshot :=
  let df := if remove_green_cb c
            then List.filter (fun r => (pct_change r >? Fin 0)%F) df else df in
  if remove_limit_up_cb c
  then List.filter (fun r => (pct_change r <? Fin 9.5)%F) df else df.

(** [all(v[i] > v[i - 1] for i in range(1, 3))] on three samples. *)
Definition strictly_increasing3 (v : list Q) : bool :=
  match v with
  | [v0; v1; v2] => Qltb v0 v1 && Qltb v1 v2
  | _ => false
  end.

Definition volume_increase_body (ak : Provider) (row : Snapshot)
    (volume_increasing_stocks : list string) : res (list string) :=
  let stock_code := code row in
  do hist_data <- stock_zh_a_hist_min_em ak stock_code;
  if negb (empty hist_data) then
    let recent_volumes := tail_n 3 (map bar_volume hist_data) in
    if (length recent_volumes =? 3)%nat && strictly_increasing3 recent_volumes
    then Ok (volume_increasing_stocks ++ [stock_code])
    else Ok volume_increasing_stocks
  else Ok volume_increasing_stocks.

Definition volume_increase_filter (c : Criteria) (ak : Provider)
    (df : list Snapshot) : res (list Snapshot) :=
  if volume_increase_cb c then
    do volume_increasing_stocks <- iterrows (volume_increase_body ak) df [];
    Ok (isin volume_increasing_stocks df)
  else Ok df.

(** The enabled sub-checks on a non-empty history, each [continue] of the
    source being a [false]; a later check is not computed once one failed. *)
Definition technical_checks (c : Criteria) (hist_data : list Bar) : res bool :=
  (if ma_alignment_cb c then ma_alignment hist_data else Ok true) and
  (if macd_golden_cb c then macd_golden hist_data else Ok true) and
  (if kdj_golden_cb c then kdj_golden hist_data else Ok true).

Definition technical_body (c : Criteria) (ak : Provider) (row : Snapshot)
    (technical_stocks : list string) : res (list string) :=
  let stock_code := code row in
  do hist_data <- stock_zh_a_hist ak stock_code 60;
  do keep <- (if negb (empty hist_data) then technical_checks c hist_data
              else Ok true);
  Ok (if keep then technical_stocks ++ [stock_code] else technical_stocks).

Definition technical_enabled (c : Criteria) : bool :=
  ma_alignment_cb c || macd_golden_cb c || kdj_golden_cb c.

Definition technical_filter (c : Criteria) (ak : Provider)
    (df : list Snapshot) : res (list Snapshot) :=
  if technical_enabled c then
    do technical_stocks <- iterrows (technical_body c ak) df [];
    Ok (isin technical_stocks df)
  else Ok df.

(** [df.nlargest(n, column)]: the first [n] rows in descending order of the
    column, rows of equal value in frame order, NaN last. *)
Definition goes_before (key : Snapshot -> pyfloat) (x y : Snapshot) : bool :=
  is_nan (key y) || (negb (is_nan (key x)) && (key x >=? key y)%F).

Fixpoint insert_desc (key : Snapshot -> pyfloat) (x : Snapshot)
    (l : list Snapshot) : list Snapshot :=
  match l with
  | [] => [x]
  | y :: t => if goes_before key x y then x :: y :: t
              else y :: insert_desc key x t
  end.

Definition sort_desc (key : Snapshot -> pyfloat) (df : list Snapshot)
  : list Snapshot :=
  fold_right (insert_desc key) [] df.

Definition nlargest (n : Z) (key : Snapshot -> pyfloat) (df : list Snapshot)
  : list Snapshot :=
  firstn (Z.to_nat n) (sort_desc key df).

Definition hot_filter (c : Criteria) (df : list Snapshot) : list Snapshot :=
  if (hot_stocks_n c >? 0)%Z then nlargest (hot_stocks_n c) amount df else df.

(** [s.unique()]: the distinct values in order of first appearance. *)
Fixpoint unique (l : list string) : list string :=
  match l with
  | [] => []
  | x :: t => x :: List.filter (fun y => negb (String.eqb x y)) (unique t)
  end.

Definition leaders_filter (c : Criteria) (df : list Snapshot) : list Snapshot :=
  if (top_n_spin c >? 0)%Z then
    let industry_leaders :=
      flat_map (fun ind =>
                  let industry_stocks :=
                    List.filter (fun r => String.eqb (industry r) ind) df in
                  map code (nlargest (top_n_spin c) cap industry_stocks))
               (unique (map industry df)) in
    isin industry_leaders df
  else df.

(** The number of sessions of a history that closed at the limit. *)
Definition limit_up_count (hist_data : list Bar) : nat :=
  length (List.filter (fun b => Qle_bool 9.5 (bar_pct b)) hist_data).

Definition limit_up_body (ak : Provider) (months required_times : Z)
    (row : Snapshot) (limit_up_stocks : list string) : res (list string) :=
  let stock_code := code row in
  do hist_data <- stock_zh_a_hist ak stock_code (30 * months);
  if negb (empty hist_data) then
    if (Z.of_nat (limit_up_count hist_data) =? required_times)%Z
    then Ok (limit_up_stocks ++ [stock_code])
    else Ok limit_up_stocks
  else Ok limit_up_stocks.

Definition limit_up_active (c : Criteria) : bool :=
  ((limit_up_times c >? 0) && (months_spin c >? 0))%Z.

Definition limit_up_filter (c : Criteria) (ak : Provider) (df : list Snapshot)
  : res (list Snapshot) :=
  if limit_up_active c then
    let months := months_spin c in
    let required_times := limit_up_times c in
    do limit_up_stocks <-
      iterrows (limit_up_body ak months required_times) df [];
    Ok (isin limit_up_stocks df)
  else Ok df.

(** The body of the [try] of [filter_stocks], cut at the two places the
    properties below speak about: the frame that reaches the technical
    block, the frame that reaches the limit-up count, and the whole. *)
Definition before_technical (c : Criteria) (ak : Provider)
  : res (list Snapshot) :=
  do df <- stock_zh_a_spot_em ak;
  let df := range_filters c df in
  let df := checkbox_filters c df in
  volume_increase_filter c ak df.

Definition before_limit_up (c : Criteria) (ak : Provider)
  : res (list Snapshot) :=
  do df <- before_technical c ak;
  do df <- technical_filter c ak df;
  let df := hot_filter c df in
  let df := leaders_filter c df in
  Ok df.

Definition filter_stocks_body (c : Criteria) (ak : Provider)
  : res (list Snapshot) :=
  do df <- before_limit_up c ak;
  limit_up_filter c ak df.

(** [filter_stocks]: the filtered frame, or [None] when anything raised. *)
Definition filter_stocks (c : Criteria) (ak : Provider)
  : option (list Snapshot) :=
  match filter_stocks_body c ak with
  | Ok df => Some df
  | Raise => None
  end.

(** ** The trading-signal scorer *)

(** The price position: 未知, 低位, 高位, 中位. *)
Inductive Position : Type := Unknown | Low | High | Mid.

(** The advice: 建议买入, 可以关注, 注意风险, 建议观望. *)
Inductive Advice : Type := Buy | Watch | RiskWarning | Hold.

Definition Position_eqb (a b : Position) : bool :=
  match a, b with
  | Unknown, Unknown | Low, Low | High, High | Mid, Mid => true
  | _, _ => false
  end.

Definition get_price_position (ak : Provider) (code : string)
    (current_price : pyfloat) : Position :=
  match
    (do hist_data <- stock_zh_a_hist ak code 120;
     if empty hist_data then Ok Unknown else
     let price_max := series_max (closes hist_data) in
     let price_min := series_min (closes hist_data) in
     let price_range := (price_max - price_min)%F in
     if feq price_range (Fin 0) then Ok Unknown else
     let position :=
       ((current_price - price_min) / price_range * Fin 100)%F in
     if (position <? Fin 30)%F then Ok Low
     else if (position >? Fin 70)%F then Ok High
     else Ok Mid)
  with
  | Ok p => p
  | Raise => Unknown
  end.

(** One row of the result frame; the percentages are kept as numbers. *)
Record Signal : Type := mkSignal {
  sig_code : string;          (* 代码 *)
  sig_name : string;          (* 名称 *)
  sig_price : pyfloat;        (* 现价 *)
  sig_change : pyfloat;       (* 涨跌幅 *)
  sig_volume_ratio : pyfloat; (* 量比 *)
  sig_turnover : pyfloat;     (* 换手率 *)
  sig_position : Position;    (* 位置 *)
  sig_advice : Advice;        (* 建议 *)
  sig_rating : Z;             (* 评分 *)
  sig_risk : Z                (* 风险分 *)
}.

Local Open Scope Z_scope.

(** The scores of one row, the two counters threaded as in the source. *)
Definition signal_scores (price_change volume_ratio turnover : pyfloat)
    (position : Position) : Z * Z :=
  let rating_score := 0 in
  let risk_score := 0 in
  let rating_score :=
    if (price_change >? Fin 5)%F then rating_score + 2
    else if (price_change >? Fin 2)%F then rating_score + 1
    else rating_score in
  let rating_score :=
    if (volume_ratio >? Fin 2)%F then rating_score + 1 else rating_score in
  let rating_score :=
    if (turnover >? Fin 5)%F then rating_score + 1 else rating_score in
  let '(rating_score, risk_score) :=
    if Position_eqb position Low then (rating_score + 2, risk_score)
    else if Position_eqb position High then (rating_score, risk_score + 2)
    else (rating_score, risk_score) in
  (rating_score, risk_score).

Definition final_advice (rating_score risk_score : Z) : Advice :=
  if (rating_score >=? 4) && (risk_score <=? 1) then Buy
  else if (rating_score >=? 2) && (risk_score <=? 2) then Watch
  else if risk_score >=? 3 then RiskWarning
  else Hold.

Definition analyze_row (ak : Provider) (row : Snapshot) : Signal :=
  let price := latest_price row in
  let price_change := pct_change row in
  let volume_ratio := volume_ratio row in
  let turnover := turnover row in
  let position := get_price_position ak (code row) price in
  let '(rating_score, risk_score) :=
    signal_scores price_change volume_ratio turnover position in
  mkSignal (code row) (name row) price price_change volume_ratio turnover
           position (final_advice rating_score risk_score)
           rating_score risk_score.

Definition analyze_trading_signals (ak : Provider) (df : list Snapshot)
  : list Signal :=
  map (analyze_row ak) df.

Local Close Scope Z_scope.

(** ** The per-stock loop of the limit-up analysis *)

(** Main-board limit-up rows: change at or above 9.5, code outside the
    growth, innovation and regional prefixes. *)
Definition main_board (code : string) : bool :=
  negb (existsb (fun p => String.prefix p code)
                ["300"; "688"; "430"; "689"; "830"; "839"]%string).

Definition limit_up_rows (df : list Snapshot) : list Snapshot :=
  List.filter (fun r => (pct_change r >=? Fin 9.5)%F && main_board (code r)) df.

Section LimitUpAnalysis.
(** The frames fetched once before the loop (index history, industry
    names, sector flows, news), and the analysis of one stock from its
    non-empty history: indicators, features, prediction and rating.  The
    analysis may raise. *)
Variable Context : Type.
Variable Analysis : Type.
Variable prefetch : res Context.
Variable analyse : Context -> Snapshot -> list Bar -> res Analysis.

(** One iteration of the [try]: [None] is the [continue] on an empty
    history. *)
Definition limit_up_try (ak : Provider) (ctx : Context) (stock : Snapshot)
  : res (option Analysis) :=
  do hist_data <- stock_zh_a_hist ak (code stock) 30;
  if empty hist_data then Ok None else
  do a <- analyse ctx stock hist_data;
  Ok (Some a).

(** The loop: the [except] of an iteration prints and continues. *)
Fixpoint limit_up_loop (ak : Provider) (ctx : Context)
    (stocks : list Snapshot) (analysis_results : list Analysis)
  : list Analysis :=
  match stocks with
  | [] => analysis_results
  | stock :: rest =>
      match limit_up_try ak ctx stock with
      | Ok (Some a) => limit_up_loop ak ctx rest (analysis_results ++ [a])
      | Ok None => limit_up_loop ak ctx rest analysis_results
      | Raise => limit_up_loop ak ctx rest analysis_results
      end
  end.

(** [analyze_limit_up_stocks]: the outer [except] returns the empty
    list. *)
Definition analyze_limit_up_stocks (ak : Provider) : list Analysis :=
  match (do df <- stock_zh_a_spot_em ak;
         do ctx <- prefetch;
         Ok (limit_up_loop ak ctx (limit_up_rows df) []))
  with
  | Ok results => results
  | Raise => []
  end.
End LimitUpAnalysis.

(** ** The money-flow magnitude parser *)

(** A Python [str] is the list of its code points. *)
Definition pystr : Type := list N.

Local Open Scope N_scope.

(** The code points of a UTF-8 text, to write literals. *)
Fixpoint utf8_decode (bytes : list N) : pystr :=
  match bytes with
  | [] => []
  | b :: t =>
      if b <? 128 then b :: utf8_decode t
      else if b <? 224 then
        match t with
        | c :: t' => ((b - 192) * 64 + (c - 128)) :: utf8_decode t'
        | _ => []
        end
      else if b <? 240 then
        match t with
        | c :: d :: t' =>
            ((b - 224) * 4096 + (c - 128) * 64 + (d - 128)) :: utf8_decode t'
        | _ => []
        end
      else
        match t with
        | c :: d :: e :: t' =>
            ((b - 240) * 262144 + (c - 128) * 4096 + (d - 128) * 64 + (e - 128))
              :: utf8_decode t'
        | _ => []
        end
  end.

Definition utf8 (s : string) : pystr :=
  utf8_decode (map N_of_ascii (list_ascii_of_string s)).

Definition yi : N := 20159.     (* 亿, U+4EBF *)
Definition wan : N := 19975.    (* 万, U+4E07 *)
Definition comma : N := 44.
Definition minus : N := 45.

(** [str.isspace] of one character, the set [str.strip] removes. *)
Definition is_space (c : N) : bool :=
  ((9 <=? c) && (c <=? 13)) || ((28 <=? c) && (c <=? 32))
  || (c =? 133) || (c =? 160) || (c =? 5760)
  || ((8192 <=? c) && (c <=? 8202))
  || (c =? 8232) || (c =? 8233) || (c =? 8239) || (c =? 8287) || (c =? 12288).

(** The ASCII white space that the float parser itself skips. *)
Definition is_ascii_space (c : N) : bool :=
  ((9 <=? c) && (c <=? 13)) || (c =? 32).

Fixpoint lstrip (space : N -> bool) (s : pystr) : pystr :=
  match s with
  | c :: t => if space c then lstrip space t else s
  | [] => []
  end.

Definition strip_with (space : N -> bool) (s : pystr) : pystr :=
  rev (lstrip space (rev (lstrip space s))).

(** [s.strip()]. *)
Definition strip (s : pystr) : pystr := strip_with is_space s.

(** [s.replace(c, '')] for a one-character [c]. *)
Definition remove_char (c : N) (s : pystr) : pystr :=
  List.filter (fun x => negb (x =? c)) s.

(** [c in s] for a one-character [c]. *)
Definition contains (c : N) (s : pystr) : bool := existsb (N.eqb c) s.

Definition startswith (c : N) (s : pystr) : bool :=
  match s with
  | x :: _ => x =? c
  | [] => false
  end.

(** *** float(str) *)

Definition is_digit (c : N) : bool := (48 <=? c) && (c <=? 57).

(** The first pass of [float]: a non-ASCII space becomes a blank and a
    non-ASCII decimal digit its ASCII form; any other non-ASCII character
    is malformed.  Of the digits outside ASCII only the full-width forms
    (U+FF10 to U+FF19) are modelled. *)
Definition to_ascii (c : N) : res N :=
  if c <? 128 then Ok c
  else if is_space c then Ok 32
  else if (65296 <=? c) && (c <=? 65305) then Ok (c - 65296 + 48)
  else Raise.

Fixpoint transform (s : pystr) : res pystr :=
  match s with
  | [] => Ok []
  | c :: t => do c' <- to_ascii c; do t' <- transform t; Ok (c' :: t')
  end.

(** Underscores are allowed between two digits only; they are then
    dropped. *)
Fixpoint underscores_ok (prev : N) (s : pystr) : bool :=
  match s with
  | [] => negb (prev =? 95)
  | c :: t =>
      (if c =? 95 then is_digit prev
       else negb ((prev =? 95) && negb (is_digit c)))
      && underscores_ok c t
  end.

Fixpoint span_digits (s : pystr) : pystr * pystr :=
  match s with
  | c :: t => if is_digit c
              then let '(d, r) := span_digits t in (c :: d, r)
              else ([], s)
  | [] => ([], [])
  end.

Definition digits_value (d : pystr) : Z :=
  fold_left (fun acc c => (10 * acc + Z.of_N (c - 48))%Z) d 0%Z.

Definition lower (c : N) : N :=
  if (65 <=? c) && (c <=? 90) then c + 32 else c.

Fixpoint pystr_eqb (a b : pystr) : bool :=
  match a, b with
  | [], [] => true
  | x :: a', y :: b' => (x =? y) && pystr_eqb a' b'
  | _, _ => false
  end.

(** An optional sign: the rest and whether it was a minus. *)
Definition take_sign (s : pystr) : bool * pystr :=
  match s with
  | c :: t => if c =? 45 then (true, t)
              else if c =? 43 then (false, t) else (false, s)
  | [] => (false, s)
  end.

(** The exponent part: [Some] of its value when the whole of [s] is one,
    [None] when [s] is anything else than empty or a full exponent. *)
Definition parse_exponent (s : pystr) : option Z :=
  match s with
  | [] => Some 0%Z
  | c :: t =>
      if (c =? 101) || (c =? 69) then
        let '(neg, t) := take_sign t in
        let '(d, r) := span_digits t in
        match d, r with
        | _ :: _, [] => Some (if neg then (- digits_value d)%Z
                              else digits_value d)
        | _, _ => None
        end
      else None
  end.

(** A decimal literal without sign: digits, an optional point and digits,
    at least one digit in all, an optional exponent. *)
Definition parse_decimal (s : pystr) : option Q :=
  let '(ip, r) := span_digits s in
  let '(fp, r) := match r with
                  | c :: t => if c =? 46 then span_digits t else ([], r)
                  | [] => ([], r)
                  end in
  match (ip ++ fp)%list with
  | [] => None
  | _ =>
      match parse_exponent r with
      | Some e =>
          Some (inject_Z (digits_value (ip ++ fp))
                * Qpower 10 (e - Z.of_nat (length fp)))%Q
      | None => None
      end
  end.

Definition parse_inf_or_nan (s : pystr) : option pyfloat :=
  let '(neg, t) := take_sign s in
  let w := map lower t in
  if pystr_eqb w [105; 110; 102]
     || pystr_eqb w [105; 110; 102; 105; 110; 105; 116; 121]
  then Some (if neg then NInf else PInf)
  else if pystr_eqb w [110; 97; 110] then Some NaN
  else None.

(** [float(s)] for a [str]; [Raise] is the ValueError.  The value is the
    exact decimal: the rounding to the nearest double and the overflow to
    an infinity are abstracted, and a property below that depends on it
    says so or bounds the digits of the text. *)
Definition py_float (s : pystr) : res pyfloat :=
  do a <- transform s;
  if negb (underscores_ok 0 a) then Raise else
  let body := strip_with is_ascii_space (remove_char 95 a) in
  let '(neg, t) := take_sign body in
  match parse_decimal t with
  | Some q => Ok (Fin (if neg then - q else q)%Q)
  | None =>
      match parse_inf_or_nan body with
      | Some x => Ok x
      | None => Raise
      end
  end.

Local Close Scope N_scope.

(** *** convert_flow_value *)

(** The values the function is called with. *)
Inductive pyval : Type :=
| VInt (z : Z)
| VFloat (x : pyfloat)
| VStr (s : pystr)
| VOther.

(** The [try] block on a [str]. *)
Definition flow_of_str (value : pystr) : res pyfloat :=
  let value := remove_char comma (strip value) in
  let is_negative := startswith minus value in
  let value := if is_negative then tl value else value in
  do result <-
    (if contains yi value then
       do base_value <- py_float (remove_char yi value);
       Ok (base_value * Fin 100000000)%F
     else if contains wan value then
       do base_value <- py_float (remove_char wan value);
       Ok (base_value * Fin 10000)%F
     else py_float value);
  Ok (if is_negative then fneg result else result).

Definition convert_flow_value (value : pyval) : pyfloat :=
  match value with
  | VInt z => of_Z z
  | VFloat x => x
  | VStr s =>
      match flow_of_str s with
      | Ok result => result
      | Raise => Fin 0
      end
  | VOther => Fin 0
  end.

(** ** The trend classifier as the specification words it *)

(** The indicator set of the specification: the moving-average columns,
    aligned with the history and taken as computed; a slope is the first
    difference of a column. *)
Definition spec_slope (ma : list pyfloat) (i : nat) : pyfloat :=
  (nth i ma NaN - nth (i - 1) ma NaN)%F.

(** For one average at the last bar [t]: the most recent slope is positive
    and the mean of the slopes of the two bars before it is not. *)
Definition spec_turns (ma : list pyfloat) (t : nat) : Prop :=
  (spec_slope ma t >? Fin 0)%F = true /\
  ((spec_slope ma (t - 2) + spec_slope ma (t - 1)) / Fin 2 <=? Fin 0)%F = true.

Definition spec_turning_up (ma5 ma10 ma20 : list pyfloat) (t : nat) : Prop :=
  spec_turns ma5 t /\ spec_turns ma10 t /\ spec_turns ma20 t.

Definition spec_bullish_alignment (ma5 ma10 ma20 ma30 : list pyfloat)
    (t : nat) : Prop :=
  ((nth t ma5 NaN >? nth t ma10 NaN)%F = true /\
   (nth t ma10 NaN >? nth t ma20 NaN)%F = true /\
   (nth t ma20 NaN >? nth t ma30 NaN)%F = true) /\
  (spec_slope ma5 t >? Fin 0)%F = true /\
  (spec_slope ma10 t >? Fin 0)%F = true /\
  (spec_slope ma20 t >? Fin 0)%F = true /\
  (spec_slope ma30 t >? Fin 0)%F = true.

(** ** The technical block as the specification words it *)

(** Some explicitly enabled sub-check fails on a history. *)
Definition spec_sub_check_fails (c : Criteria) (hist_data : list Bar) : Prop :=
  (ma_alignment_cb c = true /\ ma_alignment hist_data = Ok false) \/
  (macd_golden_cb c = true /\ macd_golden hist_data = Ok false) \/
  (kdj_golden_cb c = true /\ kdj_golden hist_data = Ok false).

(** ** The scorer as the specification words it *)

Local Open Scope Z_scope.

Definition spec_rating (price_change volume_ratio turnover : pyfloat)
    (position : Position) : Z :=
  (if (price_change >? Fin 5)%F then 2
   else if (price_change >? Fin 2)%F then 1 else 0)
  + (if (volume_ratio >? Fin 2)%F then 1 else 0)
  + (if (turnover >? Fin 5)%F then 1 else 0)
  + (match position with Low => 2 | _ => 0 end).

Definition spec_risk (position : Position) : Z :=
  match position with High => 2 | _ => 0 end.

(** The label rule, as a relation between the two scores and the label. *)
Definition spec_label (rating risk : Z) (label : Advice) : Prop :=
  (4 <= rating /\ risk <= 1 -> label = Buy) /\
  (~ (4 <= rating /\ risk <= 1) -> 2 <= rating /\ risk <= 2 ->
   label = Watch) /\
  (~ (4 <= rating /\ risk <= 1) -> ~ (2 <= rating /\ risk <= 2) ->
   3 <= risk -> label = RiskWarning) /\
  (~ (4 <= rating /\ risk <= 1) -> ~ (2 <= rating /\ risk <= 2) ->
   ~ 3 <= risk -> label = Hold).

Local Close Scope Z_scope.

(** ** Sample data *)

Definition sample_bar (c : Q) : Bar := mkBar "20240102" c c c c 1000 0.

(** A bar that closed at 10 with the given percent change. *)
Definition session (pct : Q) : Bar := mkBar "20240102" 10 10 10 10 1000 pct.

(** Closes 1, 2, ..., n. *)
Definition rising_history (n : nat) : list Bar :=
  map (fun i => sample_bar (inject_Z (Z.of_nat i))) (seq 1 n).

(** Twenty-one falling closes and a jump on bar 22. *)
Definition v_history : list Bar :=
  map (fun i => sample_bar (inject_Z (23 - Z.of_nat i))) (seq 1 21)
  ++ [sample_bar 1000].

(** A provider that answers every call, with the same history on both
    history calls. *)
Definition sample_provider (spot : list Snapshot)
    (history : string -> list Bar) : Provider :=
  mkProvider (Ok spot) (fun code _ => Ok (history code))
             (fun code => Ok (history code)).

(** The same, but every history call for [bad] raises. *)
Definition failing_provider (bad : string) (spot : list Snapshot)
    (history : string -> list Bar) : Provider :=
  mkProvider (Ok spot)
             (fun code _ => if String.eqb code bad then Raise
                            else Ok (history code))
             (fun code => if String.eqb code bad then Raise
                          else Ok (history code)).

(** A row priced 10 with turnover 5 and a capitalization of 100 亿. *)
Definition sample_row (code : string) (pct vr : Q) : Snapshot :=
  mkSnapshot code "sample" (Fin 10) (Fin pct) (Fin 5) (Fin vr)
             (Fin 10000000000) (Fin 100000000) "bank" (Fin 10000000000).

(** Every range at its widest and every option off, but for the arguments:
    the percent-change maximum, the two volume-ratio bounds, the MA
    alignment box and the limit-up count and months. *)
Definition sample_criteria (change_max vr_min vr_max : Q) (ma : bool)
    (times months : Z) : Criteria :=
  mkCriteria 0 100 (-20) change_max vr_min vr_max 0 10000 0 10000
             false false false ma false false 0 0 times months.

Definition sample_histories (code : string) : list Bar :=
  if String.eqb code "600000" then [session 10; session 1]
  else if String.eqb code "600001" then [session 10; session 10]
  else if String.eqb code "600002" then rising_history 31
  else [].

(** * The rest of the engine

    The functions around the ones above: the volume-price test and the two
    list builders that call [check_ma_trend], the trend predictor, the RSI,
    the per-stock analysis and the market trend, the money-flow tiers, the
    second money-flow converter, the two presets of the filter widgets and
    the ordering of the table cells.  The conventions are the same. *)
(** ** check_vol_price_up *)

(** The loop over [range(days)]: bar [-(i+1)] against bar [-(i+2)]. *)
Fixpoint vol_price_days (hist_data : list Bar) (days : list nat) : res bool :=
  match days with
  | [] => Ok true
  | i :: rest =>
      do today <- iloc hist_data (- (Z.of_nat i + 1));
      do yesterday <- iloc hist_data (- (Z.of_nat i + 2));
      let price_up := Qltb (bar_close yesterday) (bar_close today) in
      let volume_up := Qltb (bar_volume yesterday) (bar_volume today) in
      if negb (price_up && volume_up) then Ok false
      else vol_price_days hist_data rest
  end.

Definition check_vol_price_up (stock_code : string) (hist_data : list Bar)
    (days : nat) : bool :=
  match (if (length hist_data <? days + 1)%nat then Ok false
         else vol_price_days hist_data (seq 0 days)) with
  | Ok b => b
  | Raise => false
  end.

(** ** clear_ma_trend_cache, show_ma_stocks, show_ma_up_stocks *)

Definition clear_ma_trend_cache (ma_trend_cache : gmap string (bool * option Bar))
  : gmap string (bool * option Bar) := ∅.

(** The six lists of names [show_ma_stocks] builds. *)
Record MaStocks : Type := mkMaStocks {
  ma_up_not_limit : list string;
  ma_up_not_limit_vol : list string;
  ma_up_limit : list string;
  ma_up_limit_vol : list string;
  ma_down : list string;
  ma_down_vol : list string
}.

Definition no_ma_stocks : MaStocks := mkMaStocks [] [] [] [] [] [].

(** [l.append(x)] under a condition. *)
Definition append_if (b : bool) (l : list string) (x : string) : list string :=
  if b then l ++ [x] else l.

(** One iteration of the loop of [show_ma_stocks]; the cache written by
    [check_ma_trend] stays written when the rest of the iteration raises. *)
Definition ma_stocks_step (ak : Provider) (stock : Snapshot)
    (st : gmap string (bool * option Bar) * MaStocks)
  : gmap string (bool * option Bar) * MaStocks :=
  let '(cache, l) := st in
  let '((is_bullish, latest), cache) := check_ma_trend ak cache (code stock) in
  if is_bullish then
    match stock_zh_a_hist ak (code stock) 5 with
    | Raise => (cache, l)
    | Ok hist_data =>
        let is_vol_price_up := check_vol_price_up (code stock) hist_data 3 in
        let change_pct := pct_change stock in
        if (change_pct >? Fin 0)%F then
          if (change_pct >=? Fin 9.5)%F then
            (cache,
             mkMaStocks (ma_up_not_limit l) (ma_up_not_limit_vol l)
                        (ma_up_limit l ++ [name stock])
                        (append_if is_vol_price_up (ma_up_limit_vol l)
                                   (name stock))
                        (ma_down l) (ma_down_vol l))
          else
            (cache,
             mkMaStocks (ma_up_not_limit l ++ [name stock])
                        (append_if is_vol_price_up (ma_up_not_limit_vol l)
                                   (name stock))
                        (ma_up_limit l) (ma_up_limit_vol l)
                        (ma_down l) (ma_down_vol l))
        else
          (cache,
           mkMaStocks (ma_up_not_limit l) (ma_up_not_limit_vol l)
                      (ma_up_limit l) (ma_up_limit_vol l)
                      (ma_down l ++ [name stock])
                      (append_if is_vol_price_up (ma_down_vol l) (name stock)))
    end
  else (cache, l).

(** [show_ma_stocks]: the cache after the call and the six lists, [None]
    when the snapshot could not be fetched. *)
Definition show_ma_stocks (ak : Provider)
    (ma_trend_cache : gmap string (bool * option Bar))
  : gmap string (bool * option Bar) * option MaStocks :=
  match stock_zh_a_spot_em ak with
  | Raise => (ma_trend_cache, None)
  | Ok df =>
      let main_board_stocks := List.filter (fun r => main_board (code r)) df in
      let '(cache, l) :=
        fold_left (fun st stock => ma_stocks_step ak stock st)
                  main_board_stocks (ma_trend_cache, no_ma_stocks) in
      (cache, Some l)
  end.

(** The text shown in the window: the three base lists, in this order. *)
Definition all_ma_stocks (l : MaStocks) : list string :=
  ma_up_not_limit l ++ ma_up_limit l ++ ma_down l.

Definition ma_up_step (ak : Provider) (stock : Snapshot)
    (st : gmap string (bool * option Bar) * list string)
  : gmap string (bool * option Bar) * list string :=
  let '(cache, ma_up_stocks) := st in
  let '((is_bullish, latest), cache) := check_ma_trend ak cache (code stock) in
  if is_bullish then (cache, ma_up_stocks ++ [name stock])
  else (cache, ma_up_stocks).

Definition show_ma_up_stocks (ak : Provider)
    (ma_trend_cache : gmap string (bool * option Bar))
  : gmap string (bool * option Bar) * option (list string) :=
  match stock_zh_a_spot_em ak with
  | Raise => (ma_trend_cache, None)
  | Ok df =>
      let main_board_up_stocks :=
        List.filter (fun r => (pct_change r >? Fin 0)%F && main_board (code r))
                    df in
      let '(cache, l) :=
        fold_left (fun st stock => ma_up_step ak stock st)
                  main_board_up_stocks (ma_trend_cache, []) in
      (cache, Some l)
  end.

(** ** predict_trend *)

(** 强势上涨, 震荡上涨, 震荡整理, 可能回调, 无法预测. *)
Inductive Trend : Type := StrongUp | MildUp | Sideways | Pullback | Unpredictable.

Local Open Scope Z_scope.

Definition trend_score (latest_volume : Q) (volume_mean : pyfloat)
    (latest_ma5 latest_ma10 latest_ma20 latest_rsi latest_macd latest_signal
       : pyfloat) : Z :=
  let trend_score := 0 in
  let trend_score :=
    if (latest_ma5 >? latest_ma10)%F && (latest_ma10 >? latest_ma20)%F
    then trend_score + 2
    else if (latest_ma5 >? latest_ma10)%F then trend_score + 1
    else trend_score in
  let trend_score :=
    if (Fin 30 <=? latest_rsi)%F && (latest_rsi <=? Fin 70)%F
    then trend_score + 1
    else if (latest_rsi >? Fin 70)%F then trend_score - 1
    else trend_score in
  let trend_score :=
    if (latest_macd >? latest_signal)%F then trend_score + 1
    else if (latest_macd <? latest_signal)%F then trend_score - 1
    else trend_score in
  let trend_score :=
    if (Fin latest_volume >? volume_mean)%F then trend_score + 1
    else trend_score in
  trend_score.

Definition trend_of_score (trend_score : Z) : Trend :=
  if trend_score >=? 3 then StrongUp
  else if trend_score >=? 1 then MildUp
  else if trend_score >=? -1 then Sideways
  else Pullback.

Local Close Scope Z_scope.

(** [s.mean()] of a column of numbers. *)
Definition column_mean (s : list Q) : pyfloat :=
  match s with
  | [] => NaN
  | _ => Fin (Qmean s)
  end.

Definition predict_trend (hist_data : list Bar)
    (ma5 ma10 ma20 rsi macd signal : list pyfloat) : Trend :=
  match
    (do latest <- iloc hist_data (-1);
     do latest_ma5 <- iloc ma5 (-1);
     do latest_ma10 <- iloc ma10 (-1);
     do latest_ma20 <- iloc ma20 (-1);
     do latest_rsi <- iloc rsi (-1);
     do latest_macd <- iloc macd (-1);
     do latest_signal <- iloc signal (-1);
     Ok (trend_of_score
           (trend_score (bar_volume latest)
                        (column_mean (map bar_volume hist_data))
                        latest_ma5 latest_ma10 latest_ma20
                        latest_rsi latest_macd latest_signal)))
  with
  | Ok t => t
  | Raise => Unpredictable
  end.

(** ** The streak of the limit-up analysis *)

Fixpoint leading_limit_ups (sessions : list Bar) : nat :=
  match sessions with
  | b :: rest => if Qle_bool 9.5 (bar_pct b) then S (leading_limit_ups rest)
                 else 0
  | [] => 0
  end.

(** The loop [for i in range(len(hist_data)-1, -1, -1)] that counts the
    sessions at the limit from the latest one backwards and stops at the
    first that is not. *)
Definition consecutive_limit_ups (hist_data : list Bar) : nat :=
  leading_limit_ups (rev hist_data).

(** ** The lists of show_ma_stocks, row by row *)

(** The flag [check_ma_trend] answers for a symbol against a given cache. *)
Definition trend_flag (ak : Provider)
    (cache : gmap string (bool * option Bar)) (stock_code : string) : bool :=
  fst (fst (check_ma_trend ak cache stock_code)).

(** The five-day history of a row was fetched. *)
Definition fetched5 (ak : Provider) (r : Snapshot) : bool :=
  match stock_zh_a_hist ak (code r) 5 with
  | Ok _ => true
  | Raise => false
  end.

(** [check_vol_price_up] on the five-day history of a row. *)
Definition vol_flag (ak : Provider) (r : Snapshot) : bool :=
  match stock_zh_a_hist ak (code r) 5 with
  | Ok hist_data => check_vol_price_up (code r) hist_data 3
  | Raise => false
  end.

(** The names of the rows that satisfy a condition. *)
Definition names_where (f : Snapshot -> bool) (df : list Snapshot)
  : list string :=
  map name (List.filter f df).

(** A cache that answers every symbol as the initial cache does. *)
Definition agrees (ak : Provider) (cache0 cache : gmap string (bool * option Bar))
  : Prop :=
  forall stock_code,
    fst (check_ma_trend ak cache stock_code) =
    fst (check_ma_trend ak cache0 stock_code).

(** The six lists of [show_ma_stocks] as conditions on a row: the flag is
    the one [check_ma_trend] answers against the initial cache. *)
Definition ma_listed (ak : Provider)
    (cache0 : gmap string (bool * option Bar)) (r : Snapshot) : bool :=
  main_board (code r) && trend_flag ak cache0 (code r) && fetched5 ak r.

Definition is_up (r : Snapshot) : bool := (pct_change r >? Fin 0)%F.
Definition is_limit (r : Snapshot) : bool := (pct_change r >=? Fin 9.5)%F.

Definition ma_stocks_spec (ak : Provider)
    (cache0 : gmap string (bool * option Bar)) (df : list Snapshot) : MaStocks :=
  let listed := ma_listed ak cache0 in
  mkMaStocks
    (names_where (fun r => listed r && (is_up r && negb (is_limit r))) df)
    (names_where (fun r => listed r && (is_up r && negb (is_limit r))
                           && vol_flag ak r) df)
    (names_where (fun r => listed r && (is_up r && is_limit r)) df)
    (names_where (fun r => listed r && (is_up r && is_limit r)
                           && vol_flag ak r) df)
    (names_where (fun r => listed r && negb (is_up r)) df)
    (names_where (fun r => listed r && negb (is_up r) && vol_flag ak r) df).

(** A session that closed at the limit. *)
Definition at_limit (b : Bar) : bool := Qle_bool 9.5 (bar_pct b).

(** ** Stable sorting *)

(** Insertion of [x] in front of the first element it goes before; folding
    it from the right over a list is a stable sort, as [list.sort] and
    [nlargest] are. *)
Fixpoint insert_by {A} (before : A -> A -> bool) (x : A) (l : list A)
  : list A :=
  match l with
  | [] => [x]
  | y :: t => if before x y then x :: y :: t else y :: insert_by before x t
  end.

Definition sort_by {A} (before : A -> A -> bool) (l : list A) : list A :=
  fold_right (insert_by before) [] l.

Definition goes_first {A} (before : A -> A -> bool) (x y : A) : Prop :=
  before x y = true.

(** A history whose closes are all equal to [c]. *)
Definition flat_closes (c : Q) (hist_data : list Bar) : Prop :=
  Forall (fun b => bar_close b == c) hist_data.

(** ** NumericTableWidgetItem.__lt__ *)

Definition percent : N := 37.

Definition parse_percentage (s : pystr) : pyfloat :=
  let s := remove_char percent (strip s) in
  match py_float s with
  | Ok x => (x / Fin 100)%F
  | Raise => NInf
  end.

(** [self < other] on the texts of two cells; [super_lt] is the comparison
    of the base class, used when a text is not a number. *)
Definition numeric_item_lt (super_lt : pystr -> pystr -> bool)
    (self other : pystr) : bool :=
  match
    (if contains percent self && contains percent other
     then Ok (parse_percentage self <? parse_percentage other)%F
     else do a <- py_float self; do b <- py_float other; Ok (a <? b)%F)
  with
  | Ok r => r
  | Raise => super_lt self other
  end.

(** ** The converter of show_money_flow_rank *)

(** The second [convert_flow_value], which answers in units of 亿;
    [float_of_other] is what [float] gives on a value that is neither a
    [str], an [int] nor a [float]. *)
Definition rank_flow_value (float_of_other : res pyfloat) (value : pyval)
  : pyfloat :=
  match
    (match value with
     | VStr s =>
         let value := remove_char comma s in
         if contains yi value then py_float (remove_char yi value)
         else if contains wan value then
           do x <- py_float (remove_char wan value); Ok (x / Fin 10000)%F
         else do x <- py_float value; Ok (x / Fin 100000000)%F
     | VInt z => Ok (of_Z z / Fin 100000000)%F
     | VFloat x => Ok (x / Fin 100000000)%F
     | VOther => do x <- float_of_other; Ok (x / Fin 100000000)%F
     end)
  with
  | Ok r => r
  | Raise => Fin 0
  end.

(** ** Decimal texts *)

(** An optional minus, digits, and an optional point with digits. *)
Definition decimal_text (neg : bool) (ip fp : pystr) : pystr :=
  ((if neg then [minus] else [])
   ++ ip ++ match fp with [] => [] | _ => 46%N :: fp end)%list.

Definition decimal_value (neg : bool) (ip fp : pystr) : Q :=
  let q := inject_Z (digits_value (ip ++ fp))
           * Qpower 10 (0 - Z.of_nat (length fp)) in
  if neg then - q else q.

Definition all_digits (s : pystr) : bool := forallb is_digit s.

(** The characters of a decimal text. *)
Definition decimal_char (c : N) : bool :=
  (is_digit c || (c =? 46) || (c =? 45))%N.

(** The unit suffixes of a money-flow text and their factors. *)
Definition flow_units : list (pystr * Q) :=
  [([yi], 100000000); ([wan], 10000); ([], 1)].

(** ** RSI *)

(** [s.where(cond, 0)]. *)
Definition where_else_zero (cond : pyfloat -> bool) (s : list pyfloat)
  : list pyfloat :=
  map (fun x => if cond x then x else Fin 0) s.

(** The mean of a window of finite or undefined values: undefined as soon
    as one value is. *)
Definition fmean (w : list pyfloat) : pyfloat :=
  (fold_left fadd w (Fin 0) / of_nat (length w))%F.

(** [s.rolling(n).mean()] on such a series. *)
Definition rolling_fmean (n : nat) (s : list pyfloat) : list pyfloat :=
  map (fun i => if (S i <? n)%nat then NaN else fmean (window n i s))
      (seq 0 (length s)).

(** The RSI of a column of closes, as [calculate_rsi] of the chart window,
    the limit-up analysis and the market analysis compute it. *)
Definition calculate_rsi (data : list Q) (periods : nat) : list pyfloat :=
  let delta := diff (map Fin data) in
  let gain :=
    rolling_fmean periods
      (where_else_zero (fun d => (d >? Fin 0)%F) delta) in
  let loss :=
    rolling_fmean periods
      (map fneg (where_else_zero (fun d => (d <? Fin 0)%F) delta)) in
  let rs := map2 fdiv gain loss in
  map (fun x => (Fin 100 - Fin 100 / (Fin 1 + x))%F) rs.

(** The gain and the loss of bar [i] over the bar before it, as the two
    [where] columns hold them. *)
Definition gain_at (data : list Q) (i : nat) : Q :=
  match i with
  | O => 0
  | S j => let d := nth i data 0 + - nth j data 0 in
           if Qltb 0 d then d else 0
  end.

Definition loss_at (data : list Q) (i : nat) : Q :=
  match i with
  | O => - 0
  | S j => let d := nth i data 0 + - nth j data 0 in
           if Qltb d 0 then - d else - 0
  end.

(** The sum of [g] over the [n] positions from [a] on. *)
Definition sum_over (g : nat -> Q) (a n : nat) : Q :=
  fold_left Qplus (map g (seq a n)) 0.

(** ** The trend of analyze_market_trend *)

(** 强势上涨, 震荡上涨, 强势下跌, 震荡下跌, 震荡整理. *)
Inductive MarketTrend : Type :=
  StrongRise | SlowRise | StrongFall | SlowFall | Consolidation.

Definition trend_label (bullish bearish golden dead above below : bool)
  : MarketTrend :=
  if bullish && golden then StrongRise
  else if bullish && above then SlowRise
  else if bearish && dead then StrongFall
  else if bearish && below then SlowFall
  else Consolidation.

(** The value of [trend] that [analyze_market_trend] computes from the
    index frame: [None] is the early return on an empty frame, [Raise] an
    exception on the way, which makes the function answer None. *)
Definition market_trend (sh_index : list Bar) : res (option MarketTrend) :=
  if empty sh_index then Ok None else
  let close := closes sh_index in
  let ma5 := rolling_mean 5 close in
  let ma10 := rolling_mean 10 close in
  let ma20 := rolling_mean 20 close in
  let ma60 := rolling_mean 60 close in
  let macd := macd_line sh_index in
  let signal := ewm_mean (alpha_of_span 9) false macd in
  let rsi := calculate_rsi close 14 in
  do latest <- iloc sh_index (-1);
  do latest_ma5 <- iloc ma5 (-1);
  do latest_ma10 <- iloc ma10 (-1);
  do latest_ma20 <- iloc ma20 (-1);
  do latest_ma60 <- iloc ma60 (-1);
  do latest_macd <- iloc macd (-1);
  do latest_signal <- iloc signal (-1);
  do latest_rsi <- iloc rsi (-1);
  let bullish := ((latest_ma5 >? latest_ma10) && (latest_ma10 >? latest_ma20)
                  && (latest_ma20 >? latest_ma60))%F in
  let bearish := ((latest_ma5 <? latest_ma10) && (latest_ma10 <? latest_ma20)
                  && (latest_ma20 <? latest_ma60))%F in
  do ma5_before <- iloc ma5 (-5);
  do ma10_before <- iloc ma10 (-5);
  do golden <- Ok (latest_macd >? latest_signal)%F and
               (do a <- iloc macd (-2); do b <- iloc signal (-2);
                Ok (a <=? b)%F);
  do dead <- Ok (latest_macd <? latest_signal)%F and
             (do a <- iloc macd (-2); do b <- iloc signal (-2);
              Ok (a >=? b)%F);
  let above := ((latest_macd >? Fin 0) && (latest_signal >? Fin 0))%F in
  let below := ((latest_macd <? Fin 0) && (latest_signal <? Fin 0))%F in
  Ok (Some (trend_label bullish bearish golden dead above below)).

(** ** analyze_money_flow *)

Local Open Scope N_scope.

(** [p in s] for two texts. *)
Fixpoint is_prefix (p s : pystr) : bool :=
  match p, s with
  | [], _ => true
  | x :: p', y :: s' => (x =? y) && is_prefix p' s'
  | _ :: _, [] => false
  end.

Fixpoint is_infix (p s : pystr) : bool :=
  is_prefix p s
  || match s with
     | [] => false
     | _ :: t => is_infix p t
     end.

Definition main_net_inflow : pystr := [20027; 21147; 20928; 27969; 20837].
Definition big_net_inflow : pystr := [22823; 21333; 20928; 27969; 20837].
Definition super_net_inflow : pystr := 36229 :: big_net_inflow.
Definition mid_net_inflow : pystr := [20013; 21333; 20928; 27969; 20837].
Definition change_percent : pystr := [28072; 36300; 24133].
Definition super_mark : pystr := [36229].

Local Close Scope N_scope.

(** [abs] of a float. *)
Definition fabs (x : pyfloat) : pyfloat :=
  match x with
  | Fin q => Fin (Qabs q)
  | PInf | NInf => PInf
  | NaN => NaN
  end.

(** A row of the fund-flow frame: the 代码 cell, a [str], when the frame
    has the column, and the cells by column name (names are distinct). *)
Record FlowRow : Type := mkFlowRow {
  flow_code : option string;
  flow_cells : list (pystr * pyval)
}.

(** The [stock_info] dict built for a row. *)
Record FlowInfo : Type := mkFlowInfo {
  info_code : string;
  info_name : string;
  info_change_pct : pyfloat;
  info_flow : pyfloat;
  info_super : pyfloat;
  info_big : pyfloat;
  info_mid : pyfloat
}.

Record FlowTiers : Type := mkFlowTiers {
  stock_flows_5000w : list FlowInfo;
  stock_flows_1000w : list FlowInfo;
  stock_flows_100w : list FlowInfo
}.

(** The amount a cell text stands for, in yuan. *)
Definition amount_of_text (value : pystr) : res pyfloat :=
  let value := remove_char comma value in
  if contains yi value then
    do x <- py_float (remove_char yi value); Ok (x * Fin 100000000)%F
  else if contains wan value then
    do x <- py_float (remove_char wan value); Ok (x * Fin 10000)%F
  else py_float value.

Definition percent_of_text (value : pystr) : res pyfloat :=
  py_float (remove_char percent value).

(** [dict(zip(codes, names))]: a later row replaces an earlier one. *)
Definition name_map (stock_info : list Snapshot) : gmap string string :=
  fold_left (fun m r => <[code r := name r]> m) stock_info ∅.

(** Stable sort in descending order of the absolute flow, as
    [sort(key=..., reverse=True)] on keys that are numbers. *)
Definition larger_flow (x y : FlowInfo) : bool :=
  (fabs (info_flow x) >=? fabs (info_flow y))%F.

Definition tier_5000w (info : FlowInfo) : bool :=
  (fabs (info_flow info) >=? Fin 50000000)%F.
Definition tier_1000w (info : FlowInfo) : bool :=
  negb (tier_5000w info) && (fabs (info_flow info) >=? Fin 10000000)%F.
Definition tier_100w (info : FlowInfo) : bool :=
  negb (tier_5000w info)
  && negb (fabs (info_flow info) >=? Fin 10000000)%F
  && (fabs (info_flow info) >=? Fin 1000000)%F.

Section MoneyFlow.
(** [str(value)] of a cell. *)
Variable py_str : pyval -> pystr.

(** A loop [for col in row.index] that takes the first column that is
    wanted and whose cell parses, and 0 when there is none. *)
Fixpoint first_parsed (wanted : pystr -> bool) (parse : pystr -> res pyfloat)
    (cells : list (pystr * pyval)) : pyfloat :=
  match cells with
  | [] => Fin 0
  | (col, v) :: rest =>
      if wanted col then
        match parse (py_str v) with
        | Ok x => x
        | Raise => first_parsed wanted parse rest
        end
      else first_parsed wanted parse rest
  end.

(** The body of the loop over the rows: [None] is a skipped row. *)
Definition flow_info (stock_name_map : gmap string string) (row : FlowRow)
  : option FlowInfo :=
  match flow_code row with
  | None => None
  | Some stock_code =>
      if String.eqb stock_code "" then None else
      let stock_name :=
        default (String.append "未知股票" stock_code)
                (stock_name_map !! stock_code) in
      let main_flow :=
        first_parsed (is_infix main_net_inflow) amount_of_text
                     (flow_cells row) in
      let super_flow :=
        first_parsed (is_infix super_net_inflow) amount_of_text
                     (flow_cells row) in
      let big_flow :=
        first_parsed (fun col => is_infix big_net_inflow col
                                 && negb (is_infix super_mark col))
                     amount_of_text (flow_cells row) in
      let mid_flow :=
        first_parsed (is_infix mid_net_inflow) amount_of_text
                     (flow_cells row) in
      let change_pct :=
        first_parsed (is_infix change_percent) percent_of_text
                     (flow_cells row) in
      Some (mkFlowInfo stock_code stock_name change_pct main_flow
                       super_flow big_flow mid_flow)
  end.

Definition classify (tiers : FlowTiers) (info : FlowInfo) : FlowTiers :=
  if (fabs (info_flow info) >=? Fin 50000000)%F then
    mkFlowTiers (stock_flows_5000w tiers ++ [info])
                (stock_flows_1000w tiers) (stock_flows_100w tiers)
  else if (fabs (info_flow info) >=? Fin 10000000)%F then
    mkFlowTiers (stock_flows_5000w tiers)
                (stock_flows_1000w tiers ++ [info]) (stock_flows_100w tiers)
  else if (fabs (info_flow info) >=? Fin 1000000)%F then
    mkFlowTiers (stock_flows_5000w tiers) (stock_flows_1000w tiers)
                (stock_flows_100w tiers ++ [info])
  else tiers.

Definition flow_step (stock_name_map : gmap string string)
    (tiers : FlowTiers) (row : FlowRow) : FlowTiers :=
  match flow_info stock_name_map row with
  | Some info => classify tiers info
  | None => tiers
  end.

(** [analyze_money_flow]: [stock_flow] is the answer of the fund-flow rank
    call; [None] is the answer on an exception. *)
Definition analyze_money_flow (stock_flow : res (list FlowRow))
    (ak : Provider) : option FlowTiers :=
  match stock_flow with
  | Raise => None
  | Ok stock_flow =>
      match stock_zh_a_spot_em ak with
      | Raise => None
      | Ok stock_info =>
          let stock_name_map := name_map stock_info in
          let tiers := fold_left (flow_step stock_name_map) stock_flow
                                 (mkFlowTiers [] [] []) in
          Some (mkFlowTiers
                  (sort_by larger_flow (stock_flows_5000w tiers))
                  (sort_by larger_flow (stock_flows_1000w tiers))
                  (sort_by larger_flow (stock_flows_100w tiers)))
      end
  end.

(** The infos of the rows that are not skipped, in frame order. *)
Definition flow_infos (stock_name_map : gmap string string)
    (stock_flow : list FlowRow) : list FlowInfo :=
  flat_map (fun row => match flow_info stock_name_map row with
                       | Some info => [info]
                       | None => []
                       end) stock_flow.
End MoneyFlow.

(** ** clear_filter_conditions, set_default_conditions *)

(** The widgets after [clear_filter_conditions]; every value is within the
    range of its widget. *)
Definition clear_filter_conditions (c : Criteria) : Criteria :=
  mkCriteria 0 0 (-20) 20 0 0 0 10000 0 10000
             false false false false false false 0 0 0 0.

(** The widgets after [set_default_conditions]. *)
Definition set_default_conditions (c : Criteria) : Criteria :=
  mkCriteria 3 10 3 10 1 10 1 5 50 300
             true false false false false false 0 0 1 1.

(** ** The analysis of one limit-up stock *)

(** [x.iloc[-1] ⋈ y.iloc[-1] ⋈ z.iloc[-1]]: a chained comparison reads
    its third operand only when the first comparison holds. *)
Definition chained (cmp : pyfloat -> pyfloat -> bool)
    (x y z : list pyfloat) : res bool :=
  do a <- iloc x (-1);
  do b <- iloc y (-1);
  if cmp a b then do c <- iloc z (-1); Ok (cmp b c) else Ok false.

(** [(ma5.iloc[-1] - ma5.iloc[-5]) / ma5.iloc[-5] * 100]. *)
Definition ma5_slope (ma5 : list pyfloat) : res pyfloat :=
  do a <- iloc ma5 (-1);
  do b <- iloc ma5 (-5);
  do b' <- iloc ma5 (-5);
  Ok ((a - b) / b' * Fin 100)%F.

(** [x.iloc[-1] < y.iloc[-1] and x.iloc[-2] >= y.iloc[-2]]. *)
Definition dead_cross (x y : list pyfloat) : res bool :=
  (do a <- iloc x (-1); do b <- iloc y (-1); Ok (a <? b)%F) and
  (do a <- iloc x (-2); do b <- iloc y (-2); Ok (a >=? b)%F).

(** [x.iloc[-1] > 0 and y.iloc[-1] > 0]. *)
Definition both_positive (x y : list pyfloat) : res bool :=
  (do a <- iloc x (-1); Ok (a >? Fin 0)%F) and
  (do b <- iloc y (-1); Ok (b >? Fin 0)%F).

(** What an [if a: ... elif b: ...] evaluates. *)
Definition if_elif (a b : res bool) : res unit :=
  do x <- a; if x then Ok tt else do y <- b; Ok tt.

(** 强烈推荐, 建议关注, 强烈风险, 注意风险, 中性. *)
Inductive LimitUpRating : Type :=
  StronglyRecommended | WorthWatching | StrongRisk | SomeRisk | Neutral.

Record Scores : Type := mkScores {
  rating_score : Z;
  risk_score : Z
}.

Definition rate (n : Z) (s : Scores) : Scores :=
  mkScores (rating_score s + n) (risk_score s).
Definition risk (n : Z) (s : Scores) : Scores :=
  mkScores (rating_score s) (risk_score s + n).

Local Open Scope Z_scope.

Definition limit_up_rating (s : Scores) : LimitUpRating :=
  if (rating_score s >=? 8) && (risk_score s <=? 2) then StronglyRecommended
  else if (rating_score s >=? 6) && (risk_score s <=? 3) then WorthWatching
  else if risk_score s >=? 5 then StrongRisk
  else if risk_score s >=? 3 then SomeRisk
  else Neutral.

Local Close Scope Z_scope.

(** The indicator columns of a history. *)
Record Indicators : Type := mkIndicators {
  ind_ma5 : list pyfloat;
  ind_ma10 : list pyfloat;
  ind_ma20 : list pyfloat;
  ind_rsi : list pyfloat;
  ind_macd : list pyfloat;
  ind_signal : list pyfloat
}.

Definition indicators (hist_data : list Bar) : Indicators :=
  let close := closes hist_data in
  let macd := macd_line hist_data in
  mkIndicators (rolling_mean 5 close) (rolling_mean 10 close)
               (rolling_mean 20 close) (calculate_rsi close 14)
               macd (ewm_mean (alpha_of_span 9) false macd).

(** The tests of the feature list, in order; the texts they append are
    left out. *)
Definition feature_tests (i : Indicators) : res unit :=
  do _ <- if_elif (chained fgt (ind_ma5 i) (ind_ma10 i) (ind_ma20 i))
                  (chained flt (ind_ma5 i) (ind_ma10 i) (ind_ma20 i));
  do _ <- if_elif (do x <- iloc (ind_rsi i) (-1); Ok (x >? Fin 80)%F)
                  (do x <- iloc (ind_rsi i) (-1); Ok (x <? Fin 20)%F);
  if_elif (golden_cross (ind_macd i) (ind_signal i))
          (dead_cross (ind_macd i) (ind_signal i)).

(** The tests of the reason list, in order. *)
Definition reason_tests (i : Indicators) : res unit :=
  do bullish <- chained fgt (ind_ma5 i) (ind_ma10 i) (ind_ma20 i);
  do _ <- (if bullish then do slope <- ma5_slope (ind_ma5 i); Ok tt
           else do bearish <- chained flt (ind_ma5 i) (ind_ma10 i)
                                      (ind_ma20 i);
                Ok tt);
  do _ <- if_elif (do x <- iloc (ind_rsi i) (-1); Ok (x >? Fin 80)%F)
                  (do x <- iloc (ind_rsi i) (-1);
                   if (x <? Fin 30)%F then Ok true
                   else do y <- iloc (ind_rsi i) (-1);
                        Ok ((Fin 50 <? y) && (y <? Fin 70))%F);
  if_elif (golden_cross (ind_macd i) (ind_signal i))
          (both_positive (ind_macd i) (ind_signal i)).

(** The position of the latest close within the closes of the history, in
    percent; 50 when it cannot be computed. *)
Definition current_position (hist_data : list Bar) (latest : Bar) : pyfloat :=
  let price_max := series_max (closes hist_data) in
  let price_min := series_min (closes hist_data) in
  let price_range := (price_max - price_min)%F in
  if feq price_range (Fin 0) || feq price_min (Fin 0) then Fin 50
  else ((Fin (bar_close latest) - price_min) / price_range * Fin 100)%F.

(** The nine items of the rating, in order; [flow_value] is the net
    inflow of the industry of the stock, [None] when its lookup raises or
    finds nothing. *)
Definition score_streak (limit_up_count : nat) (s : Scores) : Scores :=
  if (3 <=? limit_up_count)%nat then risk 1 (rate 2 s)
  else if (limit_up_count =? 2)%nat then rate 1 s
  else s.

Definition score_volume_ratio (stock : Snapshot) (s : Scores) : Scores :=
  if (volume_ratio stock >? Fin 3)%F then rate 2 s
  else if (volume_ratio stock >? Fin 2)%F then rate 1 s
  else if (volume_ratio stock <? Fin 0.8)%F then risk 1 s
  else s.

Definition score_ma (i : Indicators) (s : Scores) : res Scores :=
  do bullish <- chained fgt (ind_ma5 i) (ind_ma10 i) (ind_ma20 i);
  if bullish then
    do slope <- ma5_slope (ind_ma5 i);
    Ok (if (slope >? Fin 2)%F then rate 2 s else rate 1 s)
  else
    do bearish <- chained flt (ind_ma5 i) (ind_ma10 i) (ind_ma20 i);
    Ok (if bearish then risk 1 s else s).

Definition score_rsi (i : Indicators) (s : Scores) : res Scores :=
  do x <- iloc (ind_rsi i) (-1);
  if (Fin 50 <? x)%F && (x <? Fin 70)%F then Ok (rate 1 s) else
  do x <- iloc (ind_rsi i) (-1);
  if (x >? Fin 80)%F then Ok (risk 2 s) else
  do x <- iloc (ind_rsi i) (-1);
  Ok (if (x <? Fin 30)%F then risk 1 s else s).

Definition score_macd (i : Indicators) (s : Scores) : res Scores :=
  do golden <- golden_cross (ind_macd i) (ind_signal i);
  if golden then Ok (rate 2 s) else
  do strong <- both_positive (ind_macd i) (ind_signal i);
  if strong then Ok (rate 1 s) else
  do dead <- dead_cross (ind_macd i) (ind_signal i);
  Ok (if dead then risk 1 s else s).

Definition score_industry (flow_value : option pyfloat) (s : Scores)
  : Scores :=
  match flow_value with
  | None => s
  | Some flow_value =>
      if (flow_value >? Fin 100000000)%F then rate 2 s
      else if (flow_value >? Fin 0)%F then rate 1 s
      else if (flow_value <? Fin (-100000000))%F then risk 2 s
      else if (flow_value <? Fin 0)%F then risk 1 s
      else s
  end.

Definition score_position (position : pyfloat) (s : Scores) : Scores :=
  if (position <? Fin 30)%F then rate 2 s
  else if (position >? Fin 70)%F then risk 2 s
  else s.

Definition score_volume (hist_data : list Bar) (latest : Bar) (s : Scores)
  : Scores :=
  let vol_mean := column_mean (map bar_volume hist_data) in
  if (Fin (bar_volume latest) >? vol_mean * Fin 3)%F then rate 2 s
  else if (Fin (bar_volume latest) >? vol_mean * Fin 2)%F then rate 1 s
  else if (Fin (bar_volume latest) <? vol_mean * Fin 0.5)%F then risk 1 s
  else s.

Definition score_turnover (stock : Snapshot) (s : Scores) : Scores :=
  if (turnover stock >? Fin 15)%F then rate 2 s
  else if (turnover stock >? Fin 10)%F then rate 1 s
  else if (turnover stock <? Fin 3)%F then risk 1 s
  else s.

(** What the analysis of one stock keeps of its computation here: the
    predicted trend, the two scores and the rating. *)
Record LimitUpAnalysis : Type := mkLimitUpAnalysis {
  analysed : Snapshot;
  trend_prediction : Trend;
  final_scores : Scores;
  rating : LimitUpRating
}.

(** The body of the [try] of one stock from its non-empty history on:
    indicators, feature tests, prediction, reason tests, scores and
    rating.  The look-ups of the industry and of the news have their own
    handlers and never raise. *)
Definition limit_up_analysis (flow_value : option pyfloat) (stock : Snapshot)
    (hist_data : list Bar) : res LimitUpAnalysis :=
  let i := indicators hist_data in
  do latest <- iloc hist_data (-1);
  let limit_up_count := consecutive_limit_ups hist_data in
  do _ <- feature_tests i;
  let trend := predict_trend hist_data (ind_ma5 i) (ind_ma10 i) (ind_ma20 i)
                             (ind_rsi i) (ind_macd i) (ind_signal i) in
  do _ <- reason_tests i;
  let position := current_position hist_data latest in
  let s := mkScores 0 0 in
  let s := score_streak limit_up_count s in
  let s := score_volume_ratio stock s in
  do s <- score_ma i s;
  do s <- score_rsi i s;
  do s <- score_macd i s;
  let s := score_industry flow_value s in
  let s := score_position position s in
  let s := score_volume hist_data latest s in
  let s := score_turnover stock s in
  Ok (mkLimitUpAnalysis stock trend s (limit_up_rating s)).

(** A score that grew by at most [a] in rating, [b] in risk and [c] in
    their sum. *)
Definition grows (a b c : Z) (s s' : Scores) : Prop :=
  (rating_score s <= rating_score s' <= rating_score s + a)%Z /\
  (risk_score s <= risk_score s' <= risk_score s + b)%Z /\
  (rating_score s' + risk_score s' <= rating_score s + risk_score s + c)%Z.

(** A row has a history to analyse. *)
Definition has_history (ak : Provider) (stock : Snapshot) : bool :=
  match stock_zh_a_hist ak (code stock) 30 with
  | Ok hist_data => negb (empty hist_data)
  | Raise => false
  end.

(** ** Further sample data *)

(** The widest ranges, with only the volume box ticked. *)
Definition volume_criteria : Criteria :=
  mkCriteria 0 100 (-20) 20 0 0 0 10000 0 10000
             false false true false false false 0 0 0 0.

(** Three one-minute bars with volumes 100, 200, 300. *)
Definition climbing_minutes : list Bar :=
  map (fun v => mkBar "0930" 10 10 10 10 v 0) [100; 200; 300].

(** The text -1,234.5万. *)
Definition sample_flow_text : pystr :=
  [45; 49; 44; 50; 51; 52; 46; 53; wan]%N.

(** * Properties *)

(** ** Comparisons *)

Lemma Qltb_lt (x y : Q) : Qltb x y = true <-> x < y.
Proof.
  unfold Qltb. rewrite negb_true_iff.
  split; intros H.
  - apply Qnot_le_lt. intros Hle. apply Qle_bool_iff in Hle. congruence.
  - destruct (Qle_bool y x) eqn:E; [|reflexivity].
    apply Qle_bool_iff in E. exfalso. eapply Qlt_not_le; eauto.
Qed.

Lemma Qltb_irrefl (x : Q) : Qltb x x = false.
Proof.
  destruct (Qltb x x) eqn:E; [|reflexivity].
  apply Qltb_lt in E. exfalso. eapply Qlt_irrefl; eauto.
Qed.

Lemma fgt_Fin (a b : Q) : (Fin a >? Fin b)%F = true <-> b < a.
Proof. unfold fgt; simpl. apply Qltb_lt. Qed.

Lemma fle_Fin (a b : Q) : (Fin a <=? Fin b)%F = true <-> a <= b.
Proof. simpl. apply Qle_bool_iff. Qed.

(** ** Positions in a series *)

Lemma nth_map_seq {A} (f : nat -> A) (n i : nat) (d : A) :
  (i < n)%nat -> nth i (map f (seq 0 n)) d = f i.
Proof.
  intros Hi.
  rewrite (nth_indep _ d (f 0%nat)) by (rewrite length_map, length_seq; exact Hi).
  rewrite map_nth, seq_nth by exact Hi. reflexivity.
Qed.

Lemma length_rolling_mean (n : nat) (s : list Q) :
  length (rolling_mean n s) = length s.
Proof. unfold rolling_mean. rewrite length_map, length_seq. reflexivity. Qed.

Lemma length_diff (s : list pyfloat) : length (diff s) = length s.
Proof. unfold diff. rewrite length_map, length_seq. reflexivity. Qed.

Lemma nth_rolling_mean (n i : nat) (s : list Q) :
  (i < length s)%nat ->
  nth i (rolling_mean n s) NaN =
  if (S i <? n)%nat then NaN else Fin (Qmean (window n i s)).
Proof. intros Hi. unfold rolling_mean. rewrite nth_map_seq by exact Hi. reflexivity. Qed.

Lemma nth_diff (j : nat) (s : list pyfloat) :
  (S j < length s)%nat ->
  nth (S j) (diff s) NaN = (nth (S j) s NaN - nth j s NaN)%F.
Proof. intros Hj. unfold diff. rewrite nth_map_seq by exact Hj. reflexivity. Qed.

Lemma iloc_from_end {A} (s : list A) (k : nat) (d : A) :
  (0 < k <= length s)%nat ->
  iloc s (- Z.of_nat k) = Ok (nth (length s - k) s d).
Proof.
  intros Hk. unfold iloc.
  assert (E1 : (- Z.of_nat k <? 0)%Z = true) by (apply Z.ltb_lt; lia).
  rewrite E1.
  assert (E2 : ((Z.of_nat (length s) + - Z.of_nat k <? 0)
                || (Z.of_nat (length s) <=? Z.of_nat (length s) + - Z.of_nat k))%Z
               = false).
  { apply orb_false_iff. split; [apply Z.ltb_ge | apply Z.leb_gt]; lia. }
  rewrite E2.
  replace (Z.to_nat (Z.of_nat (length s) + - Z.of_nat k)) with (length s - k)%nat by lia.
  destruct (nth_error s (length s - k)) as [x|] eqn:E.
  - f_equal. symmetry. apply nth_error_nth. exact E.
  - apply nth_error_None in E. lia.
Qed.

Lemma iloc_last {A} (s : list A) (d : A) :
  s <> [] -> iloc s (-1) = Ok (nth (length s - 1) s d).
Proof.
  intros Hs. apply (iloc_from_end s 1 d).
  destruct s; [congruence | simpl; lia].
Qed.

Lemma firstn_skipn_two {A} (s : list A) (i : nat) (d : A) :
  (S i < length s)%nat ->
  firstn 2 (skipn i s) = [nth i s d; nth (S i) s d].
Proof.
  revert i. induction s as [|x s IH]; intros i Hi; simpl in Hi; [lia|].
  destruct i as [|i].
  - destruct s as [|y s]; [simpl in Hi; lia|]. reflexivity.
  - simpl skipn. rewrite (IH i) by lia. reflexivity.
Qed.

Lemma slice_bound_from_end (n k : nat) :
  (0 < k)%nat -> slice_bound (Z.of_nat n) (- Z.of_nat k) = (n - k)%nat.
Proof.
  intros Hk. unfold slice_bound.
  destruct (Z.ltb_spec (- Z.of_nat k) 0); lia.
Qed.

Lemma iloc_slice_prior {A} (s : list A) (d : A) :
  (3 <= length s)%nat ->
  iloc_slice s (- lookback_days) (-1) =
  [nth (length s - 3) s d; nth (length s - 2) s d].
Proof.
  intros Hs. unfold iloc_slice, lookback_days.
  change (- (3))%Z with (- Z.of_nat 3)%Z.
  change (-1)%Z with (- Z.of_nat 1)%Z.
  rewrite !slice_bound_from_end by lia.
  replace (length s - 1 - (length s - 3))%nat with 2%nat by lia.
  rewrite (firstn_skipn_two s (length s - 3) d) by lia.
  repeat f_equal. lia.
Qed.

(** ** Windows and columns *)

Lemma firstn_skipn_nth (xs : list Q) (n k : nat) :
  (k + n <= length xs)%nat ->
  firstn n (skipn k xs) = map (fun j => nth (k + j) xs 0) (seq 0 n).
Proof.
  revert k. induction n as [|n IH]; intros k Hk; [reflexivity|].
  assert (Hlt : (k < length xs)%nat) by lia.
  destruct (nth_error xs k) as [x|] eqn:E;
    [|apply nth_error_None in E; lia].
  assert (Hs : skipn k xs = x :: skipn (S k) xs).
  { clear -E. revert k E. induction xs as [|y xs IHx]; intros [|k] E;
      try discriminate.
    - injection E as ->. reflexivity.
    - apply (IHx k). exact E. }
  rewrite Hs. simpl firstn. rewrite IH by lia.
  simpl seq. simpl map. f_equal.
  - rewrite Nat.add_0_r. symmetry. apply nth_error_nth. exact E.
  - rewrite <- seq_shift, map_map. apply map_ext. intros j.
    f_equal. lia.
Qed.

Lemma length_window (n i : nat) (xs : list Q) :
  (n <= S i)%nat -> (i < length xs)%nat -> length (window n i xs) = n.
Proof.
  intros Hn Hi. unfold window.
  rewrite length_firstn, length_skipn. lia.
Qed.

Lemma nonempty_length {A} (s : list A) : (0 < length s)%nat -> s <> [].
Proof. destruct s; simpl; [lia | discriminate]. Qed.

(** A moving average is defined wherever its window is full. *)
Lemma rolling_mean_defined (n i : nat) (xs : list Q) :
  (n <= S i)%nat -> (i < length xs)%nat ->
  exists q, nth i (rolling_mean n xs) NaN = Fin q.
Proof.
  intros Hn Hi. rewrite nth_rolling_mean by exact Hi.
  replace (S i <? n)%nat with false by (symmetry; apply Nat.ltb_ge; lia).
  eexists. reflexivity.
Qed.

Lemma ma_last (n : nat) (xs : list Q) :
  (0 < n <= length xs)%nat ->
  iloc (rolling_mean n xs) (-1) = Ok (Fin (Qmean (window n (length xs - 1) xs))).
Proof.
  intros Hn.
  rewrite (iloc_last _ NaN)
    by (apply nonempty_length; rewrite length_rolling_mean; lia).
  rewrite length_rolling_mean, nth_rolling_mean by lia.
  replace (S (length xs - 1) <? n)%nat with false
    by (symmetry; apply Nat.ltb_ge; lia).
  reflexivity.
Qed.

(** ** The tests of the classifier on arbitrary columns

    The lemmas of this part take the moving-average columns as given: they
    use nothing of how a column was computed. *)

(** The slope the code reads at the last bar. *)
Lemma rising_spec (ma : list pyfloat) :
  (2 <= length ma)%nat ->
  rising (diff ma) = Ok (spec_slope ma (length ma - 1) >? Fin 0)%F.
Proof.
  intros Hlen. unfold rising.
  rewrite (iloc_last _ NaN) by (apply nonempty_length; rewrite length_diff; lia).
  rewrite length_diff.
  destruct (length ma) as [|[|m]] eqn:El; [lia | lia |].
  replace (S (S m) - 1)%nat with (S m) by lia.
  rewrite nth_diff by lia.
  unfold spec_slope. replace (S m - 1)%nat with m by lia. reflexivity.
Qed.

Lemma series_mean_two (a b : Q) :
  series_mean [Fin a; Fin b] = Fin ((0 + a + b) / 2).
Proof. reflexivity. Qed.

Lemma turning_spec (ma : list pyfloat) :
  (4 <= length ma)%nat ->
  (forall i, (length ma - 4 <= i < length ma)%nat ->
     exists q, nth i ma NaN = Fin q) ->
  exists b, turning (diff ma) = Ok b /\
            (b = true <-> spec_turns ma (length ma - 1)).
Proof.
  intros Hlen Hfin. unfold turning.
  rewrite rising_spec by lia.
  rewrite (iloc_slice_prior _ NaN) by (rewrite length_diff; lia).
  rewrite length_diff.
  unfold spec_turns, spec_slope.
  destruct (length ma) as [|[|[|[|m]]]] eqn:El; try lia.
  replace (S (S (S (S m))) - 3)%nat with (S m) by lia.
  replace (S (S (S (S m))) - 2)%nat with (S (S m)) by lia.
  replace (S (S (S (S m))) - 1)%nat with (S (S (S m))) by lia.
  replace (S (S (S m)) - 2)%nat with (S m) by lia.
  replace (S (S (S m)) - 1)%nat with (S (S m)) by lia.
  replace (S (S m) - 1)%nat with (S m) by lia.
  replace (S m - 1)%nat with m by lia.
  rewrite !nth_diff by lia.
  destruct (Hfin m) as [q0 E0]; [lia|].
  destruct (Hfin (S m)) as [q1 E1]; [lia|].
  destruct (Hfin (S (S m))) as [q2 E2]; [lia|].
  rewrite E0, E1, E2.
  change (Fin q1 - Fin q0)%F with (Fin (q1 + - q0)).
  change (Fin q2 - Fin q1)%F with (Fin (q2 + - q1)).
  rewrite series_mean_two.
  assert (Emean : ((Fin (q1 + - q0) + Fin (q2 + - q1)) / Fin 2)%F =
                  Fin ((q1 + - q0 + (q2 + - q1)) / 2)) by reflexivity.
  rewrite Emean. clear Emean.
  unfold and_then. cbn [rbind].
  destruct (_ >? Fin 0)%F.
  - eexists. split; [reflexivity|].
    rewrite !fle_Fin, Qplus_0_l.
    split; [intros H; split; [reflexivity | exact H] | tauto].
  - exists false. split; [reflexivity|].
    split; [discriminate | intros [H _]; discriminate].
Qed.

Lemma and_then_spec (a b : res bool) (x y : bool) (P R : Prop) :
  a = Ok x -> (x = true <-> P) ->
  b = Ok y -> (y = true <-> R) ->
  exists z, (a and b) = Ok z /\ (z = true <-> P /\ R).
Proof.
  intros -> HP -> HR. exists (x && y). split.
  - destruct x; reflexivity.
  - rewrite andb_true_iff. tauto.
Qed.

Lemma is_turning_up_spec (ma5 ma10 ma20 : list pyfloat) (n : nat) :
  (4 <= n)%nat ->
  length ma5 = n -> length ma10 = n -> length ma20 = n ->
  (forall ma i, In ma [ma5; ma10; ma20] -> (n - 4 <= i < n)%nat ->
     exists q, nth i ma NaN = Fin q) ->
  exists b,
    is_turning_up (diff ma5) (diff ma10) (diff ma20) = Ok b /\
    (b = true <-> spec_turning_up ma5 ma10 ma20 (n - 1)).
Proof.
  intros Hn L5 L10 L20 Hfin. unfold is_turning_up, spec_turning_up.
  destruct (turning_spec ma5) as (b5 & E5 & H5);
    [lia | rewrite L5; intros i Hi; apply Hfin; [simpl; tauto | exact Hi] |].
  destruct (turning_spec ma10) as (b10 & E10 & H10);
    [lia | rewrite L10; intros i Hi; apply Hfin; [simpl; tauto | exact Hi] |].
  destruct (turning_spec ma20) as (b20 & E20 & H20);
    [lia | rewrite L20; intros i Hi; apply Hfin; [simpl; tauto | exact Hi] |].
  rewrite L5 in H5. rewrite L10 in H10. rewrite L20 in H20.
  destruct (and_then_spec _ _ _ _ _ _ E10 H10 E20 H20) as (z & Ez & Hz).
  exact (and_then_spec _ _ _ _ _ _ E5 H5 Ez Hz).
Qed.

Lemma is_bullish_spec (ma5 ma10 ma20 ma30 : list pyfloat) (n : nat) :
  (2 <= n)%nat ->
  length ma5 = n -> length ma10 = n -> length ma20 = n -> length ma30 = n ->
  exists b,
    is_bullish ma5 ma10 ma20 ma30
               (diff ma5) (diff ma10) (diff ma20) (diff ma30) = Ok b /\
    (b = true <-> spec_bullish_alignment ma5 ma10 ma20 ma30 (n - 1)).
Proof.
  intros Hn L5 L10 L20 L30. unfold is_bullish, spec_bullish_alignment.
  assert (R : forall ma, length ma = n ->
            rising (diff ma) = Ok (spec_slope ma (n - 1) >? Fin 0)%F).
  { intros ma L. rewrite rising_spec by lia. rewrite L. reflexivity. }
  assert (T : forall x : bool, x = true <-> x = true) by tauto.
  destruct (and_then_spec _ _ _ _ _ _ (R ma20 L20) (T _) (R ma30 L30) (T _))
    as (z1 & Ez1 & Hz1).
  destruct (and_then_spec _ _ _ _ _ _ (R ma10 L10) (T _) Ez1 Hz1)
    as (z2 & Ez2 & Hz2).
  destruct (and_then_spec _ _ _ _ _ _ (R ma5 L5) (T _) Ez2 Hz2)
    as (z3 & Ez3 & Hz3).
  eapply and_then_spec; [| |exact Ez3|exact Hz3].
  - rewrite !(iloc_last _ NaN) by (apply nonempty_length; lia).
    rewrite L5, L10, L20, L30. cbn [rbind].
    instantiate (1 :=
      (nth (n - 1) ma5 NaN >? nth (n - 1) ma10 NaN)%F
      && ((nth (n - 1) ma10 NaN >? nth (n - 1) ma20 NaN)%F
          && (nth (n - 1) ma20 NaN >? nth (n - 1) ma30 NaN)%F)).
    destruct (nth (n - 1) ma5 NaN >? nth (n - 1) ma10 NaN)%F; [|reflexivity].
    destruct (nth (n - 1) ma10 NaN >? nth (n - 1) ma20 NaN)%F; reflexivity.
  - rewrite !andb_true_iff. tauto.
Qed.

(** ** check_ma_trend *)

Lemma iloc_last_error {A} (s : list A) :
  s <> [] -> exists x, iloc s (-1) = Ok x /\ nth_error s (length s - 1) = Some x.
Proof.
  intros Hs. destruct s as [|d s]; [congruence|].
  exists (nth (length (d :: s) - 1) (d :: s) d). split.
  - apply iloc_last. discriminate.
  - apply nth_error_nth'. simpl. lia.
Qed.

Lemma rising_total (s : list pyfloat) :
  s <> [] -> exists b, rising s = Ok b.
Proof.
  intros Hs. unfold rising.
  destruct (iloc_last_error s Hs) as (x & -> & _). eexists. reflexivity.
Qed.

Lemma turning_total (s : list pyfloat) :
  s <> [] -> exists b, turning s = Ok b.
Proof.
  intros Hs. unfold turning.
  destruct (rising_total s Hs) as (b & ->).
  destruct b; eexists; reflexivity.
Qed.

Lemma slopes_nonempty (n : nat) (xs : list Q) :
  xs <> [] -> diff (rolling_mean n xs) <> [].
Proof.
  intros Hs. apply nonempty_length.
  rewrite length_diff, length_rolling_mean.
  destruct xs; [congruence | simpl; lia].
Qed.

Lemma is_turning_up_total (xs : list Q) :
  xs <> [] ->
  exists b, is_turning_up (diff (rolling_mean 5 xs)) (diff (rolling_mean 10 xs))
                          (diff (rolling_mean 20 xs)) = Ok b.
Proof.
  intros Hs. unfold is_turning_up.
  destruct (turning_total _ (slopes_nonempty 5 xs Hs)) as (b5 & ->).
  destruct (turning_total _ (slopes_nonempty 10 xs Hs)) as (b10 & ->).
  destruct (turning_total _ (slopes_nonempty 20 xs Hs)) as (b20 & ->).
  destruct b5, b10, b20; eexists; reflexivity.
Qed.

(** With fewer than 31 bars the latest slope of MA30 is undefined. *)
Lemma slope30_short (xs : list Q) :
  xs <> [] -> (length xs < 31)%nat ->
  rising (diff (rolling_mean 30 xs)) = Ok false.
Proof.
  intros Hs Hlen. unfold rising.
  rewrite (iloc_last _ NaN) by (apply slopes_nonempty; exact Hs).
  rewrite length_diff, length_rolling_mean.
  destruct (length xs) as [|[|m]] eqn:El.
  - destruct xs; [congruence | discriminate].
  - destruct xs as [|x [|y xs]]; try discriminate. reflexivity.
  - replace (S (S m) - 1)%nat with (S m) by lia.
    rewrite nth_diff by (rewrite length_rolling_mean; lia).
    rewrite (nth_rolling_mean 30 m) by lia.
    replace (S m <? 30)%nat with true by (symmetry; apply Nat.ltb_lt; lia).
    destruct (nth (S m) (rolling_mean 30 xs) NaN); reflexivity.
Qed.

Lemma is_bullish_short (xs : list Q) :
  xs <> [] -> (length xs < 31)%nat ->
  is_bullish (rolling_mean 5 xs) (rolling_mean 10 xs)
             (rolling_mean 20 xs) (rolling_mean 30 xs)
             (diff (rolling_mean 5 xs)) (diff (rolling_mean 10 xs))
             (diff (rolling_mean 20 xs)) (diff (rolling_mean 30 xs)) = Ok false.
Proof.
  intros Hs Hlen. unfold is_bullish.
  assert (Hma : forall n, exists x, iloc (rolling_mean n xs) (-1) = Ok x).
  { intros n. destruct (iloc_last_error (rolling_mean n xs)) as (x & E & _).
    - apply nonempty_length. rewrite length_rolling_mean.
      destruct xs; [congruence | simpl; lia].
    - exists x. exact E. }
  destruct (Hma 5%nat) as (a & ->), (Hma 10%nat) as (b & ->),
           (Hma 20%nat) as (c & ->), (Hma 30%nat) as (d & ->).
  destruct (rising_total _ (slopes_nonempty 5 xs Hs)) as (b5 & ->).
  destruct (rising_total _ (slopes_nonempty 10 xs Hs)) as (b10 & ->).
  destruct (rising_total _ (slopes_nonempty 20 xs Hs)) as (b20 & ->).
  rewrite slope30_short by assumption.
  cbn [rbind].
  destruct (a >? b)%F; [|reflexivity]. cbn [negb rbind].
  destruct (b >? c)%F; [|reflexivity]. cbn [negb rbind].
  destruct (c >? d)%F, b5, b10, b20; reflexivity.
Qed.

Lemma closes_nonempty (hist_data : list Bar) :
  hist_data <> [] -> closes hist_data <> [].
Proof. destruct hist_data; [congruence | discriminate]. Qed.

Lemma empty_false {A} (df : list A) : df <> [] -> empty df = false.
Proof. destruct df; [congruence | reflexivity]. Qed.

(** A cached symbol is answered from the cache: no history is fetched and
    the cache is unchanged. *)
Lemma check_ma_trend_cache_hit (ak : Provider)
    (cache : gmap string (bool * option Bar)) (stock_code : string)
    (cached : bool * option Bar) :
  cache !! stock_code = Some cached ->
  check_ma_trend ak cache stock_code = (cached, cache).
Proof. intros H. unfold check_ma_trend. rewrite H. reflexivity. Qed.

(** C1: on a freshly fetched history of at least 31 bars, [check_ma_trend]
    answers (and caches) the latest bar together with a flag that is true
    exactly when the three averages MA5, MA10 and MA20 turn up (latest slope
    positive, mean of the two slopes before it not positive) or the four
    averages are in strict bullish alignment with positive latest slopes.
    The averages are the columns the code computes and the slopes and the
    mean are taken on them as the code takes them; the proof uses of a
    moving average only its length and where it is defined, so the
    statement does not depend on how its mean is rounded. *)
Theorem check_ma_trend_classifies (ak : Provider)
    (cache : gmap string (bool * option Bar)) (stock_code : string)
    (hist_data : list Bar) :
  cache !! stock_code = None ->
  stock_zh_a_hist ak stock_code 60 = Ok hist_data ->
  (31 <= length hist_data)%nat ->
  exists (is_positive : bool) (latest : Bar),
    check_ma_trend ak cache stock_code =
      ((is_positive, Some latest),
       <[stock_code := (is_positive, Some latest)]> cache) /\
    nth_error hist_data (length hist_data - 1) = Some latest /\
    (is_positive = true <->
     let MA := fun n => rolling_mean n (closes hist_data) in
     let t := (length hist_data - 1)%nat in
     spec_turning_up (MA 5%nat) (MA 10%nat) (MA 20%nat) t \/
     spec_bullish_alignment (MA 5%nat) (MA 10%nat) (MA 20%nat) (MA 30%nat) t).
Proof.
  intros Hmiss Hfetch Hlen.
  assert (Hne : hist_data <> []) by (apply nonempty_length; lia).
  assert (Hcl : length (closes hist_data) = length hist_data)
    by (unfold closes; apply length_map).
  assert (HL : forall n, length (rolling_mean n (closes hist_data))
                         = length hist_data)
    by (intros n; rewrite length_rolling_mean; exact Hcl).
  destruct (is_turning_up_spec (rolling_mean 5 (closes hist_data))
              (rolling_mean 10 (closes hist_data))
              (rolling_mean 20 (closes hist_data)) (length hist_data))
    as (up & Eup & Hup); try apply HL; [lia | |].
  { intros ma i Hma Hi.
    destruct Hma as [<- | [<- | [<- | []]]];
      apply rolling_mean_defined; lia. }
  destruct (is_bullish_spec (rolling_mean 5 (closes hist_data))
              (rolling_mean 10 (closes hist_data))
              (rolling_mean 20 (closes hist_data))
              (rolling_mean 30 (closes hist_data)) (length hist_data))
    as (bull & Ebull & Hbull); try apply HL; [lia|].
  destruct (iloc_last_error hist_data Hne) as (latest & Elast & Hlast).
  exists (up || bull), latest.
  split; [|split].
  - unfold check_ma_trend. rewrite Hmiss, Hfetch. cbn [rbind].
    unfold ma_trend_of. rewrite (empty_false _ Hne).
    cbv zeta. rewrite Eup, Ebull, Elast. reflexivity.
  - exact Hlast.
  - cbv zeta. rewrite orb_true_iff, Hup, Hbull. reflexivity.
Qed.

(** C2, as amended: a history of fewer than 31 bars never makes
    [check_ma_trend] raise; the answer is (false, None) when the history is
    empty, and for a non-empty one it is the turning-up flag alone (bullish
    alignment is false, the latest MA30 slope being undefined) together with
    the latest bar, which is cached. *)
Theorem check_ma_trend_short_series (ak : Provider)
    (cache : gmap string (bool * option Bar)) (stock_code : string)
    (hist_data : list Bar) :
  cache !! stock_code = None ->
  stock_zh_a_hist ak stock_code 60 = Ok hist_data ->
  (length hist_data < 31)%nat ->
  (hist_data = [] ->
   check_ma_trend ak cache stock_code = ((false, None), cache)) /\
  (hist_data <> [] ->
   exists (up : bool) (latest : Bar),
     is_turning_up (diff (rolling_mean 5 (closes hist_data)))
                   (diff (rolling_mean 10 (closes hist_data)))
                   (diff (rolling_mean 20 (closes hist_data))) = Ok up /\
     nth_error hist_data (length hist_data - 1) = Some latest /\
     check_ma_trend ak cache stock_code =
       ((up, Some latest), <[stock_code := (up, Some latest)]> cache)).
Proof.
  intros Hmiss Hfetch Hlen. split.
  - intros ->. unfold check_ma_trend. rewrite Hmiss, Hfetch. reflexivity.
  - intros Hne.
    assert (Hcl : length (closes hist_data) = length hist_data)
      by (unfold closes; apply length_map).
    destruct (is_turning_up_total _ (closes_nonempty _ Hne)) as (up & Eup).
    destruct (iloc_last_error hist_data Hne) as (latest & Elast & Hlast).
    exists up, latest. split; [exact Eup | split; [exact Hlast|]].
    unfold check_ma_trend. rewrite Hmiss, Hfetch. cbn [rbind].
    unfold ma_trend_of. rewrite (empty_false _ Hne).
    cbv zeta. rewrite Eup.
    rewrite is_bullish_short by (try apply closes_nonempty; congruence || lia).
    rewrite Elast. cbn [rbind]. rewrite orb_false_r. reflexivity.
Qed.

(** ** Loops over the rows of a frame *)

Lemma iterrows_select {A} (body : A -> list string -> res (list string))
    (key : A -> string) (keep : A -> bool) (df : list A) (acc : list string) :
  (forall row acc, In row df ->
     body row acc = Ok (if keep row then acc ++ [key row] else acc)) ->
  iterrows body df acc = Ok (acc ++ map key (List.filter keep df)).
Proof.
  revert acc. induction df as [|row df IH]; intros acc Hbody; simpl.
  - rewrite app_nil_r. reflexivity.
  - rewrite Hbody by (left; reflexivity). cbn [rbind].
    rewrite IH by (intros r a Hr; apply Hbody; right; exact Hr).
    destruct (keep row); simpl; [rewrite <- app_assoc|]; reflexivity.
Qed.

Lemma iterrows_raise {A S} (body : A -> S -> res S) (df : list A) (acc : S)
    (row : A) :
  In row df -> (forall acc, body row acc = Raise) ->
  iterrows body df acc = Raise.
Proof.
  revert acc. induction df as [|r df IH]; intros acc Hin Hraise; [contradiction|].
  simpl. destruct Hin as [-> | Hin].
  - rewrite Hraise. reflexivity.
  - destruct (body r acc) as [acc'|]; [|reflexivity].
    cbn [rbind]. apply IH; assumption.
Qed.

Lemma isin_select (k : string -> bool) (df : list Snapshot) :
  isin (map code (List.filter (fun r => k (code r)) df)) df =
  List.filter (fun r => k (code r)) df.
Proof.
  unfold isin. apply filter_ext_in. intros r Hr.
  destruct (k (code r)) eqn:E.
  - apply existsb_exists. exists (code r). split.
    + apply in_map. apply filter_In. split; assumption.
    + apply String.eqb_refl.
  - destruct (existsb _ _) eqn:Ex; [|reflexivity].
    apply existsb_exists in Ex. destruct Ex as (x & Hx & Heq).
    apply String.eqb_eq in Heq. subst x.
    apply in_map_iff in Hx. destruct Hx as (r' & Hcode & Hr').
    apply filter_In in Hr'. destruct Hr' as [_ Hk].
    rewrite Hcode in Hk. congruence.
Qed.

Lemma isin_incl (codes : list string) (df : list Snapshot) (r : Snapshot) :
  In r (isin codes df) -> In r df.
Proof. unfold isin. intros H. apply filter_In in H. tauto. Qed.

(** ** The indicators never raise on a non-empty history *)

Lemma flt_irrefl (x : pyfloat) : flt x x = false.
Proof. destruct x; simpl; try reflexivity. apply Qltb_irrefl. Qed.

Lemma length_ewm_run (alpha : Q) (adjust : bool) (st : ewm_state)
    (vals : list pyfloat) :
  length (ewm_run alpha adjust st vals) = length vals.
Proof.
  revert st. induction vals as [|v vals IH]; intros st; simpl; [reflexivity|].
  rewrite IH. reflexivity.
Qed.

Lemma length_ewm_mean (alpha : Q) (adjust : bool) (vals : list pyfloat) :
  length (ewm_mean alpha adjust vals) = length vals.
Proof.
  destruct vals as [|v vals]; simpl; [reflexivity|].
  rewrite length_ewm_run. reflexivity.
Qed.

Lemma ewm_mean_single (alpha : Q) (adjust : bool) (x : pyfloat) :
  ewm_mean alpha adjust [x] = [x].
Proof. destruct x; reflexivity. Qed.

Lemma golden_cross_ewm (alpha : Q) (adjust : bool) (x : list pyfloat) :
  x <> [] -> exists b, golden_cross x (ewm_mean alpha adjust x) = Ok b.
Proof.
  intros Hx. unfold golden_cross.
  destruct x as [|v [|w x]]; [congruence | |].
  - rewrite ewm_mean_single. exists false.
    change (iloc [v] (-1)) with (Ok v).
    unfold and_then. cbn [rbind]. unfold fgt. rewrite flt_irrefl. reflexivity.
  - set (s := v :: w :: x) in *.
    set (y := ewm_mean alpha adjust s).
    assert (Hy : length y = length s) by apply length_ewm_mean.
    assert (Hs : (2 <= length s)%nat) by (simpl; lia).
    change (-1)%Z with (- Z.of_nat 1)%Z.
    rewrite (iloc_from_end s 1 NaN), (iloc_from_end y 1 NaN) by lia.
    change (-2)%Z with (- Z.of_nat 2)%Z.
    rewrite (iloc_from_end s 2 NaN), (iloc_from_end y 2 NaN) by lia.
    unfold and_then. cbn [rbind].
    destruct (_ >? _)%F; eexists; reflexivity.
Qed.

Lemma macd_golden_total (hist_data : list Bar) :
  hist_data <> [] -> exists b, macd_golden hist_data = Ok b.
Proof.
  intros Hne. unfold macd_golden. apply golden_cross_ewm.
  apply nonempty_length. unfold macd_line, map2.
  rewrite length_map, length_combine, !length_ewm_mean, !length_map.
  destruct hist_data; [congruence | simpl; lia].
Qed.

Lemma kdj_golden_total (hist_data : list Bar) :
  hist_data <> [] -> exists b, kdj_golden hist_data = Ok b.
Proof.
  intros Hne. unfold kdj_golden. apply golden_cross_ewm.
  apply nonempty_length. rewrite length_ewm_mean. unfold map2, rolling_min, rolling_max.
  repeat (rewrite ?length_map, ?length_combine, ?length_seq).
  destruct hist_data; [congruence | simpl; lia].
Qed.

Lemma ma_alignment_total (hist_data : list Bar) :
  hist_data <> [] -> exists b, ma_alignment hist_data = Ok b.
Proof.
  intros Hne. unfold ma_alignment.
  assert (Hma : forall n, exists x,
             iloc (rolling_mean n (closes hist_data)) (-1) = Ok x).
  { intros n. destruct (iloc_last_error (rolling_mean n (closes hist_data)))
      as (x & E & _).
    - apply nonempty_length. rewrite length_rolling_mean.
      unfold closes. rewrite length_map.
      destruct hist_data; [congruence | simpl; lia].
    - exists x. exact E. }
  destruct (Hma 5%nat) as (a & ->), (Hma 10%nat) as (b & ->),
           (Hma 20%nat) as (c & ->).
  eexists. reflexivity.
Qed.

(** The enabled checks on a non-empty history return without raising, and
    say no exactly when one of the enabled ones does. *)
Lemma technical_checks_spec (c : Criteria) (hist_data : list Bar) :
  hist_data <> [] ->
  exists b, technical_checks c hist_data = Ok b /\
            (b = false <-> spec_sub_check_fails c hist_data).
Proof.
  intros Hne. unfold technical_checks, spec_sub_check_fails.
  destruct (ma_alignment_total _ Hne) as (b1 & ->).
  destruct (macd_golden_total _ Hne) as (b2 & ->).
  destruct (kdj_golden_total _ Hne) as (b3 & ->).
  destruct (ma_alignment_cb c), (macd_golden_cb c), (kdj_golden_cb c),
           b1, b2, b3; cbn;
    (eexists; split; [reflexivity|]);
    split; intros H; try discriminate; try tauto;
    try (destruct H as [[? H]|[[? H]|[? H]]]; discriminate).
Qed.

(** ** The technical block *)

(** C5: in the technical block a candidate is dropped exactly when its
    history is non-empty and some enabled sub-check fails on it; a candidate
    with an empty history survives.  (The histories are those the provider
    returns; with no sub-check enabled the block is skipped and nothing is
    dropped.) *)
Theorem technical_block_drops (c : Criteria) (ak : Provider)
    (df : list Snapshot) (history : string -> list Bar) :
  (forall row, In row df ->
     stock_zh_a_hist ak (code row) 60 = Ok (history (code row))) ->
  exists kept,
    technical_filter c ak df = Ok kept /\
    forall row, In row df ->
      (~ In row kept <->
       history (code row) <> [] /\
       spec_sub_check_fails c (history (code row))) /\
      (history (code row) = [] -> In row kept).
Proof.
  intros Hfetch.
  destruct (technical_enabled c) eqn:Hen.
  2:{ exists df. unfold technical_filter. rewrite Hen.
      split; [reflexivity|]. intros row Hin.
      unfold technical_enabled in Hen.
      apply orb_false_iff in Hen. destruct Hen as [Hen Hkdj].
      apply orb_false_iff in Hen. destruct Hen as [Hma Hmacd].
      split; [|tauto]. split; [tauto|].
      unfold spec_sub_check_fails.
      intros [_ [[H _] | [[H _] | [H _]]]]; congruence. }
  set (k := fun code : string =>
              if empty (history code) then true
              else match technical_checks c (history code) with
                   | Ok b => b
                   | Raise => false
                   end).
  assert (Hbody : forall row acc, In row df ->
            technical_body c ak row acc =
            Ok (if k (code row) then acc ++ [code row] else acc)).
  { intros row acc Hin. unfold technical_body, k.
    rewrite (Hfetch row Hin). cbn [rbind].
    destruct (history (code row)) as [|b h] eqn:Eh; [reflexivity|].
    cbn [empty negb].
    destruct (technical_checks_spec c (b :: h)) as (x & -> & _);
      [discriminate|]. reflexivity. }
  exists (List.filter (fun r => k (code r)) df). split.
  - unfold technical_filter. rewrite Hen.
    rewrite (iterrows_select _ code (fun r => k (code r))) by exact Hbody.
    cbn [rbind app]. rewrite isin_select. reflexivity.
  - intros row Hin. rewrite filter_In. unfold k.
    destruct (history (code row)) as [|b h] eqn:Eh.
    + cbn [empty]. split; [|tauto].
      split; [intros H; exfalso; apply H; tauto | intros [H _]; congruence].
    + cbn [empty].
      destruct (technical_checks_spec c (b :: h)) as (x & -> & Hx);
        [discriminate|].
      split; [|discriminate].
      split.
      * intros H. split; [discriminate|]. apply Hx.
        destruct x; [exfalso; apply H; tauto | reflexivity].
      * intros [_ H] [_ Hk]. apply Hx in H. congruence.
Qed.

(** ** The limit-up count *)

(** C6: when the limit-up filter is active the pipeline keeps, of the rows
    that reach it, exactly those whose history counts precisely the
    requested number of sessions at or above 9.5. *)
Theorem filter_stocks_limit_up_exact (c : Criteria) (ak : Provider)
    (df : list Snapshot) (history : string -> list Bar) :
  (0 < limit_up_times c)%Z -> (0 < months_spin c)%Z ->
  before_limit_up c ak = Ok df ->
  (forall row, In row df ->
     stock_zh_a_hist ak (code row) (30 * months_spin c) =
     Ok (history (code row))) ->
  filter_stocks c ak =
  Some (List.filter
          (fun row => (Z.of_nat (limit_up_count (history (code row)))
                       =? limit_up_times c)%Z)
          df).
Proof.
  intros Htimes Hmonths Hdf Hfetch.
  unfold filter_stocks, filter_stocks_body. rewrite Hdf. cbn [rbind].
  unfold limit_up_filter, limit_up_active.
  replace (limit_up_times c >? 0)%Z with true by (symmetry; apply Z.gtb_lt; lia).
  replace (months_spin c >? 0)%Z with true by (symmetry; apply Z.gtb_lt; lia).
  cbn [andb].
  set (k := fun code : string =>
              (Z.of_nat (limit_up_count (history code)) =? limit_up_times c)%Z).
  rewrite (iterrows_select _ code (fun r => k (code r))).
  - cbn [rbind app]. rewrite isin_select. reflexivity.
  - intros row acc Hin. unfold limit_up_body, k.
    rewrite (Hfetch row Hin). cbn [rbind].
    destruct (history (code row)) as [|b h] eqn:Eh.
    + cbn [empty negb limit_up_count List.filter length].
      replace (Z.of_nat 0 =? limit_up_times c)%Z with false
        by (symmetry; apply Z.eqb_neq; lia).
      reflexivity.
    + cbn [empty negb]. destruct (_ =? _)%Z; reflexivity.
Qed.

(** ** The range criteria *)

Lemma in_range_crossed (x : pyfloat) (lo hi : Q) :
  hi < lo -> in_range x lo hi = false.
Proof.
  intros Hlt. unfold in_range, fge.
  destruct x as [q| | |]; simpl; try reflexivity.
  - destruct (Qle_bool lo q) eqn:E1; [|reflexivity].
    destruct (Qle_bool q hi) eqn:E2; [|reflexivity].
    apply Qle_bool_iff in E1, E2. exfalso.
    apply (Qlt_irrefl lo). eapply Qle_lt_trans; [|exact Hlt].
    eapply Qle_trans; eassumption.
Qed.

Lemma In_range_filters (c : Criteria) (df : list Snapshot) (r : Snapshot) :
  In r (range_filters c df) <->
  In r df /\
  in_range (turnover r) (turnover_min c) (turnover_max c) = true /\
  in_range (pct_change r) (price_change_min c) (price_change_max c) = true /\
  (volume_ratio r >=? Fin (volume_ratio_min c))%F = true /\
  (Qltb 0 (volume_ratio_max c) = true ->
   (volume_ratio r <=? Fin (volume_ratio_max c))%F = true) /\
  in_range (latest_price r) (price_min c) (price_max c) = true /\
  in_range (total_cap r) (market_cap_min c * 100000000)
           (market_cap_max c * 100000000) = true.
Proof.
  unfold range_filters. cbv zeta.
  destruct (Qltb 0 (volume_ratio_max c)); rewrite !filter_In;
    intuition congruence.
Qed.

(** ** Every later stage only removes rows *)

Lemma checkbox_filters_incl (c : Criteria) (df : list Snapshot) (r : Snapshot) :
  In r (checkbox_filters c df) -> In r df.
Proof.
  unfold checkbox_filters.
  destruct (remove_green_cb c), (remove_limit_up_cb c);
    rewrite ?filter_In; tauto.
Qed.

Lemma volume_increase_filter_incl (c : Criteria) (ak : Provider)
    (df out : list Snapshot) (r : Snapshot) :
  volume_increase_filter c ak df = Ok out -> In r out -> In r df.
Proof.
  unfold volume_increase_filter. destruct (volume_increase_cb c).
  - destruct (iterrows _ _ _); [|discriminate].
    cbn [rbind]. intros [= <-]. apply isin_incl.
  - intros [= <-]. tauto.
Qed.

Lemma technical_filter_incl (c : Criteria) (ak : Provider)
    (df out : list Snapshot) (r : Snapshot) :
  technical_filter c ak df = Ok out -> In r out -> In r df.
Proof.
  unfold technical_filter. destruct (technical_enabled c).
  - destruct (iterrows _ _ _); [|discriminate].
    cbn [rbind]. intros [= <-]. apply isin_incl.
  - intros [= <-]. tauto.
Qed.

Lemma limit_up_filter_incl (c : Criteria) (ak : Provider)
    (df out : list Snapshot) (r : Snapshot) :
  limit_up_filter c ak df = Ok out -> In r out -> In r df.
Proof.
  unfold limit_up_filter. destruct (limit_up_active c).
  - destruct (iterrows _ _ _); [|discriminate].
    cbn [rbind]. intros [= <-]. apply isin_incl.
  - intros [= <-]. tauto.
Qed.

Lemma In_insert_desc (key : Snapshot -> pyfloat) (x r : Snapshot)
    (l : list Snapshot) :
  In r (insert_desc key x l) -> r = x \/ In r l.
Proof.
  induction l as [|y l IH]; simpl.
  - intros [<- | []]. left. reflexivity.
  - destruct (goes_before key x y); simpl.
    + intros [<- | H]; [left; reflexivity | right; exact H].
    + intros [<- | H]; [right; left; reflexivity|].
      destruct (IH H) as [-> | H']; [left; reflexivity | right; right; exact H'].
Qed.

Lemma In_sort_desc (key : Snapshot -> pyfloat) (df : list Snapshot)
    (r : Snapshot) :
  In r (sort_desc key df) -> In r df.
Proof.
  induction df as [|x df IH]; simpl; [tauto|].
  intros H. apply In_insert_desc in H. destruct H as [-> | H].
  - left. reflexivity.
  - right. apply IH. exact H.
Qed.

Lemma nlargest_incl (n : Z) (key : Snapshot -> pyfloat) (df : list Snapshot)
    (r : Snapshot) :
  In r (nlargest n key df) -> In r df.
Proof.
  unfold nlargest. intros H. apply In_sort_desc with key.
  revert H. generalize (sort_desc key df) as l. generalize (Z.to_nat n) as k.
  induction k as [|k IH]; intros [|y l]; simpl; try tauto.
  intros [<- | H]; [left; reflexivity | right; apply IH; exact H].
Qed.

Lemma hot_filter_incl (c : Criteria) (df : list Snapshot) (r : Snapshot) :
  In r (hot_filter c df) -> In r df.
Proof.
  unfold hot_filter. destruct (hot_stocks_n c >? 0)%Z; [apply nlargest_incl | tauto].
Qed.

Lemma leaders_filter_incl (c : Criteria) (df : list Snapshot) (r : Snapshot) :
  In r (leaders_filter c df) -> In r df.
Proof.
  unfold leaders_filter. destruct (top_n_spin c >? 0)%Z; [apply isin_incl | tauto].
Qed.

(** Whatever [filter_stocks] returns passed the range criteria. *)
Lemma filter_stocks_within_range (c : Criteria) (ak : Provider)
    (out : list Snapshot) :
  filter_stocks c ak = Some out ->
  exists df, stock_zh_a_spot_em ak = Ok df /\
             forall r, In r out -> In r (range_filters c df).
Proof.
  unfold filter_stocks, filter_stocks_body, before_limit_up, before_technical.
  destruct (stock_zh_a_spot_em ak) as [df|]; [|discriminate].
  cbn [rbind].
  destruct (volume_increase_filter _ _ _) as [df1|] eqn:E1; [|discriminate].
  cbn [rbind].
  destruct (technical_filter _ _ _) as [df2|] eqn:E2; [|discriminate].
  cbn [rbind].
  destruct (limit_up_filter _ _ _) as [df3|] eqn:E3; [|discriminate].
  intros [= <-]. exists df. split; [reflexivity|].
  intros r Hr.
  apply checkbox_filters_incl with c.
  eapply volume_increase_filter_incl; [exact E1|].
  eapply technical_filter_incl; [exact E2|].
  apply hot_filter_incl with c. apply leaders_filter_incl with c.
  eapply limit_up_filter_incl; [exact E3 | exact Hr].
Qed.

Lemma in_range_upper (x : pyfloat) (lo hi : Q) :
  in_range x lo hi = true -> (x <=? Fin hi)%F = true.
Proof. unfold in_range. intros H. apply andb_true_iff in H. tauto. Qed.

(** C7, as amended: only the volume-ratio criterion reads a maximum that is
    not positive as no upper bound, so that a row above it is retained by
    the range stage once it meets the other criteria; the upper bounds of
    percent change, price and market capitalization are applied whatever
    their sign, so that every row the pipeline returns is at or below
    them. *)
Theorem range_maximum_bounds (c : Criteria) :
  (forall (df : list Snapshot) (r : Snapshot),
     volume_ratio_max c <= 0 ->
     In r df ->
     in_range (turnover r) (turnover_min c) (turnover_max c) = true ->
     in_range (pct_change r) (price_change_min c) (price_change_max c) = true ->
     (volume_ratio r >=? Fin (volume_ratio_min c))%F = true ->
     in_range (latest_price r) (price_min c) (price_max c) = true ->
     in_range (total_cap r) (market_cap_min c * 100000000)
              (market_cap_max c * 100000000) = true ->
     In r (range_filters c df)) /\
  (forall (ak : Provider) (out : list Snapshot) (r : Snapshot),
     filter_stocks c ak = Some out ->
     In r out ->
     (pct_change r <=? Fin (price_change_max c))%F = true /\
     (latest_price r <=? Fin (price_max c))%F = true /\
     (total_cap r <=? Fin (market_cap_max c * 100000000))%F = true).
Proof.
  split.
  - intros df r Hmax Hin Ht Hp Hv Hpr Hc.
    apply In_range_filters. repeat split; try assumption.
    intros H. apply Qltb_lt in H. exfalso.
    apply (Qlt_irrefl 0). eapply Qlt_le_trans; eassumption.
  - intros ak out r Hout Hin.
    destruct (filter_stocks_within_range c ak out Hout) as (df & _ & Hsub).
    apply Hsub, In_range_filters in Hin.
    destruct Hin as (_ & _ & Hp & _ & _ & Hpr & Hc).
    repeat split; eapply in_range_upper; eassumption.
Qed.

(** ** A crossed range *)

Lemma no_member_nil {A} (l : list A) : (forall x, ~ In x l) -> l = [].
Proof.
  destruct l as [|x l]; [reflexivity|].
  intros H. exfalso. apply (H x). left. reflexivity.
Qed.

Lemma filter_stocks_of_empty (c : Criteria) (ak : Provider)
    (df : list Snapshot) :
  stock_zh_a_spot_em ak = Ok df -> range_filters c df = [] ->
  filter_stocks c ak = Some [].
Proof.
  intros Hspot Hnil.
  unfold filter_stocks, filter_stocks_body, before_limit_up, before_technical.
  rewrite Hspot. cbn [rbind]. rewrite Hnil.
  assert (E0 : checkbox_filters c [] = [])
    by (unfold checkbox_filters;
        destruct (remove_green_cb c), (remove_limit_up_cb c); reflexivity).
  rewrite E0.
  assert (E1 : volume_increase_filter c ak [] = Ok [])
    by (unfold volume_increase_filter; destruct (volume_increase_cb c);
        reflexivity).
  rewrite E1. cbn [rbind].
  assert (E2 : technical_filter c ak [] = Ok [])
    by (unfold technical_filter; destruct (technical_enabled c); reflexivity).
  rewrite E2. cbn [rbind].
  assert (E3 : hot_filter c [] = []).
  { unfold hot_filter, nlargest. destruct (hot_stocks_n c >? 0)%Z; [|reflexivity].
    simpl. destruct (Z.to_nat _); reflexivity. }
  rewrite E3.
  assert (E4 : leaders_filter c [] = [])
    by (unfold leaders_filter; destruct (top_n_spin c >? 0)%Z; reflexivity).
  rewrite E4.
  assert (E5 : limit_up_filter c ak [] = Ok [])
    by (unfold limit_up_filter; destruct (limit_up_active c); reflexivity).
  rewrite E5. reflexivity.
Qed.

(** C8, as amended: a range of turnover, percent change, price or market
    capitalization configured with min > max, or a volume-ratio range with
    min > max and max > 0, makes the pipeline return the empty frame on
    every snapshot collection (and with every provider of histories). *)
Theorem crossed_range_is_empty (c : Criteria) (ak : Provider)
    (df : list Snapshot) :
  stock_zh_a_spot_em ak = Ok df ->
  turnover_max c < turnover_min c \/
  price_change_max c < price_change_min c \/
  (0 < volume_ratio_max c /\ volume_ratio_max c < volume_ratio_min c) \/
  price_max c < price_min c \/
  market_cap_max c < market_cap_min c ->
  filter_stocks c ak = Some [].
Proof.
  intros Hspot Hcross.
  apply filter_stocks_of_empty with df; [exact Hspot|].
  apply no_member_nil. intros r Hin.
  apply In_range_filters in Hin.
  destruct Hin as (_ & Ht & Hp & Hv1 & Hv2 & Hpr & Hc).
  destruct Hcross as [H | [H | [[Hpos H] | [H | H]]]].
  - rewrite in_range_crossed in Ht by exact H. discriminate.
  - rewrite in_range_crossed in Hp by exact H. discriminate.
  - apply Qltb_lt in Hpos. specialize (Hv2 Hpos).
    assert (Hr : in_range (volume_ratio r) (volume_ratio_min c)
                          (volume_ratio_max c) = true)
      by (unfold in_range; rewrite Hv1, Hv2; reflexivity).
    rewrite in_range_crossed in Hr by exact H. discriminate.
  - rewrite in_range_crossed in Hpr by exact H. discriminate.
  - rewrite in_range_crossed in Hc; [discriminate|].
    apply Qmult_lt_r; [reflexivity | exact H].
Qed.

(** ** Failures inside the loops *)

Lemma limit_up_loop_flat {Context Analysis : Type}
    (analyse : Context -> Snapshot -> list Bar -> res Analysis)
    (ak : Provider) (ctx : Context) (stocks : list Snapshot)
    (acc : list Analysis) :
  limit_up_loop Context Analysis analyse ak ctx stocks acc =
  acc ++ flat_map (fun stock =>
                     match limit_up_try Context Analysis analyse ak ctx stock with
                     | Ok (Some a) => [a]
                     | _ => []
                     end) stocks.
Proof.
  revert acc. induction stocks as [|stock rest IH]; intros acc; simpl.
  - rewrite app_nil_r. reflexivity.
  - destruct (limit_up_try _ _ _ _ _ _) as [[a|]|]; rewrite IH.
    + rewrite <- app_assoc. reflexivity.
    + reflexivity.
    + reflexivity.
Qed.

Lemma filter_stocks_raise_technical (c : Criteria) (ak : Provider)
    (df : list Snapshot) (row : Snapshot) :
  before_technical c ak = Ok df -> technical_enabled c = true ->
  In row df -> stock_zh_a_hist ak (code row) 60 = Raise ->
  filter_stocks c ak = None.
Proof.
  intros Hdf Hen Hin Hraise.
  unfold filter_stocks, filter_stocks_body, before_limit_up.
  rewrite Hdf. cbn [rbind]. unfold technical_filter. rewrite Hen.
  rewrite (iterrows_raise _ df [] row Hin); [reflexivity|].
  intros acc. unfold technical_body. rewrite Hraise. reflexivity.
Qed.

Lemma filter_stocks_raise_limit_up (c : Criteria) (ak : Provider)
    (df : list Snapshot) (row : Snapshot) :
  before_limit_up c ak = Ok df -> limit_up_active c = true ->
  In row df ->
  stock_zh_a_hist ak (code row) (30 * months_spin c) = Raise ->
  filter_stocks c ak = None.
Proof.
  intros Hdf Hen Hin Hraise.
  unfold filter_stocks, filter_stocks_body.
  rewrite Hdf. cbn [rbind]. unfold limit_up_filter. rewrite Hen.
  rewrite (iterrows_raise _ df [] row Hin); [reflexivity|].
  intros acc. unfold limit_up_body. rewrite Hraise. reflexivity.
Qed.

Lemma filter_stocks_raise_volume (c : Criteria) (ak : Provider)
    (df : list Snapshot) (row : Snapshot) :
  stock_zh_a_spot_em ak = Ok df -> volume_increase_cb c = true ->
  In row (checkbox_filters c (range_filters c df)) ->
  stock_zh_a_hist_min_em ak (code row) = Raise ->
  filter_stocks c ak = None.
Proof.
  intros Hdf Hen Hin Hraise.
  unfold filter_stocks, filter_stocks_body, before_limit_up, before_technical.
  rewrite Hdf. cbn [rbind]. unfold volume_increase_filter. rewrite Hen.
  rewrite (iterrows_raise _ _ [] row Hin); [reflexivity|].
  intros acc. unfold volume_increase_body. rewrite Hraise. reflexivity.
Qed.

(** C9, as amended: the loop of the limit-up analysis catches a failure at
    the instrument (its result is the analyses of the instruments whose
    iteration neither raised nor met an empty history, in order, whatever
    the others did); the filter pipeline does not: a history fetch that
    raises for one row inside the volume, technical or limit-up-count loop
    ends the whole call, which returns None. *)
Theorem instrument_failures :
  (forall (Context Analysis : Type) (prefetch : res Context)
          (analyse : Context -> Snapshot -> list Bar -> res Analysis)
          (ak : Provider) (df : list Snapshot) (ctx : Context),
     stock_zh_a_spot_em ak = Ok df -> prefetch = Ok ctx ->
     analyze_limit_up_stocks Context Analysis prefetch analyse ak =
     flat_map (fun stock =>
                 match limit_up_try Context Analysis analyse ak ctx stock with
                 | Ok (Some a) => [a]
                 | _ => []
                 end) (limit_up_rows df)) /\
  (forall (c : Criteria) (ak : Provider) (df : list Snapshot) (row : Snapshot),
     (stock_zh_a_spot_em ak = Ok df -> volume_increase_cb c = true ->
      In row (checkbox_filters c (range_filters c df)) ->
      stock_zh_a_hist_min_em ak (code row) = Raise ->
      filter_stocks c ak = None) /\
     (before_technical c ak = Ok df -> technical_enabled c = true ->
      In row df -> stock_zh_a_hist ak (code row) 60 = Raise ->
      filter_stocks c ak = None) /\
     (before_limit_up c ak = Ok df -> limit_up_active c = true ->
      In row df ->
      stock_zh_a_hist ak (code row) (30 * months_spin c) = Raise ->
      filter_stocks c ak = None)).
Proof.
  split.
  - intros Context Analysis prefetch analyse ak df ctx Hspot Hpre.
    unfold analyze_limit_up_stocks. rewrite Hspot, Hpre. cbn [rbind].
    apply (limit_up_loop_flat analyse ak ctx (limit_up_rows df) []).
  - intros c ak df row. split; [|split].
    + apply filter_stocks_raise_volume.
    + apply filter_stocks_raise_technical.
    + apply filter_stocks_raise_limit_up.
Qed.

(** ** The trading-signal scorer *)

Lemma signal_scores_spec (price_change volume_ratio turnover : pyfloat)
    (position : Position) :
  signal_scores price_change volume_ratio turnover position =
  (spec_rating price_change volume_ratio turnover position,
   spec_risk position).
Proof.
  unfold signal_scores, spec_rating, spec_risk.
  destruct (price_change >? Fin 5)%F, (price_change >? Fin 2)%F,
           (volume_ratio >? Fin 2)%F, (turnover >? Fin 5)%F, position;
    reflexivity.
Qed.

Lemma final_advice_spec (rating risk : Z) :
  spec_label rating risk (final_advice rating risk).
Proof.
  unfold spec_label, final_advice.
  destruct (Z.geb_spec rating 4), (Z.leb_spec risk 1),
           (Z.geb_spec rating 2), (Z.leb_spec risk 2),
           (Z.geb_spec risk 3); cbn [andb];
    repeat split; intros; try reflexivity; exfalso; lia.
Qed.

Lemma analyze_row_fields (ak : Provider) (row : Snapshot) :
  let position := get_price_position ak (code row) (latest_price row) in
  let rating := spec_rating (pct_change row) (volume_ratio row)
                            (turnover row) position in
  let risk := spec_risk position in
  analyze_row ak row =
  mkSignal (code row) (name row) (latest_price row) (pct_change row)
           (volume_ratio row) (turnover row) position
           (final_advice rating risk) rating risk.
Proof.
  cbv zeta. unfold analyze_row. rewrite signal_scores_spec. reflexivity.
Qed.

(** C3: every row of the result of [analyze_trading_signals] carries the
    rating 2 or 1 for a change above 5 or 2, plus 1 for a volume ratio above
    2, plus 1 for a turnover above 5, plus 2 for a low position; the risk 2
    for a high position and 0 otherwise; and the label picked from these two
    scores in the order buy, watch, risk warning, hold. *)
Theorem analyze_trading_signals_scores (ak : Provider) (df : list Snapshot) :
  analyze_trading_signals ak df = map (analyze_row ak) df /\
  Forall (fun row =>
            let s := analyze_row ak row in
            let position :=
              get_price_position ak (code row) (latest_price row) in
            sig_position s = position /\
            sig_rating s = spec_rating (pct_change row) (volume_ratio row)
                                       (turnover row) position /\
            sig_risk s = spec_risk position /\
            spec_label (sig_rating s) (sig_risk s) (sig_advice s))
         df.
Proof.
  split; [reflexivity|].
  apply Forall_forall. intros row _. cbv zeta.
  rewrite analyze_row_fields. cbn [sig_position sig_rating sig_risk sig_advice].
  repeat split; try reflexivity; apply final_advice_spec.
Qed.

(** C10: the risk score of a scored row is 0 or 2, so the label is never the
    risk warning: it is buy, watch or hold. *)
Theorem risk_warning_never_emitted (ak : Provider) (df : list Snapshot) :
  Forall (fun s =>
            (sig_risk s = 0%Z \/ sig_risk s = 2%Z) /\
            sig_advice s <> RiskWarning /\
            (sig_advice s = Buy \/ sig_advice s = Watch \/ sig_advice s = Hold))
         (analyze_trading_signals ak df).
Proof.
  unfold analyze_trading_signals. apply Forall_map, Forall_forall.
  intros row _. rewrite analyze_row_fields.
  cbn [sig_risk sig_advice].
  set (rating := spec_rating _ _ _ _).
  unfold spec_risk, final_advice.
  destruct (get_price_position ak (code row) (latest_price row));
    destruct (Z.geb_spec rating 4), (Z.geb_spec rating 2); cbn;
    repeat split; try discriminate; auto; exfalso; lia.
Qed.

(** ** The money-flow parser *)

Lemma transform_no_foreign (c : N) (s a : pystr) :
  to_ascii c = Raise -> transform s = Ok a -> contains c s = false.
Proof.
  intros Hc. revert a. induction s as [|x s IH]; intros a H; [reflexivity|].
  simpl in H. destruct (to_ascii x) as [x'|] eqn:Ex; [|discriminate].
  cbn [rbind] in H. destruct (transform s) as [s'|]; [|discriminate].
  simpl. rewrite (IH s' eq_refl), orb_false_r.
  apply N.eqb_neq. intros <-. congruence.
Qed.

(** A text that [float] accepts holds no unit character. *)
Lemma py_float_no_unit (s : pystr) (x : pyfloat) :
  py_float s = Ok x -> contains yi s = false /\ contains wan s = false.
Proof.
  unfold py_float. intros H.
  destruct (transform s) as [a|] eqn:Ea; [|discriminate].
  split; eapply transform_no_foreign; try exact Ea; reflexivity.
Qed.

Lemma remove_char_absent (c : N) (s : pystr) :
  contains c s = false -> remove_char c s = s.
Proof.
  induction s as [|x s IH]; [reflexivity|].
  simpl. intros H. apply orb_false_iff in H. destruct H as [Hx Hs].
  rewrite N.eqb_sym, Hx. simpl. rewrite IH by exact Hs. reflexivity.
Qed.

Lemma contains_app (c : N) (a b : pystr) :
  contains c (a ++ b) = contains c a || contains c b.
Proof. unfold contains. apply existsb_app. Qed.

Lemma remove_char_suffix (c : N) (p : pystr) :
  contains c p = false -> remove_char c (p ++ [c]) = p.
Proof.
  intros H. unfold remove_char. rewrite List.filter_app. simpl.
  rewrite N.eqb_refl. simpl. rewrite app_nil_r.
  apply remove_char_absent. exact H.
Qed.

Lemma lstrip_spaces (space : N -> bool) (w s : pystr) :
  forallb space w = true -> lstrip space (w ++ s) = lstrip space s.
Proof.
  induction w as [|c w IH]; [reflexivity|].
  simpl. intros H. apply andb_true_iff in H. destruct H as [-> Hw].
  apply IH. exact Hw.
Qed.

Lemma lstrip_app_spaces (space : N -> bool) (s w : pystr) :
  forallb space w = true ->
  lstrip space (s ++ w) =
  match lstrip space s with
  | [] => []
  | _ => lstrip space s ++ w
  end.
Proof.
  intros Hw. induction s as [|c s IH]; simpl.
  - rewrite <- (app_nil_r w). rewrite lstrip_spaces by exact Hw. reflexivity.
  - destruct (space c); [exact IH | reflexivity].
Qed.

Lemma forallb_rev_true {A} (f : A -> bool) (l : list A) :
  forallb f l = true -> forallb f (rev l) = true.
Proof.
  rewrite !forallb_forall. intros H x Hx. apply H, in_rev. exact Hx.
Qed.

Lemma strip_with_spaces (space : N -> bool) (w1 s w2 : pystr) :
  forallb space w1 = true -> forallb space w2 = true ->
  strip_with space (w1 ++ s ++ w2) = strip_with space s.
Proof.
  intros H1 H2. unfold strip_with.
  rewrite lstrip_spaces by exact H1.
  rewrite lstrip_app_spaces by exact H2.
  destruct (lstrip space s) as [|c t] eqn:E; [reflexivity|].
  rewrite rev_app_distr.
  rewrite lstrip_spaces by (apply forallb_rev_true; exact H2).
  reflexivity.
Qed.

(** The unit is looked for anywhere in the text and every occurrence is
    deleted, so a unit inside the digits scales the number made of all the
    digits. *)
Example convert_flow_value_interior_unit :
  feq (convert_flow_value (VStr (utf8 "1亿5"))) (Fin 1500000000) = true.
Proof. vm_compute. reflexivity. Qed.

Lemma flow_of_str_spaces (w1 s w2 : pystr) :
  forallb is_space w1 = true -> forallb is_space w2 = true ->
  flow_of_str (w1 ++ s ++ w2) = flow_of_str s.
Proof.
  intros H1 H2. unfold flow_of_str, strip.
  rewrite strip_with_spaces by assumption. reflexivity.
Qed.

(** C4: [convert_flow_value] works on the text without surrounding white
    space and without commas; a leading minus is taken off first and put
    back on the result; a numeric text followed by 亿 is that number times
    1e8, followed by 万 that number times 1e4, and a bare numeric text is
    its number; a text [float] rejects gives 0 and nothing raises.  The
    three sample texts give 1.5e8, -2e7 and 0. *)
Theorem convert_flow_value_parses :
  (forall s : pystr,
     let value := remove_char comma (strip s) in
     let is_negative := startswith minus value in
     let body := if is_negative then tl value else value in
     let signed := fun x => if is_negative then fneg x else x in
     (forall w1 w2, forallb is_space w1 = true -> forallb is_space w2 = true ->
        convert_flow_value (VStr (w1 ++ s ++ w2)) = convert_flow_value (VStr s)) /\
     (forall p x, body = p ++ [yi] -> py_float p = Ok x ->
        convert_flow_value (VStr s) = signed (x * Fin 100000000)%F) /\
     (forall p x, body = p ++ [wan] -> py_float p = Ok x ->
        convert_flow_value (VStr s) = signed (x * Fin 10000)%F) /\
     (forall x, py_float body = Ok x ->
        convert_flow_value (VStr s) = signed x) /\
     (flow_of_str s = Raise -> convert_flow_value (VStr s) = Fin 0)) /\
  feq (convert_flow_value (VStr (utf8 "1.5亿"))) (Fin 150000000) = true /\
  feq (convert_flow_value (VStr (utf8 "-2000万"))) (Fin (-20000000)) = true /\
  feq (convert_flow_value (VStr (utf8 "abc"))) (Fin 0) = true.
Proof.
  split; [|repeat split; vm_compute; reflexivity].
  intros s value is_negative body signed.
  split; [|split; [|split; [|split]]].
  - intros w1 w2 H1 H2. cbn [convert_flow_value].
    rewrite flow_of_str_spaces by assumption. reflexivity.
  - intros p x Hbody Hp.
    destruct (py_float_no_unit p x Hp) as [Hyi _].
    cbn [convert_flow_value]. unfold flow_of_str.
    fold value. fold is_negative. fold body.
    rewrite Hbody, contains_app. cbn [contains existsb].
    rewrite N.eqb_refl, orb_true_r.
    rewrite remove_char_suffix by exact Hyi.
    rewrite Hp. reflexivity.
  - intros p x Hbody Hp.
    destruct (py_float_no_unit p x Hp) as [Hyi Hwan].
    cbn [convert_flow_value]. unfold flow_of_str.
    fold value. fold is_negative. fold body.
    rewrite Hbody, !contains_app, Hyi. cbn [contains existsb].
    change (yi =? wan)%N with false. rewrite N.eqb_refl, orb_true_r.
    cbn [orb].
    rewrite remove_char_suffix by exact Hwan.
    rewrite Hp. reflexivity.
  - intros x Hp.
    destruct (py_float_no_unit body x Hp) as [Hyi Hwan].
    cbn [convert_flow_value]. unfold flow_of_str.
    fold value. fold is_negative. fold body.
    rewrite Hyi, Hwan, Hp. reflexivity.
  - intros H. cbn [convert_flow_value]. rewrite H. reflexivity.
Qed.

(** ** Instances *)

Lemma check_ma_trend_classifies_witness :
  exists (is_positive : bool) (latest : Bar),
    check_ma_trend (sample_provider [] (fun _ => rising_history 31))
                   ∅ "600000" =
      ((is_positive, Some latest),
       <["600000" := (is_positive, Some latest)]> ∅) /\
    nth_error (rising_history 31) (length (rising_history 31) - 1) =
      Some latest /\
    (is_positive = true <->
     let MA := fun n => rolling_mean n (closes (rising_history 31)) in
     let t := (length (rising_history 31) - 1)%nat in
     spec_turning_up (MA 5%nat) (MA 10%nat) (MA 20%nat) t \/
     spec_bullish_alignment (MA 5%nat) (MA 10%nat) (MA 20%nat) (MA 30%nat) t).
Proof.
  apply (check_ma_trend_classifies
           (sample_provider [] (fun _ => rising_history 31)) ∅ "600000"
           (rising_history 31)).
  - reflexivity.
  - reflexivity.
  - vm_compute. lia.
Defined.

(** A history of 22 bars on which [check_ma_trend] answers true with the
    latest bar, not (false, None). *)
Lemma check_ma_trend_short_counterexample :
  (length v_history < 31)%nat /\
  fst (check_ma_trend (sample_provider [] (fun _ => v_history)) ∅ "600000")
  = (true, Some (sample_bar 1000)) /\
  fst (check_ma_trend (sample_provider [] (fun _ => v_history)) ∅ "600000")
  <> (false, None).
Proof.
  split; [vm_compute; lia|].
  assert (E : fst (check_ma_trend (sample_provider [] (fun _ => v_history))
                                  ∅ "600000")
              = (true, Some (sample_bar 1000)))
    by (vm_compute; reflexivity).
  split; [exact E | rewrite E; discriminate].
Qed.

Lemma check_ma_trend_short_series_witness :
  (v_history = [] ->
   check_ma_trend (sample_provider [] (fun _ => v_history)) ∅ "600000" =
   ((false, None), ∅)) /\
  (v_history <> [] ->
   exists (up : bool) (latest : Bar),
     is_turning_up (diff (rolling_mean 5 (closes v_history)))
                   (diff (rolling_mean 10 (closes v_history)))
                   (diff (rolling_mean 20 (closes v_history))) = Ok up /\
     nth_error v_history (length v_history - 1) = Some latest /\
     check_ma_trend (sample_provider [] (fun _ => v_history)) ∅ "600000" =
       ((up, Some latest), <["600000" := (up, Some latest)]> ∅)).
Proof.
  apply (check_ma_trend_short_series
           (sample_provider [] (fun _ => v_history)) ∅ "600000" v_history).
  - reflexivity.
  - reflexivity.
  - vm_compute. lia.
Defined.

Lemma convert_flow_value_parses_witness :
  exists x, py_float (utf8 "2000") = Ok x /\
            convert_flow_value (VStr (utf8 "-2000万")) =
            fneg (x * Fin 10000)%F.
Proof.
  eexists. split; [vm_compute; reflexivity|].
  destruct (proj1 convert_flow_value_parses (utf8 "-2000万"))
    as (_ & _ & Hwan & _).
  apply (Hwan (utf8 "2000") _ eq_refl eq_refl).
Defined.

Lemma technical_block_drops_witness :
  exists kept,
    technical_filter (sample_criteria 20 0 0 true 0 0)
                     (sample_provider [] sample_histories)
                     [sample_row "600000" 3 1; sample_row "600003" 3 1]
    = Ok kept /\
    forall row,
      In row [sample_row "600000" 3 1; sample_row "600003" 3 1] ->
      (~ In row kept <->
       sample_histories (code row) <> [] /\
       spec_sub_check_fails (sample_criteria 20 0 0 true 0 0)
                            (sample_histories (code row))) /\
      (sample_histories (code row) = [] -> In row kept).
Proof.
  apply (technical_block_drops
           (sample_criteria 20 0 0 true 0 0)
           (sample_provider [] sample_histories)
           [sample_row "600000" 3 1; sample_row "600003" 3 1]
           sample_histories).
  intros row _. reflexivity.
Defined.

Lemma filter_stocks_limit_up_exact_witness :
  filter_stocks (sample_criteria 20 0 0 false 1 1)
                (sample_provider
                   [sample_row "600000" 3 1; sample_row "600001" 3 1]
                   sample_histories)
  = Some [sample_row "600000" 3 1].
Proof.
  apply (filter_stocks_limit_up_exact
           (sample_criteria 20 0 0 false 1 1)
           (sample_provider
              [sample_row "600000" 3 1; sample_row "600001" 3 1]
              sample_histories)
           [sample_row "600000" 3 1; sample_row "600001" 3 1]
           sample_histories).
  - reflexivity.
  - reflexivity.
  - vm_compute. reflexivity.
  - intros row _. reflexivity.
Defined.

(** A percent-change maximum of 0 is applied: the row that rose by 5 is
    dropped, while the same row passes when the maximum is 20. *)
Lemma range_maximum_counterexample :
  price_change_max (sample_criteria 0 0 0 false 0 0) <= 0 /\
  (pct_change (sample_row "600000" 5 1) >?
   Fin (price_change_max (sample_criteria 0 0 0 false 0 0)))%F = true /\
  filter_stocks (sample_criteria 20 0 0 false 0 0)
                (sample_provider [sample_row "600000" 5 1] sample_histories)
  = Some [sample_row "600000" 5 1] /\
  filter_stocks (sample_criteria 0 0 0 false 0 0)
                (sample_provider [sample_row "600000" 5 1] sample_histories)
  = Some [].
Proof.
  split; [|split; [|split]].
  - vm_compute. discriminate.
  - vm_compute. reflexivity.
  - vm_compute. reflexivity.
  - vm_compute. reflexivity.
Qed.

Lemma range_maximum_bounds_witness :
  In (sample_row "600000" 5 3)
     (range_filters (sample_criteria 20 1 0 false 0 0)
                    [sample_row "600000" 5 3]) /\
  ((pct_change (sample_row "600000" 5 3) <=? Fin 20)%F = true /\
   (latest_price (sample_row "600000" 5 3) <=? Fin 10000)%F = true /\
   (total_cap (sample_row "600000" 5 3) <=? Fin (10000 * 100000000))%F = true).
Proof.
  split.
  - apply (proj1 (range_maximum_bounds (sample_criteria 20 1 0 false 0 0))
                 [sample_row "600000" 5 3] (sample_row "600000" 5 3)).
    + vm_compute. discriminate.
    + left. reflexivity.
    + reflexivity.
    + reflexivity.
    + reflexivity.
    + reflexivity.
    + reflexivity.
  - apply (proj2 (range_maximum_bounds (sample_criteria 20 1 0 false 0 0))
                 (sample_provider [sample_row "600000" 5 3] sample_histories)
                 [sample_row "600000" 5 3] (sample_row "600000" 5 3)).
    + vm_compute. reflexivity.
    + left. reflexivity.
Defined.

(** A volume-ratio range of minimum 1 and maximum 0 is crossed, and the
    pipeline still returns the row whose ratio is 2. *)
Lemma crossed_range_counterexample :
  volume_ratio_max (sample_criteria 20 1 0 false 0 0)
  < volume_ratio_min (sample_criteria 20 1 0 false 0 0) /\
  filter_stocks (sample_criteria 20 1 0 false 0 0)
                (sample_provider [sample_row "600000" 5 2] sample_histories)
  = Some [sample_row "600000" 5 2] /\
  filter_stocks (sample_criteria 20 1 0 false 0 0)
                (sample_provider [sample_row "600000" 5 2] sample_histories)
  <> Some [].
Proof.
  split; [reflexivity|].
  assert (E : filter_stocks (sample_criteria 20 1 0 false 0 0)
                (sample_provider [sample_row "600000" 5 2] sample_histories)
              = Some [sample_row "600000" 5 2])
    by (vm_compute; reflexivity).
  split; [exact E | rewrite E; discriminate].
Qed.

Lemma crossed_range_is_empty_witness :
  filter_stocks (sample_criteria 20 3 2 false 0 0)
                (sample_provider [sample_row "600000" 5 2] sample_histories)
  = Some [].
Proof.
  apply (crossed_range_is_empty
           (sample_criteria 20 3 2 false 0 0)
           (sample_provider [sample_row "600000" 5 2] sample_histories)
           [sample_row "600000" 5 2]).
  - reflexivity.
  - right. right. left. split; reflexivity.
Defined.

(** Two rows reach the technical block; the history call of the first
    raises, the second row alone would be kept, and the whole call returns
    None. *)
Lemma instrument_failures_counterexample :
  stock_zh_a_hist
    (failing_provider "600001"
       [sample_row "600001" 3 1; sample_row "600002" 3 1] sample_histories)
    "600001" 60 = Raise /\
  filter_stocks (sample_criteria 20 0 0 true 0 0)
    (failing_provider "600001" [sample_row "600002" 3 1] sample_histories)
  = Some [sample_row "600002" 3 1] /\
  filter_stocks (sample_criteria 20 0 0 true 0 0)
    (failing_provider "600001"
       [sample_row "600001" 3 1; sample_row "600002" 3 1] sample_histories)
  = None.
Proof.
  split; [|split]; vm_compute; reflexivity.
Qed.

Lemma instrument_failures_witness :
  analyze_limit_up_stocks unit string (Ok tt)
    (fun _ stock _ => if String.eqb (code stock) "600001" then Raise
                      else Ok (code stock))
    (sample_provider
       [sample_row "600000" 10 1; sample_row "600001" 10 1;
        sample_row "600002" 10 1]
       sample_histories)
  = ["600000"; "600002"]%string /\
  filter_stocks (sample_criteria 20 0 0 true 0 0)
    (failing_provider "600001"
       [sample_row "600001" 3 1; sample_row "600002" 3 1] sample_histories)
  = None.
Proof.
  split.
  - rewrite (proj1 instrument_failures unit string (Ok tt)
               (fun _ stock _ => if String.eqb (code stock) "600001" then Raise
                                 else Ok (code stock))
               (sample_provider
                  [sample_row "600000" 10 1; sample_row "600001" 10 1;
                   sample_row "600002" 10 1]
                  sample_histories)
               [sample_row "600000" 10 1; sample_row "600001" 10 1;
                sample_row "600002" 10 1] tt eq_refl eq_refl).
    vm_compute. reflexivity.
  - apply (proj1 (proj2 (proj2 instrument_failures
             (sample_criteria 20 0 0 true 0 0)
             (failing_provider "600001"
                [sample_row "600001" 3 1; sample_row "600002" 3 1]
                sample_histories)
             [sample_row "600001" 3 1; sample_row "600002" 3 1]
             (sample_row "600001" 3 1)))).
    + vm_compute. reflexivity.
    + reflexivity.
    + left. reflexivity.
    + reflexivity.
Defined.

(** * Further properties *)

(** ** check_vol_price_up *)

Lemma vol_price_days_spec (hist_data : list Bar) (days : list nat) (d : Bar) :
  (forall i, In i days -> (i + 2 <= length hist_data)%nat) ->
  exists b,
    vol_price_days hist_data days = Ok b /\
    (b = true <->
     forall i, In i days ->
       bar_close (nth (length hist_data - 2 - i) hist_data d)
       < bar_close (nth (length hist_data - 1 - i) hist_data d) /\
       bar_volume (nth (length hist_data - 2 - i) hist_data d)
       < bar_volume (nth (length hist_data - 1 - i) hist_data d)).
Proof.
  induction days as [|i rest IH]; intros Hlen.
  - exists true. split; [reflexivity|]. split; [intros _ i []|reflexivity].
  - destruct IH as (b & Eb & Hb);
      [intros j Hj; apply Hlen; right; exact Hj|].
    assert (Hi : (i + 2 <= length hist_data)%nat) by (apply Hlen; left; reflexivity).
    cbn [vol_price_days].
    replace (Z.of_nat i + 1)%Z with (Z.of_nat (i + 1)) by lia.
    replace (Z.of_nat i + 2)%Z with (Z.of_nat (i + 2)) by lia.
    rewrite (iloc_from_end hist_data (i + 1) d) by lia.
    rewrite (iloc_from_end hist_data (i + 2) d) by lia.
    cbn [rbind].
    replace (length hist_data - (i + 1))%nat with (length hist_data - 1 - i)%nat by lia.
    replace (length hist_data - (i + 2))%nat with (length hist_data - 2 - i)%nat by lia.
    set (today := nth (length hist_data - 1 - i) hist_data d).
    set (yesterday := nth (length hist_data - 2 - i) hist_data d).
    destruct (Qltb (bar_close yesterday) (bar_close today)) eqn:Ep;
      destruct (Qltb (bar_volume yesterday) (bar_volume today)) eqn:Ev;
      cbn [andb negb].
    + exists b. split; [exact Eb|]. rewrite Hb. split.
      * intros H j [<- | Hj]; [|apply H; exact Hj].
        split; apply Qltb_lt; assumption.
      * intros H j Hj. apply H. right. exact Hj.
    + exists false. split; [reflexivity|]. split; [discriminate|].
      intros H. destruct (H i (or_introl eq_refl)) as [_ Hv].
      apply Qltb_lt in Hv. fold yesterday today in Hv. congruence.
    + exists false. split; [reflexivity|]. split; [discriminate|].
      intros H. destruct (H i (or_introl eq_refl)) as [Hp _].
      apply Qltb_lt in Hp. fold yesterday today in Hp. congruence.
    + exists false. split; [reflexivity|]. split; [discriminate|].
      intros H. destruct (H i (or_introl eq_refl)) as [Hp _].
      apply Qltb_lt in Hp. fold yesterday today in Hp. congruence.
Qed.

(** X1: [check_vol_price_up] answers true exactly when the history has at
    least [days + 1] bars and, on each of the last [days] bars, both the
    close and the volume are strictly above those of the bar before. *)
Theorem check_vol_price_up_spec (stock_code : string) (hist_data : list Bar)
    (days : nat) (d : Bar) :
  check_vol_price_up stock_code hist_data days = true <->
  (days + 1 <= length hist_data)%nat /\
  forall i, (i < days)%nat ->
    bar_close (nth (length hist_data - 2 - i) hist_data d)
    < bar_close (nth (length hist_data - 1 - i) hist_data d) /\
    bar_volume (nth (length hist_data - 2 - i) hist_data d)
    < bar_volume (nth (length hist_data - 1 - i) hist_data d).
Proof.
  unfold check_vol_price_up.
  destruct (Nat.ltb_spec (length hist_data) (days + 1)) as [Hshort | Hlong].
  - split; [discriminate | intros [H _]; lia].
  - destruct (vol_price_days_spec hist_data (seq 0 days) d) as (b & -> & Hb).
    { intros i Hi. apply in_seq in Hi. lia. }
    rewrite Hb. split.
    + intros H. split; [exact Hlong|].
      intros i Hi. apply H. apply in_seq. lia.
    + intros [_ H] i Hi. apply H. apply in_seq in Hi. lia.
Qed.

(** ** The trend cache *)

Lemma is_bullish_total (xs : list Q) :
  xs <> [] ->
  exists b,
    is_bullish (rolling_mean 5 xs) (rolling_mean 10 xs)
               (rolling_mean 20 xs) (rolling_mean 30 xs)
               (diff (rolling_mean 5 xs)) (diff (rolling_mean 10 xs))
               (diff (rolling_mean 20 xs)) (diff (rolling_mean 30 xs)) = Ok b.
Proof.
  intros Hs. unfold is_bullish.
  assert (Hma : forall n, exists x, iloc (rolling_mean n xs) (-1) = Ok x).
  { intros n. destruct (iloc_last_error (rolling_mean n xs)) as (x & E & _).
    - apply nonempty_length. rewrite length_rolling_mean.
      destruct xs; [congruence | simpl; lia].
    - exists x. exact E. }
  destruct (Hma 5%nat) as (a & ->), (Hma 10%nat) as (b & ->),
           (Hma 20%nat) as (c & ->), (Hma 30%nat) as (d & ->).
  destruct (rising_total _ (slopes_nonempty 5 xs Hs)) as (b5 & ->).
  destruct (rising_total _ (slopes_nonempty 10 xs Hs)) as (b10 & ->).
  destruct (rising_total _ (slopes_nonempty 20 xs Hs)) as (b20 & ->).
  destruct (rising_total _ (slopes_nonempty 30 xs Hs)) as (b30 & ->).
  cbn [rbind].
  destruct (a >? b)%F; [|eexists; reflexivity]. cbn [negb rbind].
  destruct (b >? c)%F; [|eexists; reflexivity]. cbn [negb rbind].
  destruct (c >? d)%F, b5, b10, b20, b30; eexists; reflexivity.
Qed.

(** The computation on a non-empty history never raises and always carries
    the latest bar. *)
Lemma ma_trend_of_total (hist_data : list Bar) :
  hist_data <> [] ->
  exists (b : bool) (latest : Bar),
    ma_trend_of hist_data = Ok (Some (b, Some latest)) /\
    nth_error hist_data (length hist_data - 1) = Some latest.
Proof.
  intros Hne. unfold ma_trend_of. rewrite (empty_false _ Hne). cbv zeta.
  destruct (is_turning_up_total _ (closes_nonempty _ Hne)) as (up & ->).
  destruct (is_bullish_total _ (closes_nonempty _ Hne)) as (bull & ->).
  destruct (iloc_last_error hist_data Hne) as (latest & -> & Hlast).
  exists (up || bull), latest. split; [reflexivity | exact Hlast].
Qed.

(** X2: [check_ma_trend] stores an answer exactly when it fetched a
    non-empty history; a failed or empty fetch answers (false, None) and
    leaves the cache as it was, so the next call fetches again; a stored
    answer is returned by every later call whatever the provider then says;
    and the entries of other symbols are never touched. *)
Theorem check_ma_trend_cache_discipline (ak : Provider)
    (cache : gmap string (bool * option Bar)) (stock_code : string) :
  cache !! stock_code = None ->
  (stock_zh_a_hist ak stock_code 60 = Raise \/
   stock_zh_a_hist ak stock_code 60 = Ok [] ->
   check_ma_trend ak cache stock_code = ((false, None), cache)) /\
  (forall hist_data,
     stock_zh_a_hist ak stock_code 60 = Ok hist_data -> hist_data <> [] ->
     exists answer,
       check_ma_trend ak cache stock_code =
         (answer, <[stock_code := answer]> cache) /\
       forall ak',
         check_ma_trend ak' (<[stock_code := answer]> cache) stock_code =
         (answer, <[stock_code := answer]> cache)) /\
  (forall other, other <> stock_code ->
     snd (check_ma_trend ak cache stock_code) !! other = cache !! other).
Proof.
  intros Hmiss. split; [|split].
  - intros [H | H]; unfold check_ma_trend; rewrite Hmiss, H; reflexivity.
  - intros hist_data Hfetch Hne.
    destruct (ma_trend_of_total hist_data Hne) as (b & latest & E & _).
    exists (b, Some latest). split.
    + unfold check_ma_trend. rewrite Hmiss, Hfetch. cbn [rbind].
      rewrite E. reflexivity.
    + intros ak'. apply check_ma_trend_cache_hit. apply lookup_insert_eq.
  - intros other Hother. unfold check_ma_trend. rewrite Hmiss.
    destruct (stock_zh_a_hist ak stock_code 60) as [hist_data|];
      [|reflexivity].
    cbn [rbind].
    destruct (ma_trend_of hist_data) as [[answer|]|]; cbn [snd];
      try reflexivity.
    apply lookup_insert_ne. congruence.
Qed.

(** ** Short histories *)

Lemma fsub_NaN_r (x : pyfloat) : (x - NaN)%F = NaN.
Proof. destruct x; reflexivity. Qed.

Lemma nth_slope_undefined (n i : nat) (xs : list Q) :
  (i < n)%nat -> (i < length xs)%nat ->
  nth i (diff (rolling_mean n xs)) NaN = NaN.
Proof.
  intros Hn Hi. destruct i as [|j].
  - unfold diff. rewrite nth_map_seq by (rewrite length_rolling_mean; exact Hi).
    reflexivity.
  - rewrite nth_diff by (rewrite length_rolling_mean; exact Hi).
    rewrite (nth_rolling_mean n j) by lia.
    replace (S j <? n)%nat with true by (symmetry; apply Nat.ltb_lt; lia).
    apply fsub_NaN_r.
Qed.

(** With fewer than [n + 2] bars the turning test of MA[n] fails. *)
Lemma turning_short (n : nat) (xs : list Q) :
  xs <> [] -> (length xs < n + 2)%nat ->
  turning (diff (rolling_mean n xs)) = Ok false.
Proof.
  intros Hs Hlen. unfold turning.
  destruct (Nat.le_gt_cases (length xs) n) as [Hle | Hgt].
  - (* the latest slope is undefined *)
    unfold rising.
    rewrite (iloc_last _ NaN) by (apply slopes_nonempty; exact Hs).
    rewrite length_diff, length_rolling_mean.
    rewrite nth_slope_undefined;
      [reflexivity | | ]; destruct xs; simpl in *; try congruence; lia.
  - (* exactly n + 1 bars: the two slopes before the latest are undefined *)
    destruct (rising_total _ (slopes_nonempty n xs Hs)) as (b & ->).
    destruct b; [|reflexivity].
    unfold and_then. cbn [rbind].
    destruct (Nat.le_gt_cases 3 (length xs)) as [H3 | H3].
    + rewrite (iloc_slice_prior _ NaN)
        by (rewrite length_diff, length_rolling_mean; exact H3).
      rewrite length_diff, length_rolling_mean.
      rewrite !nth_slope_undefined by lia.
      reflexivity.
    + destruct xs as [|x [|y [|z xs]]]; simpl in *; try congruence; try lia;
        destruct n as [|[|n]]; try lia; reflexivity.
Qed.

(** X3: [check_ma_trend] never answers true on fewer than 22 bars: the
    turning test of MA20 needs the slope of the latest bar and one defined
    slope before it.  Twenty-two bars are enough for a true answer. *)
Theorem check_ma_trend_needs_22_bars :
  (forall (ak : Provider) (cache : gmap string (bool * option Bar))
          (stock_code : string) (hist_data : list Bar),
     cache !! stock_code = None ->
     stock_zh_a_hist ak stock_code 60 = Ok hist_data ->
     (length hist_data < 22)%nat ->
     fst (fst (check_ma_trend ak cache stock_code)) = false) /\
  (exists hist_data,
     length hist_data = 22%nat /\
     fst (fst (check_ma_trend (sample_provider [] (fun _ => hist_data))
                              ∅ "600000")) = true).
Proof.
  split.
  - intros ak cache stock_code hist_data Hmiss Hfetch Hlen.
    unfold check_ma_trend. rewrite Hmiss, Hfetch. cbn [rbind].
    destruct hist_data as [|b0 h]; [reflexivity|].
    set (hist_data := b0 :: h) in *.
    assert (Hne : hist_data <> []) by discriminate.
    assert (Hcl : length (closes hist_data) = length hist_data)
      by (unfold closes; apply length_map).
    unfold ma_trend_of. rewrite (empty_false _ Hne). cbv zeta.
    unfold is_turning_up.
    destruct (turning_total _ (slopes_nonempty 5 _ (closes_nonempty _ Hne)))
      as (t5 & ->).
    destruct (turning_total _ (slopes_nonempty 10 _ (closes_nonempty _ Hne)))
      as (t10 & ->).
    rewrite (turning_short 20) by (try apply closes_nonempty; congruence || lia).
    rewrite is_bullish_short by (try apply closes_nonempty; congruence || lia).
    destruct (iloc_last_error hist_data Hne) as (latest & -> & _).
    destruct t5, t10; reflexivity.
  - exists v_history. split; vm_compute; reflexivity.
Qed.

Lemma check_ma_trend_needs_22_bars_witness :
  fst (fst (check_ma_trend (sample_provider [] (fun _ => rising_history 21))
                           ∅ "600000")) = false.
Proof.
  apply (proj1 check_ma_trend_needs_22_bars
           (sample_provider [] (fun _ => rising_history 21)) ∅ "600000"
           (rising_history 21)).
  - reflexivity.
  - reflexivity.
  - vm_compute. lia.
Defined.

Lemma check_ma_trend_cache_discipline_witness :
  exists answer,
    check_ma_trend (sample_provider [] (fun _ => v_history)) ∅ "600000" =
      (answer, <["600000" := answer]> ∅) /\
    forall ak',
      check_ma_trend ak' (<["600000" := answer]> ∅) "600000" =
      (answer, <["600000" := answer]> ∅).
Proof.
  assert (Hmiss : (∅ : gmap string (bool * option Bar)) !! "600000" = None)
    by reflexivity.
  apply (proj1 (proj2 (check_ma_trend_cache_discipline
                         (sample_provider [] (fun _ => v_history))
                         ∅ "600000" Hmiss)) v_history).
  - reflexivity.
  - discriminate.
Defined.

(** ** Memoisation is transparent *)

Lemma check_ma_trend_lookup (ak : Provider)
    (c1 c2 : gmap string (bool * option Bar)) (stock_code : string) :
  c1 !! stock_code = c2 !! stock_code ->
  fst (check_ma_trend ak c1 stock_code) = fst (check_ma_trend ak c2 stock_code).
Proof.
  intros H. unfold check_ma_trend. rewrite H.
  destruct (c2 !! stock_code); [reflexivity|].
  destruct (do hist_data <- stock_zh_a_hist ak stock_code 60;
            ma_trend_of hist_data) as [[r|]|]; reflexivity.
Qed.

(** The answer for a symbol is the same before and after any other call of
    [check_ma_trend] with the same provider. *)
Lemma check_ma_trend_stable (ak : Provider)
    (cache : gmap string (bool * option Bar)) (called asked : string) :
  fst (check_ma_trend ak (snd (check_ma_trend ak cache called)) asked) =
  fst (check_ma_trend ak cache asked).
Proof.
  destruct (String.eqb_spec called asked) as [<- | Hne].
  - unfold check_ma_trend at 2 3.
    destruct (cache !! called) as [r|] eqn:Hc.
    + cbn [snd fst]. rewrite (check_ma_trend_cache_hit _ _ _ _ Hc). reflexivity.
    + destruct (do hist_data <- stock_zh_a_hist ak called 60;
                ma_trend_of hist_data) as [[r|]|] eqn:E; cbn [snd fst].
      * rewrite (check_ma_trend_cache_hit _ _ _ r) by apply lookup_insert_eq.
        reflexivity.
      * unfold check_ma_trend. rewrite Hc, E. reflexivity.
      * unfold check_ma_trend. rewrite Hc, E. reflexivity.
  - apply check_ma_trend_lookup.
    unfold check_ma_trend.
    destruct (cache !! called) as [r|]; [reflexivity|].
    destruct (do hist_data <- stock_zh_a_hist ak called 60;
              ma_trend_of hist_data) as [[r|]|]; cbn [snd]; try reflexivity.
    apply lookup_insert_ne. exact Hne.
Qed.

Lemma agrees_step (ak : Provider)
    (cache0 cache : gmap string (bool * option Bar)) (called : string) :
  agrees ak cache0 cache ->
  agrees ak cache0 (snd (check_ma_trend ak cache called)).
Proof.
  intros H asked. rewrite check_ma_trend_stable. apply H.
Qed.

Lemma flat_map_filter {A B} (f : A -> bool) (g : A -> B) (l : list A) :
  flat_map (fun x => if f x then [g x] else []) l = map g (List.filter f l).
Proof.
  induction l as [|x l IH]; [reflexivity|].
  simpl. destruct (f x); simpl; rewrite IH; reflexivity.
Qed.

Lemma filter_filter {A} (f g : A -> bool) (l : list A) :
  List.filter f (List.filter g l) = List.filter (fun x => g x && f x) l.
Proof.
  induction l as [|x l IH]; [reflexivity|].
  simpl. destruct (g x); simpl; [destruct (f x)|]; rewrite IH; reflexivity.
Qed.

Lemma ma_up_fold (ak : Provider) (cache0 : gmap string (bool * option Bar))
    (rows : list Snapshot) :
  forall cache acc,
    agrees ak cache0 cache ->
    exists cache',
      fold_left (fun st stock => ma_up_step ak stock st) rows (cache, acc) =
      (cache',
       acc ++ flat_map (fun r => if trend_flag ak cache0 (code r)
                                 then [name r] else []) rows) /\
      agrees ak cache0 cache'.
Proof.
  induction rows as [|r rows IH]; intros cache acc Hag.
  - exists cache. rewrite app_nil_r. split; [reflexivity | exact Hag].
  - cbn [fold_left flat_map]. unfold ma_up_step at 2.
    pose proof (Hag (code r)) as Hr.
    pose proof (agrees_step ak cache0 cache (code r) Hag) as Hag'.
    unfold trend_flag. rewrite <- Hr.
    destruct (check_ma_trend ak cache (code r)) as [[is_bullish latest] cache1].
    cbn [fst snd] in *.
    destruct is_bullish.
    + destruct (IH cache1 (acc ++ [name r]) Hag') as (cache' & E & H').
      exists cache'. rewrite E, <- app_assoc. split; [reflexivity | exact H'].
    + destruct (IH cache1 acc Hag') as (cache' & E & H').
      exists cache'. rewrite E. split; [reflexivity | exact H'].
Qed.

(** X4: within one refresh cycle the memo is transparent:
    [show_ma_up_stocks] lists, in frame order, exactly the names of the
    main-board rows with a positive change that [check_ma_trend] answers
    true for against the cache the call started with. *)
Theorem show_ma_up_stocks_lists (ak : Provider)
    (cache0 : gmap string (bool * option Bar)) (df : list Snapshot) :
  stock_zh_a_spot_em ak = Ok df ->
  snd (show_ma_up_stocks ak cache0) =
  Some (names_where (fun r => (pct_change r >? Fin 0)%F
                              && main_board (code r)
                              && trend_flag ak cache0 (code r)) df).
Proof.
  intros Hspot. unfold show_ma_up_stocks. rewrite Hspot.
  destruct (ma_up_fold ak cache0
              (List.filter (fun r => (pct_change r >? Fin 0)%F
                                     && main_board (code r)) df)
              cache0 []) as (cache' & E & _); [intros c; reflexivity|].
  rewrite E. cbn [snd app].
  rewrite flat_map_filter, filter_filter. reflexivity.
Qed.

(** ** The six lists of show_ma_stocks *)

(** What one row adds to the six lists. *)
Lemma ma_stocks_step_lists (ak : Provider)
    (cache0 cache : gmap string (bool * option Bar)) (l : MaStocks)
    (r : Snapshot) :
  agrees ak cache0 cache ->
  let ok := trend_flag ak cache0 (code r) && fetched5 ak r in
  let add (c : bool) (names : list string) :=
    names ++ (if ok && c then [name r] else []) in
  exists cache',
    ma_stocks_step ak r (cache, l) =
    (cache',
     mkMaStocks
       (add (is_up r && negb (is_limit r)) (ma_up_not_limit l))
       (add (is_up r && negb (is_limit r) && vol_flag ak r)
            (ma_up_not_limit_vol l))
       (add (is_up r && is_limit r) (ma_up_limit l))
       (add (is_up r && is_limit r && vol_flag ak r) (ma_up_limit_vol l))
       (add (negb (is_up r)) (ma_down l))
       (add (negb (is_up r) && vol_flag ak r) (ma_down_vol l))) /\
    agrees ak cache0 cache'.
Proof.
  intros Hag ok add. subst ok add. cbv beta.
  unfold ma_stocks_step, trend_flag, fetched5, vol_flag, is_up, is_limit.
  pose proof (Hag (code r)) as Hr.
  pose proof (agrees_step ak cache0 cache (code r) Hag) as Hag'.
  rewrite <- Hr.
  destruct (check_ma_trend ak cache (code r)) as [[is_bullish latest] cache1].
  cbn [fst snd] in *. exists cache1. split; [|exact Hag'].
  destruct l as [l1 l2 l3 l4 l5 l6].
  cbn [ma_up_not_limit ma_up_not_limit_vol ma_up_limit ma_up_limit_vol
       ma_down ma_down_vol fst].
  destruct is_bullish; cbn [andb];
    [|rewrite !app_nil_r; reflexivity].
  destruct (stock_zh_a_hist ak (code r) 5) as [hist_data|]; cbn [andb];
    [|rewrite !app_nil_r; reflexivity].
  unfold append_if.
  destruct (pct_change r >? Fin 0)%F; cbn [andb negb];
    [destruct (pct_change r >=? Fin 9.5)%F; cbn [andb negb]|];
    destruct (check_vol_price_up (code r) hist_data 3);
    rewrite ?app_nil_r; reflexivity.
Qed.

Lemma ma_stocks_fold (ak : Provider) (cache0 : gmap string (bool * option Bar))
    (rows : list Snapshot) :
  forall cache l,
    agrees ak cache0 cache ->
    let ok r := trend_flag ak cache0 (code r) && fetched5 ak r in
    let add (c : Snapshot -> bool) (names : list string) :=
      names ++ flat_map (fun r => if ok r && c r then [name r] else []) rows in
    exists cache',
      fold_left (fun st stock => ma_stocks_step ak stock st) rows (cache, l) =
      (cache',
       mkMaStocks
         (add (fun r => is_up r && negb (is_limit r)) (ma_up_not_limit l))
         (add (fun r => is_up r && negb (is_limit r) && vol_flag ak r)
              (ma_up_not_limit_vol l))
         (add (fun r => is_up r && is_limit r) (ma_up_limit l))
         (add (fun r => is_up r && is_limit r && vol_flag ak r)
              (ma_up_limit_vol l))
         (add (fun r => negb (is_up r)) (ma_down l))
         (add (fun r => negb (is_up r) && vol_flag ak r) (ma_down_vol l))) /\
      agrees ak cache0 cache'.
Proof.
  induction rows as [|r rows IH]; intros cache l Hag; cbv zeta.
  - exists cache. cbn [fold_left flat_map]. rewrite !app_nil_r.
    destruct l. split; [reflexivity | exact Hag].
  - cbn [fold_left flat_map].
    destruct (ma_stocks_step_lists ak cache0 cache l r Hag) as (c1 & E1 & H1).
    cbv zeta in E1. rewrite E1.
    match goal with
    | |- context [fold_left _ rows (c1, ?l1)] =>
        destruct (IH c1 l1 H1) as (c2 & E2 & H2)
    end.
    cbv zeta in E2.
    exists c2. split; [|exact H2].
    rewrite E2. cbn [ma_up_not_limit ma_up_not_limit_vol ma_up_limit
                     ma_up_limit_vol ma_down ma_down_vol].
    rewrite <- !app_assoc. reflexivity.
Qed.

Lemma names_where_ext (f g : Snapshot -> bool) (df : list Snapshot) :
  (forall r, f r = g r) -> names_where f df = names_where g df.
Proof.
  intros H. unfold names_where. f_equal. apply filter_ext. exact H.
Qed.

(** X5: [show_ma_stocks] sorts the main-board rows that [check_ma_trend]
    answers true for (against the initial cache) and whose five-day history
    could be fetched into three lists by change: above 0 and below 9.5,
    at or above 9.5, and not above 0 (which takes the rows with a zero or
    undefined change); each companion list holds the rows of its list that
    also pass [check_vol_price_up]; a row whose five-day fetch raises is in
    no list. *)
Theorem show_ma_stocks_lists (ak : Provider)
    (cache0 : gmap string (bool * option Bar)) (df : list Snapshot) :
  stock_zh_a_spot_em ak = Ok df ->
  snd (show_ma_stocks ak cache0) = Some (ma_stocks_spec ak cache0 df).
Proof.
  intros Hspot. unfold show_ma_stocks. rewrite Hspot.
  destruct (ma_stocks_fold ak cache0
              (List.filter (fun r => main_board (code r)) df)
              cache0 no_ma_stocks) as (cache' & E & _);
    [intros c; reflexivity|].
  cbv zeta in E. rewrite E. cbn [snd]. f_equal.
  unfold ma_stocks_spec, no_ma_stocks.
  cbn [ma_up_not_limit ma_up_not_limit_vol ma_up_limit ma_up_limit_vol
       ma_down ma_down_vol app].
  rewrite !flat_map_filter. unfold names_where. rewrite !filter_filter.
  unfold ma_listed.
  f_equal; f_equal; apply filter_ext; intros r;
    destruct (main_board (code r)), (trend_flag ak cache0 (code r)),
             (fetched5 ak r), (is_up r), (is_limit r), (vol_flag ak r);
    reflexivity.
Qed.

(** ** The cache only grows *)

Lemma check_ma_trend_cache_grows (ak : Provider)
    (cache : gmap string (bool * option Bar)) (stock_code : string) :
  cache ⊆ snd (check_ma_trend ak cache stock_code).
Proof.
  unfold check_ma_trend.
  destruct (cache !! stock_code) as [r|] eqn:Hc; [reflexivity|].
  destruct (do hist_data <- stock_zh_a_hist ak stock_code 60;
            ma_trend_of hist_data) as [[r|]|]; cbn [snd]; try reflexivity.
  apply insert_subseteq. exact Hc.
Qed.

Lemma ma_stocks_step_cache_grows (ak : Provider) (stock : Snapshot)
    (cache : gmap string (bool * option Bar)) (l : MaStocks) :
  cache ⊆ fst (ma_stocks_step ak stock (cache, l)).
Proof.
  unfold ma_stocks_step.
  pose proof (check_ma_trend_cache_grows ak cache (code stock)) as H.
  destruct (check_ma_trend ak cache (code stock)) as [[is_bullish latest] c1].
  cbn [snd] in H.
  destruct is_bullish; [|exact H].
  destruct (stock_zh_a_hist ak (code stock) 5); [|exact H].
  destruct (_ >? _)%F; [destruct (_ >=? _)%F|]; exact H.
Qed.

Lemma ma_up_step_cache_grows (ak : Provider) (stock : Snapshot)
    (cache : gmap string (bool * option Bar)) (l : list string) :
  cache ⊆ fst (ma_up_step ak stock (cache, l)).
Proof.
  unfold ma_up_step.
  pose proof (check_ma_trend_cache_grows ak cache (code stock)) as H.
  destruct (check_ma_trend ak cache (code stock)) as [[is_bullish latest] c1].
  destruct is_bullish; exact H.
Qed.

Lemma fold_cache_grows {L} (step : Snapshot ->
                              gmap string (bool * option Bar) * L ->
                              gmap string (bool * option Bar) * L)
    (rows : list Snapshot) :
  (forall stock cache l, cache ⊆ fst (step stock (cache, l))) ->
  forall cache l,
    cache ⊆ fst (fold_left (fun st stock => step stock st) rows (cache, l)).
Proof.
  intros Hstep. induction rows as [|r rows IH]; intros cache l; [reflexivity|].
  cbn [fold_left].
  pose proof (Hstep r cache l) as H.
  destruct (step r (cache, l)) as [c1 l1]. cbn [fst] in H.
  etransitivity; [exact H | apply IH].
Qed.

(** X6: [show_ma_stocks] and [show_ma_up_stocks] only add entries to the
    trend cache: every symbol cached before the call is cached with the
    same answer after it, whether or not the snapshot could be fetched;
    only [clear_ma_trend_cache] empties it. *)
Theorem ma_trend_cache_only_grows (ak : Provider)
    (cache : gmap string (bool * option Bar)) :
  cache ⊆ fst (show_ma_stocks ak cache) /\
  cache ⊆ fst (show_ma_up_stocks ak cache) /\
  clear_ma_trend_cache cache = ∅.
Proof.
  split; [|split; [|reflexivity]].
  - unfold show_ma_stocks.
    destruct (stock_zh_a_spot_em ak) as [df|]; [|reflexivity].
    pose proof (fold_cache_grows (ma_stocks_step ak)
                  (List.filter (fun r => main_board (code r)) df)
                  (ma_stocks_step_cache_grows ak) cache no_ma_stocks) as H.
    destruct (fold_left _ _ _) as [c l]. exact H.
  - unfold show_ma_up_stocks.
    destruct (stock_zh_a_spot_em ak) as [df|]; [|reflexivity].
    pose proof (fold_cache_grows (ma_up_step ak)
                  (List.filter (fun r => (pct_change r >? Fin 0)%F
                                         && main_board (code r)) df)
                  (ma_up_step_cache_grows ak) cache []) as H.
    destruct (fold_left _ _ _) as [c l]. exact H.
Qed.

(** ** predict_trend *)

Lemma iloc_nil {A} (i : Z) : iloc (@nil A) i = Raise.
Proof.
  unfold iloc. simpl length.
  destruct (_ || _)%bool; [reflexivity|].
  destruct (Z.to_nat _); reflexivity.
Qed.

Lemma iloc_last_raises {A} (s : list A) :
  iloc s (-1) = Raise <-> s = [].
Proof.
  split.
  - intros H. destruct s as [|x s]; [reflexivity|].
    destruct (iloc_last_error (x :: s)) as (y & E & _); [discriminate|].
    congruence.
  - intros ->. apply iloc_nil.
Qed.

Lemma flt_asym (x y : pyfloat) : flt x y = true -> flt y x = false.
Proof.
  destruct x as [a| | |], y as [b| | |]; simpl; try reflexivity;
    try discriminate.
  intros H. apply Qltb_lt in H.
  destruct (Qltb b a) eqn:E; [|reflexivity].
  apply Qltb_lt in E. exfalso.
  apply (Qlt_irrefl a). eapply Qlt_trans; eassumption.
Qed.

Lemma fgt_not_fle (x y : pyfloat) : (x >? y)%F = true -> (x <=? y)%F = false.
Proof.
  unfold fgt. destruct x as [a| | |], y as [b| | |]; simpl;
    try reflexivity; try discriminate.
  unfold Qltb. intros H. apply negb_true_iff in H. exact H.
Qed.

Lemma trend_of_score_predictable (score : Z) :
  trend_of_score score <> Unpredictable.
Proof.
  unfold trend_of_score.
  destruct (score >=? 3)%Z, (score >=? 1)%Z, (score >=? -1)%Z; discriminate.
Qed.

(** X7: [predict_trend] answers "cannot predict" exactly when one of the
    series it reads the last value of is empty.  Otherwise it answers
    "possible pullback" exactly when MA5 is not above MA10, RSI is above 70,
    MACD is below its signal and the latest volume is not above the mean
    volume; and it never answers "strong rise" when RSI is above 70 while
    MACD is below its signal. *)
Theorem predict_trend_labels (hist_data : list Bar)
    (ma5 ma10 ma20 rsi macd signal : list pyfloat) :
  (predict_trend hist_data ma5 ma10 ma20 rsi macd signal = Unpredictable <->
   hist_data = [] \/ ma5 = [] \/ ma10 = [] \/ ma20 = [] \/ rsi = [] \/
   macd = [] \/ signal = []) /\
  (forall latest a b c r m s,
     iloc hist_data (-1) = Ok latest ->
     iloc ma5 (-1) = Ok a -> iloc ma10 (-1) = Ok b -> iloc ma20 (-1) = Ok c ->
     iloc rsi (-1) = Ok r -> iloc macd (-1) = Ok m -> iloc signal (-1) = Ok s ->
     (predict_trend hist_data ma5 ma10 ma20 rsi macd signal = Pullback <->
      (a >? b)%F = false /\ (r >? Fin 70)%F = true /\ (m <? s)%F = true /\
      (Fin (bar_volume latest) >? column_mean (map bar_volume hist_data))%F
      = false) /\
     ((r >? Fin 70)%F = true -> (m <? s)%F = true ->
      predict_trend hist_data ma5 ma10 ma20 rsi macd signal <> StrongUp)).
Proof.
  split.
  - unfold predict_trend.
    rewrite <- !iloc_last_raises.
    destruct (iloc hist_data (-1)) as [latest|]; [|tauto].
    destruct (iloc ma5 (-1)) as [a|]; [|tauto].
    destruct (iloc ma10 (-1)) as [b|]; [|tauto].
    destruct (iloc ma20 (-1)) as [c|]; [|tauto].
    destruct (iloc rsi (-1)) as [r|]; [|tauto].
    destruct (iloc macd (-1)) as [m|]; [|tauto].
    destruct (iloc signal (-1)) as [s|]; [|tauto].
    cbn [rbind]. split.
    + intros H. exfalso. eapply trend_of_score_predictable. exact H.
    + intros [H|[H|[H|[H|[H|[H|H]]]]]]; discriminate.
  - intros latest a b c r m s H1 H2 H3 H4 H5 H6 H7.
    unfold predict_trend. rewrite H1, H2, H3, H4, H5, H6, H7. cbn [rbind].
    unfold trend_score, trend_of_score.
    pose proof (fgt_not_fle r (Fin 70)) as Hr.
    pose proof (flt_asym m s) as Hm. unfold fgt at 1 in Hr.
    change (m >? s)%F with (flt s m).
    destruct (a >? b)%F, (b >? c)%F, (Fin 30 <=? r)%F,
             (r <=? Fin 70)%F, (r >? Fin 70)%F eqn:E5,
             (flt s m), (flt m s) eqn:E7,
             (Fin (bar_volume latest) >?
              column_mean (map bar_volume hist_data))%F;
      try (specialize (Hr E5); discriminate Hr);
      try (specialize (Hm eq_refl); discriminate Hm);
      vm_compute; split; try (split; intros; intuition congruence);
      intros; congruence.
Qed.

(** ** The streak *)

Lemma leading_limit_ups_split (sessions : list Bar) :
  exists recent older,
    sessions = recent ++ older /\
    length recent = leading_limit_ups sessions /\
    forallb at_limit recent = true /\
    (older = [] \/ exists b rest, older = b :: rest /\ at_limit b = false).
Proof.
  induction sessions as [|b rest IH].
  - exists [], []. repeat split; try reflexivity. left. reflexivity.
  - cbn [leading_limit_ups]. fold (at_limit b).
    destruct (at_limit b) eqn:Eb.
    + destruct IH as (recent & older & -> & Hlen & Hall & Hold).
      exists (b :: recent), older.
      split; [reflexivity|]. split; [simpl; rewrite Hlen; reflexivity|].
      split; [simpl; rewrite Eb, Hall; reflexivity | exact Hold].
    + exists [], (b :: rest). repeat split; try reflexivity.
      right. exists b, rest. split; [reflexivity | exact Eb].
Qed.

Lemma leading_le_count (sessions : list Bar) :
  (leading_limit_ups sessions <= length (List.filter at_limit sessions))%nat.
Proof.
  induction sessions as [|b rest IH]; [reflexivity|].
  cbn [leading_limit_ups List.filter]. fold (at_limit b).
  destruct (at_limit b); simpl; lia.
Qed.

Lemma filter_rev_length {A} (f : A -> bool) (l : list A) :
  length (List.filter f (rev l)) = length (List.filter f l).
Proof.
  induction l as [|x l IH]; [reflexivity|].
  simpl. rewrite List.filter_app, length_app, IH. simpl.
  destruct (f x); simpl; lia.
Qed.

(** X8: the streak counted by the limit-up analysis is the length of the
    longest run of sessions at or above 9.5 that ends at the latest bar: the
    history splits into older sessions and such a run, and the session just
    before the run, when there is one, is below 9.5.  The streak never
    exceeds the number of limit-up sessions that the filter pipeline counts
    on the same history. *)
Theorem consecutive_limit_ups_spec (hist_data : list Bar) :
  (exists older recent,
     hist_data = older ++ recent /\
     length recent = consecutive_limit_ups hist_data /\
     forallb at_limit recent = true /\
     (older = [] \/
      exists rest b, older = rest ++ [b] /\ at_limit b = false)) /\
  (consecutive_limit_ups hist_data <= limit_up_count hist_data)%nat.
Proof.
  unfold consecutive_limit_ups. split.
  - destruct (leading_limit_ups_split (rev hist_data))
      as (recent & older & Hsplit & Hlen & Hall & Hold).
    exists (rev older), (rev recent).
    split; [|split; [|split]].
    + rewrite <- rev_app_distr, <- Hsplit, rev_involutive. reflexivity.
    + rewrite length_rev. exact Hlen.
    + apply forallb_rev_true. exact Hall.
    + destruct Hold as [-> | (b & rest & -> & Hb)]; [left; reflexivity|].
      right. exists (rev rest), b. split; [reflexivity | exact Hb].
  - unfold limit_up_count. change (fun b => Qle_bool 9.5 (bar_pct b)) with at_limit.
    rewrite <- (filter_rev_length at_limit hist_data).
    apply leading_le_count.
Qed.

(** ** The volume stage *)

Lemma tail_n_three (v : list Q) :
  (3 <= length v)%nat ->
  tail_n 3 v = [nth (length v - 3) v 0; nth (length v - 2) v 0;
                nth (length v - 1) v 0].
Proof.
  intros H. unfold tail_n.
  rewrite <- (firstn_all (skipn (length v - 3) v)).
  rewrite length_skipn.
  replace (length v - (length v - 3))%nat with 3%nat by lia.
  rewrite (firstn_skipn_nth v 3 (length v - 3)) by lia.
  simpl. repeat f_equal; lia.
Qed.

Lemma tail_n_short (v : list Q) :
  (length v < 3)%nat -> (length (tail_n 3 v) =? 3)%nat = false.
Proof.
  intros H. unfold tail_n. apply Nat.eqb_neq.
  rewrite length_skipn. lia.
Qed.

(** X9: with the volume box ticked and the minute histories fetched, the
    volume stage keeps a row exactly when its minute history has at least
    three bars and the volumes of the last three are strictly increasing;
    a row with an empty or shorter history is dropped. *)
Theorem volume_stage_keeps (c : Criteria) (ak : Provider)
    (df : list Snapshot) (minutes : string -> list Bar) :
  volume_increase_cb c = true ->
  (forall row, In row df ->
     stock_zh_a_hist_min_em ak (code row) = Ok (minutes (code row))) ->
  exists kept,
    volume_increase_filter c ak df = Ok kept /\
    forall row, In row df ->
      (In row kept <->
       let v := map bar_volume (minutes (code row)) in
       (3 <= length v)%nat /\
       nth (length v - 3) v 0 < nth (length v - 2) v 0 /\
       nth (length v - 2) v 0 < nth (length v - 1) v 0).
Proof.
  intros Hcb Hfetch.
  set (k := fun code : string =>
              let v := tail_n 3 (map bar_volume (minutes code)) in
              negb (empty (minutes code))
              && ((length v =? 3)%nat && strictly_increasing3 v)).
  assert (Hbody : forall row acc, In row df ->
            volume_increase_body ak row acc =
            Ok (if k (code row) then acc ++ [code row] else acc)).
  { intros row acc Hin. unfold volume_increase_body, k.
    rewrite (Hfetch row Hin). cbn [rbind]. cbv zeta.
    destruct (negb (empty (minutes (code row)))); cbn [andb]; [|reflexivity].
    destruct (_ && _); reflexivity. }
  exists (List.filter (fun r => k (code r)) df). split.
  - unfold volume_increase_filter. rewrite Hcb.
    rewrite (iterrows_select _ code (fun r => k (code r))) by exact Hbody.
    cbn [rbind app]. rewrite isin_select. reflexivity.
  - intros row Hin. rewrite filter_In. cbv zeta. unfold k.
    set (h := minutes (code row)).
    set (v := map bar_volume h).
    destruct (Nat.le_gt_cases 3 (length v)) as [H3 | H3].
    + assert (Hne : empty h = false).
      { destruct h; [simpl in H3; lia | reflexivity]. }
      rewrite Hne, (tail_n_three v H3). cbn [negb andb length Nat.eqb
                                              strictly_increasing3].
      rewrite andb_true_iff, !Qltb_lt. tauto.
    + rewrite (tail_n_short v H3), andb_false_r.
      split; [intros [_ H]; discriminate | intros [H _]; lia].
Qed.

(** ** What filter_stocks returns *)

Lemma In_checkbox_filters (c : Criteria) (df : list Snapshot) (r : Snapshot) :
  In r (checkbox_filters c df) <->
  In r df /\
  (remove_green_cb c = true -> (pct_change r >? Fin 0)%F = true) /\
  (remove_limit_up_cb c = true -> (pct_change r <? Fin 9.5)%F = true).
Proof.
  unfold checkbox_filters.
  destruct (remove_green_cb c), (remove_limit_up_cb c);
    rewrite ?filter_In; intuition congruence.
Qed.

Lemma isin_length (codes : list string) (df : list Snapshot) :
  (length (isin codes df) <= length df)%nat.
Proof. unfold isin. apply filter_length_le. Qed.

Lemma limit_up_filter_length (c : Criteria) (ak : Provider)
    (df out : list Snapshot) :
  limit_up_filter c ak df = Ok out -> (length out <= length df)%nat.
Proof.
  unfold limit_up_filter. destruct (limit_up_active c).
  - destruct (iterrows _ _ _); [|discriminate].
    cbn [rbind]. intros [= <-]. apply isin_length.
  - intros [= <-]. lia.
Qed.

(** X10: every row [filter_stocks] returns is a row of the snapshot that
    meets the five range criteria (the volume-ratio maximum only when it is
    positive) and the ticked remove-green and remove-limit-up boxes; and
    with a positive hot-stocks number the result has at most that many
    rows. *)
Theorem filter_stocks_sound (c : Criteria) (ak : Provider)
    (out : list Snapshot) :
  filter_stocks c ak = Some out ->
  exists df,
    stock_zh_a_spot_em ak = Ok df /\
    (forall r, In r out ->
       In r df /\
       in_range (turnover r) (turnover_min c) (turnover_max c) = true /\
       in_range (pct_change r) (price_change_min c) (price_change_max c)
       = true /\
       (volume_ratio r >=? Fin (volume_ratio_min c))%F = true /\
       (0 < volume_ratio_max c ->
        (volume_ratio r <=? Fin (volume_ratio_max c))%F = true) /\
       in_range (latest_price r) (price_min c) (price_max c) = true /\
       in_range (total_cap r) (market_cap_min c * 100000000)
                (market_cap_max c * 100000000) = true /\
       (remove_green_cb c = true -> (pct_change r >? Fin 0)%F = true) /\
       (remove_limit_up_cb c = true -> (pct_change r <? Fin 9.5)%F = true)) /\
    ((0 < hot_stocks_n c)%Z -> (Z.of_nat (length out) <= hot_stocks_n c)%Z).
Proof.
  unfold filter_stocks, filter_stocks_body, before_limit_up, before_technical.
  destruct (stock_zh_a_spot_em ak) as [df|]; [|discriminate].
  cbn [rbind].
  destruct (volume_increase_filter _ _ _) as [df1|] eqn:E1; [|discriminate].
  cbn [rbind].
  destruct (technical_filter _ _ _) as [df2|] eqn:E2; [|discriminate].
  cbn [rbind].
  destruct (limit_up_filter _ _ _) as [df3|] eqn:E3; [|discriminate].
  intros [= <-]. exists df. split; [reflexivity|]. split.
  - intros r Hr.
    assert (Hcb : In r (checkbox_filters c (range_filters c df))).
    { eapply volume_increase_filter_incl; [exact E1|].
      eapply technical_filter_incl; [exact E2|].
      apply hot_filter_incl with c. apply leaders_filter_incl with c.
      eapply limit_up_filter_incl; [exact E3 | exact Hr]. }
    apply In_checkbox_filters in Hcb. destruct Hcb as (Hrange & Hg & Hl).
    apply In_range_filters in Hrange.
    destruct Hrange as (Hin & Ht & Hp & Hv1 & Hv2 & Hpr & Hc).
    repeat split; try assumption.
    intros Hpos. apply Hv2. apply Qltb_lt. exact Hpos.
  - intros Hpos.
    apply limit_up_filter_length in E3.
    assert (Hl : (length (leaders_filter c (hot_filter c df2))
                  <= length (hot_filter c df2))%nat).
    { unfold leaders_filter. destruct (top_n_spin c >? 0)%Z;
        [apply isin_length | lia]. }
    assert (Hh : (length (hot_filter c df2) <= Z.to_nat (hot_stocks_n c))%nat).
    { unfold hot_filter, nlargest.
      replace (hot_stocks_n c >? 0)%Z with true
        by (symmetry; apply Z.gtb_lt; lia).
      apply firstn_le_length. }
    lia.
Qed.

(** ** Stable sorting *)

Section SortBy.
Context {A : Type} (before : A -> A -> bool).
Hypothesis before_total : forall x y, before x y = false -> before y x = true.
Hypothesis before_trans :
  forall x y z, before x y = true -> before y z = true -> before x z = true.

Lemma insert_by_perm (x : A) (l : list A) :
  Permutation (insert_by before x l) (x :: l).
Proof.
  induction l as [|y t IH]; simpl; [reflexivity|].
  destruct (before x y); [reflexivity|].
  rewrite IH. apply perm_swap.
Qed.

Lemma sort_by_perm (l : list A) : Permutation (sort_by before l) l.
Proof.
  induction l as [|x l IH]; simpl; [reflexivity|].
  rewrite insert_by_perm. apply perm_skip. exact IH.
Qed.

Lemma insert_by_sorted (x : A) (l : list A) :
  StronglySorted (goes_first before) l ->
  StronglySorted (goes_first before) (insert_by before x l).
Proof.
  induction l as [|y t IH]; intros Hs; simpl.
  - constructor; constructor.
  - apply StronglySorted_inv in Hs. destruct Hs as [Ht Hy].
    destruct (before x y) eqn:E.
    + constructor; [constructor; assumption|].
      constructor; [exact E|].
      rewrite List.Forall_forall in *. intros z Hz.
      eapply before_trans; [exact E | apply Hy; exact Hz].
    + constructor; [apply IH; exact Ht|].
      apply (Permutation_Forall (Permutation_sym (insert_by_perm x t))).
      constructor; [apply before_total; exact E | exact Hy].
Qed.

Lemma sort_by_sorted (l : list A) :
  StronglySorted (goes_first before) (sort_by before l).
Proof.
  induction l as [|x l IH]; simpl; [constructor|].
  apply insert_by_sorted. exact IH.
Qed.
End SortBy.

Lemma sorted_app_order {A} (R : A -> A -> Prop) (l1 l2 : list A) :
  StronglySorted R (l1 ++ l2) ->
  forall x y, In x l1 -> In y l2 -> R x y.
Proof.
  induction l1 as [|a l1 IH]; intros Hs x y Hx Hy; [contradiction|].
  simpl in Hs. apply StronglySorted_inv in Hs. destruct Hs as [Hs Ha].
  destruct Hx as [<- | Hx].
  - rewrite List.Forall_forall in Ha. apply Ha. apply in_or_app. right. exact Hy.
  - apply IH; assumption.
Qed.

Lemma In_firstn {A} (n : nat) (l : list A) (x : A) :
  In x (firstn n l) -> In x l.
Proof.
  revert l. induction n as [|n IH]; intros [|a l]; simpl; try tauto.
  intros [<- | H]; [left; reflexivity | right; apply IH; exact H].
Qed.

Lemma sorted_firstn {A} (R : A -> A -> Prop) (n : nat) (l : list A) :
  StronglySorted R l -> StronglySorted R (firstn n l).
Proof.
  revert l. induction n as [|n IH]; intros [|a l] Hs; simpl; try constructor.
  - apply IH. apply StronglySorted_inv in Hs. tauto.
  - apply StronglySorted_inv in Hs. destruct Hs as [_ Ha].
    rewrite List.Forall_forall in *. intros x Hx. apply Ha.
    eapply In_firstn. exact Hx.
Qed.

(** ** The order of floats *)

Lemma fle_total (x y : pyfloat) :
  is_nan x = false -> is_nan y = false ->
  fle x y = false -> fle y x = true.
Proof.
  destruct x as [a| | |], y as [b| | |]; simpl; try discriminate;
    try reflexivity.
  intros _ _ H. apply Qle_bool_iff.
  destruct (Qlt_le_dec b a) as [Hlt | Hle].
  - apply Qlt_le_weak. exact Hlt.
  - apply Qle_bool_iff in Hle. congruence.
Qed.

Lemma fle_trans (x y z : pyfloat) :
  fle x y = true -> fle y z = true -> fle x z = true.
Proof.
  destruct x as [a| | |], y as [b| | |], z as [c| | |]; simpl;
    try discriminate; try reflexivity.
  rewrite !Qle_bool_iff. apply Qle_trans.
Qed.

Lemma fle_not_nan (x y : pyfloat) :
  fle x y = true -> is_nan x = false /\ is_nan y = false.
Proof.
  destruct x, y; simpl; try discriminate; split; reflexivity.
Qed.

(** ** The hot stocks *)

Lemma insert_desc_insert_by (key : Snapshot -> pyfloat) (x : Snapshot)
    (l : list Snapshot) :
  insert_desc key x l = insert_by (goes_before key) x l.
Proof.
  induction l as [|y t IH]; simpl; [reflexivity|].
  rewrite IH. reflexivity.
Qed.

Lemma sort_desc_sort_by (key : Snapshot -> pyfloat) (df : list Snapshot) :
  sort_desc key df = sort_by (goes_before key) df.
Proof.
  unfold sort_desc, sort_by.
  induction df as [|x df IH]; simpl; [reflexivity|].
  rewrite IH. apply insert_desc_insert_by.
Qed.

Lemma goes_before_total (key : Snapshot -> pyfloat) (x y : Snapshot) :
  goes_before key x y = false -> goes_before key y x = true.
Proof.
  unfold goes_before, fge. intros H.
  apply orb_false_iff in H. destruct H as [Hy H].
  rewrite Hy. cbn [negb andb].
  destruct (is_nan (key x)) eqn:Hx; [reflexivity|].
  cbn [negb andb orb] in *.
  apply fle_total; assumption.
Qed.

Lemma goes_before_trans (key : Snapshot -> pyfloat) (x y z : Snapshot) :
  goes_before key x y = true -> goes_before key y z = true ->
  goes_before key x z = true.
Proof.
  unfold goes_before, fge. intros Hxy Hyz.
  destruct (is_nan (key z)) eqn:Hz; [reflexivity|].
  cbn [orb] in *.
  apply andb_true_iff in Hyz. destruct Hyz as [Hy Hyz].
  apply negb_true_iff in Hy. rewrite Hy in Hxy. cbn [orb] in Hxy.
  apply andb_true_iff in Hxy. destruct Hxy as [Hx Hxy].
  rewrite Hx. cbn [andb].
  eapply fle_trans; eassumption.
Qed.

(** X11: the hot-stocks stage keeps the rows with the largest traded
    amounts: [nlargest n] returns min(n, rows) rows taken from the frame,
    in descending order of the column, and every row it keeps goes before
    every row it leaves out, that is, the row left out has an undefined
    amount or one that is not larger. *)
Theorem nlargest_keeps_largest (n : Z) (key : Snapshot -> pyfloat)
    (df : list Snapshot) :
  exists dropped,
    Permutation df (nlargest n key df ++ dropped) /\
    length (nlargest n key df) = Nat.min (Z.to_nat n) (length df) /\
    StronglySorted (goes_first (goes_before key)) (nlargest n key df) /\
    forall x y, In x (nlargest n key df) -> In y dropped ->
      is_nan (key y) = true \/
      (is_nan (key x) = false /\ (key x >=? key y)%F = true).
Proof.
  exists (skipn (Z.to_nat n) (sort_desc key df)).
  unfold nlargest. rewrite sort_desc_sort_by.
  pose proof (sort_by_sorted (goes_before key) (goes_before_total key)
                (goes_before_trans key) df) as Hs.
  split; [|split; [|split]].
  - rewrite firstn_skipn. symmetry. apply sort_by_perm.
  - rewrite length_firstn.
    rewrite (Permutation_length (sort_by_perm (goes_before key) df)).
    reflexivity.
  - apply sorted_firstn. exact Hs.
  - intros x y Hx Hy.
    rewrite <- (firstn_skipn (Z.to_nat n)) in Hs.
    pose proof (sorted_app_order _ _ _ Hs x y Hx Hy) as H.
    unfold goes_first, goes_before in H.
    apply orb_true_iff in H. destruct H as [H | H]; [left; exact H|].
    right. apply andb_true_iff in H. destruct H as [H1 H2].
    apply negb_true_iff in H1. split; assumption.
Qed.

(** ** The technical sub-checks on short and flat histories *)

Lemma fgt_NaN_r (x : pyfloat) : (x >? NaN)%F = false.
Proof. unfold fgt. destruct x; reflexivity. Qed.

Lemma fgt_NaN_l (y : pyfloat) : (NaN >? y)%F = false.
Proof. unfold fgt. destruct y; reflexivity. Qed.

Lemma rolling_last_undefined (n : nat) (xs : list Q) :
  xs <> [] -> (length xs < n)%nat ->
  iloc (rolling_mean n xs) (-1) = Ok NaN.
Proof.
  intros Hs Hlen.
  rewrite (iloc_last _ NaN)
    by (apply nonempty_length; rewrite length_rolling_mean;
        destruct xs; [congruence | simpl; lia]).
  rewrite length_rolling_mean.
  assert (0 < length xs)%nat by (destruct xs; [congruence | simpl; lia]).
  rewrite nth_rolling_mean by lia.
  replace (S (length xs - 1) <? n)%nat with true
    by (symmetry; apply Nat.ltb_lt; lia).
  reflexivity.
Qed.

Lemma ma_alignment_short (hist_data : list Bar) :
  hist_data <> [] -> (length hist_data < 20)%nat ->
  ma_alignment hist_data = Ok false.
Proof.
  intros Hne Hlen. unfold ma_alignment.
  destruct (ma_alignment_total hist_data Hne) as (b & Hb).
  unfold ma_alignment in Hb.
  destruct (iloc (rolling_mean 5 (closes hist_data)) (-1)) as [a|];
    [|discriminate].
  destruct (iloc (rolling_mean 10 (closes hist_data)) (-1)) as [m|];
    [|discriminate].
  rewrite rolling_last_undefined
    by (try apply closes_nonempty; try exact Hne;
        unfold closes; rewrite length_map; exact Hlen).
  cbn [rbind]. rewrite fgt_NaN_r, andb_false_r. reflexivity.
Qed.

(** A series of undefined values stays undefined under exponential
    weighting. *)
Lemma ewm_run_undefined (alpha : Q) (adjust : bool) (w : Q) (n : nat) :
  ewm_run alpha adjust (mkEwm NaN w 0) (repeat NaN n) = repeat NaN n.
Proof.
  induction n as [|n IH]; [reflexivity|].
  cbn [repeat ewm_run]. unfold ewm_step. cbn [weighted is_nan negb nobs old_wt].
  cbn [Nat.add]. rewrite IH. reflexivity.
Qed.

Lemma ewm_mean_undefined (alpha : Q) (adjust : bool) (n : nat) :
  ewm_mean alpha adjust (repeat NaN n) = repeat NaN n.
Proof.
  destruct n as [|n]; [reflexivity|].
  cbn [repeat ewm_mean is_nan]. rewrite ewm_run_undefined. reflexivity.
Qed.

Lemma rolling_min_short (n : nat) (s : list Q) :
  (length s < n)%nat -> rolling_min n s = repeat NaN (length s).
Proof.
  intros H. unfold rolling_min.
  apply nth_ext with (d := NaN) (d' := NaN).
  - rewrite length_map, length_seq, repeat_length. reflexivity.
  - rewrite length_map, length_seq. intros i Hi.
    rewrite nth_map_seq by exact Hi. rewrite nth_repeat.
    replace (S i <? n)%nat with true by (symmetry; apply Nat.ltb_lt; lia).
    reflexivity.
Qed.

Lemma rolling_max_short (n : nat) (s : list Q) :
  (length s < n)%nat -> rolling_max n s = repeat NaN (length s).
Proof.
  intros H. unfold rolling_max.
  apply nth_ext with (d := NaN) (d' := NaN).
  - rewrite length_map, length_seq, repeat_length. reflexivity.
  - rewrite length_map, length_seq. intros i Hi.
    rewrite nth_map_seq by exact Hi. rewrite nth_repeat.
    replace (S i <? n)%nat with true by (symmetry; apply Nat.ltb_lt; lia).
    reflexivity.
Qed.

Lemma map2_undefined_r {A} (f : pyfloat -> pyfloat -> pyfloat) (a : list A)
    (g : A -> pyfloat) :
  (forall x, f x NaN = NaN) ->
  map2 f (map g a) (repeat NaN (length a)) = repeat NaN (length a).
Proof.
  intros Hf. unfold map2. induction a as [|x a IH]; [reflexivity|].
  simpl. rewrite Hf. f_equal. exact IH.
Qed.

Lemma map2_undefined (f : pyfloat -> pyfloat -> pyfloat) (n : nat) :
  f NaN NaN = NaN ->
  map2 f (repeat NaN n) (repeat NaN n) = repeat NaN n.
Proof.
  intros Hf. unfold map2. induction n as [|n IH]; [reflexivity|].
  simpl. rewrite Hf. f_equal. exact IH.
Qed.

Lemma kdj_golden_short (hist_data : list Bar) :
  hist_data <> [] -> (length hist_data < 9)%nat ->
  kdj_golden hist_data = Ok false.
Proof.
  intros Hne Hlen. unfold kdj_golden.
  rewrite rolling_min_short, rolling_max_short
    by (rewrite length_map; exact Hlen).
  rewrite !length_map.
  unfold closes. rewrite map_map.
  rewrite (map2_undefined_r fsub hist_data (fun b => Fin (bar_close b)))
    by (intros x; apply fsub_NaN_r).
  rewrite (map2_undefined fsub) by reflexivity.
  rewrite (map2_undefined (fun x y => (x / y * Fin 100)%F)) by reflexivity.
  rewrite !ewm_mean_undefined.
  unfold golden_cross.
  rewrite (iloc_last _ NaN)
    by (apply nonempty_length; rewrite repeat_length;
        destruct hist_data; [congruence | simpl; lia]).
  rewrite repeat_length, nth_repeat. cbn [rbind].
  rewrite fgt_NaN_l. reflexivity.
Qed.

Lemma ewm_run_flat (alpha : Q) (adjust : bool) (c : Q) (vals : list pyfloat) :
  Forall (fun v => exists q, v = Fin q /\ c == q) vals ->
  forall w k,
    ewm_run alpha adjust (mkEwm (Fin c) w (S k)) vals =
    repeat (Fin c) (length vals).
Proof.
  induction 1 as [|v vals (q & -> & Hq) _ IH]; intros w k; [reflexivity|].
  cbn [ewm_run length repeat]. unfold ewm_step.
  cbn [weighted is_nan negb nobs old_wt feq].
  assert (E : Qeq_bool c q = true) by (apply Qeq_bool_iff; exact Hq).
  rewrite E. cbn [negb].
  replace (S k + 1)%nat with (S (S k)) by lia.
  rewrite IH. reflexivity.
Qed.

Lemma ewm_mean_flat (alpha : Q) (adjust : bool) (c : Q) (vals : list pyfloat) :
  Forall (fun v => exists q, v = Fin q /\ c == q) vals ->
  ewm_mean alpha adjust (Fin c :: vals) = repeat (Fin c) (S (length vals)).
Proof.
  intros H. cbn [ewm_mean is_nan repeat].
  rewrite (ewm_run_flat alpha adjust c vals H). reflexivity.
Qed.

Lemma ewm_mean_repeat (alpha : Q) (adjust : bool) (c : Q) (n : nat) :
  ewm_mean alpha adjust (repeat (Fin c) n) = repeat (Fin c) n.
Proof.
  destruct n as [|n]; [reflexivity|].
  cbn [repeat]. rewrite ewm_mean_flat.
  - rewrite repeat_length. reflexivity.
  - apply List.Forall_forall. intros v Hv. apply repeat_spec in Hv.
    exists c. split; [exact Hv | reflexivity].
Qed.

Lemma map2_repeat (f : pyfloat -> pyfloat -> pyfloat) (x y : pyfloat)
    (n : nat) :
  map2 f (repeat x n) (repeat y n) = repeat (f x y) n.
Proof.
  unfold map2. induction n as [|n IH]; [reflexivity|].
  simpl. f_equal. exact IH.
Qed.

Lemma golden_cross_same (x : list pyfloat) :
  x <> [] -> golden_cross x x = Ok false.
Proof.
  intros Hx. unfold golden_cross.
  destruct (iloc_last_error x Hx) as (v & -> & _).
  cbn [rbind]. unfold and_then, fgt. cbn [rbind].
  rewrite flt_irrefl. reflexivity.
Qed.

Lemma macd_golden_flat (c : Q) (hist_data : list Bar) :
  hist_data <> [] -> flat_closes c hist_data ->
  macd_golden hist_data = Ok false.
Proof.
  intros Hne Hflat. unfold macd_golden, macd_line.
  destruct hist_data as [|b0 h]; [congruence|].
  unfold closes. cbn [map].
  assert (Hvals : Forall (fun v => exists q, v = Fin q /\ bar_close b0 == q)
                         (map Fin (map bar_close h))).
  { apply List.Forall_forall. intros v Hv.
    apply in_map_iff in Hv. destruct Hv as (q & <- & Hq).
    apply in_map_iff in Hq. destruct Hq as (b & <- & Hb).
    exists (bar_close b). split; [reflexivity|].
    unfold flat_closes in Hflat. rewrite List.Forall_forall in Hflat.
    rewrite (Hflat b0) by (left; reflexivity).
    rewrite (Hflat b) by (right; exact Hb). reflexivity. }
  rewrite !(ewm_mean_flat _ _ _ _ Hvals).
  rewrite map2_repeat. unfold fsub. cbn [fneg fadd].
  rewrite ewm_mean_repeat.
  apply golden_cross_same. discriminate.
Qed.

(** The mean of equal values. *)
Lemma Qsum_flat (c : Q) (l : list Q) :
  Forall (fun q => q == c) l ->
  Qsum l == inject_Z (Z.of_nat (length l)) * c.
Proof.
  induction 1 as [|q l Hq _ IH].
  - simpl. ring.
  - cbn [Qsum fold_right length]. change (fold_right Qplus 0 l) with (Qsum l).
    rewrite IH, Hq, Nat2Z.inj_succ. unfold Z.succ. rewrite inject_Z_plus. ring.
Qed.

Lemma Qmean_flat (c : Q) (l : list Q) :
  l <> [] -> Forall (fun q => q == c) l -> Qmean l == c.
Proof.
  intros Hne H. unfold Qmean. rewrite (Qsum_flat c l H).
  rewrite Qmult_comm. apply Qdiv_mult_l.
  destruct l as [|x l]; [congruence|].
  cbn [length]. intros E.
  assert (inject_Z 0 < inject_Z (Z.of_nat (S (length l))))
    by (rewrite <- Zlt_Qlt; lia).
  rewrite E in H0. exact (Qlt_irrefl _ H0).
Qed.

Lemma In_skipn {A} (n : nat) (l : list A) (x : A) :
  In x (skipn n l) -> In x l.
Proof.
  revert l. induction n as [|n IH]; intros [|a l]; simpl; try tauto.
  intros H. right. apply IH. exact H.
Qed.

Lemma ma_last_flat (c : Q) (n : nat) (xs : list Q) :
  (0 < n <= length xs)%nat -> Forall (fun q => q == c) xs ->
  exists m, iloc (rolling_mean n xs) (-1) = Ok (Fin m) /\ m == c.
Proof.
  intros Hn Hflat. rewrite ma_last by exact Hn.
  eexists. split; [reflexivity|].
  apply Qmean_flat.
  - apply nonempty_length. rewrite length_window; lia.
  - rewrite List.Forall_forall in *. intros q Hq. apply Hflat.
    unfold window in Hq. eapply In_skipn, In_firstn. exact Hq.
Qed.

Lemma ma_alignment_flat (c : Q) (hist_data : list Bar) :
  hist_data <> [] -> flat_closes c hist_data ->
  ma_alignment hist_data = Ok false.
Proof.
  intros Hne Hflat.
  destruct (Nat.lt_ge_cases (length hist_data) 20) as [Hshort | Hlong];
    [apply ma_alignment_short; assumption|].
  assert (Hxs : Forall (fun q => q == c) (closes hist_data)).
  { unfold closes. apply List.Forall_forall. intros q Hq.
    apply in_map_iff in Hq. destruct Hq as (b & <- & Hb).
    unfold flat_closes in Hflat. rewrite List.Forall_forall in Hflat.
    apply Hflat. exact Hb. }
  assert (Hlen : length (closes hist_data) = length hist_data)
    by (unfold closes; apply length_map).
  unfold ma_alignment.
  destruct (ma_last_flat c 5 (closes hist_data) ltac:(lia) Hxs) as (m5 & -> & E5).
  destruct (ma_last_flat c 10 (closes hist_data) ltac:(lia) Hxs) as (m10 & -> & E10).
  destruct (ma_last_flat c 20 (closes hist_data) ltac:(lia) Hxs) as (m20 & -> & E20).
  cbn [rbind]. f_equal. apply andb_false_iff. left.
  destruct (Fin m5 >? Fin m10)%F eqn:E; [|reflexivity].
  apply fgt_Fin in E. rewrite E5, E10 in E.
  exfalso. exact (Qlt_irrefl _ E).
Qed.

(** X12: a history too short or too quiet fails the technical sub-checks
    instead of raising: fewer than 20 bars fail the MA alignment, fewer than
    9 bars fail the KDJ golden cross, and a history whose closes are all
    equal fails both the MA alignment and the MACD golden cross. *)
Theorem quiet_history_fails_checks (hist_data : list Bar) :
  hist_data <> [] ->
  ((length hist_data < 20)%nat -> ma_alignment hist_data = Ok false) /\
  ((length hist_data < 9)%nat -> kdj_golden hist_data = Ok false) /\
  (forall c, flat_closes c hist_data ->
     ma_alignment hist_data = Ok false /\ macd_golden hist_data = Ok false).
Proof.
  intros Hne. split; [|split].
  - apply ma_alignment_short. exact Hne.
  - apply kdj_golden_short. exact Hne.
  - intros c Hflat. split.
    + apply ma_alignment_flat with c; assumption.
    + apply macd_golden_flat with c; assumption.
Qed.

(** ** get_price_position *)

Lemma fold_min_le (t : list Q) (x : Q) :
  fold_left Qmin' t x <= x /\ forall y, In y t -> fold_left Qmin' t x <= y.
Proof.
  revert x. induction t as [|a t IH]; intros x; simpl.
  - split; [apply Qle_refl | intros y []].
  - destruct (IH (Qmin' x a)) as [H1 H2].
    assert (Hx : Qmin' x a <= x /\ Qmin' x a <= a).
    { unfold Qmin'. destruct (Qle_bool x a) eqn:E.
      - apply Qle_bool_iff in E. split; [apply Qle_refl | exact E].
      - split; [|apply Qle_refl].
        destruct (Qlt_le_dec a x) as [Hlt | Hle];
          [apply Qlt_le_weak; exact Hlt|].
        apply Qle_bool_iff in Hle. congruence. }
    destruct Hx as [Hx Ha]. split.
    + eapply Qle_trans; eassumption.
    + intros y [<- | Hy]; [eapply Qle_trans; eassumption | apply H2; exact Hy].
Qed.

Lemma fold_max_ge (t : list Q) (x : Q) :
  x <= fold_left Qmax' t x /\ forall y, In y t -> y <= fold_left Qmax' t x.
Proof.
  revert x. induction t as [|a t IH]; intros x; simpl.
  - split; [apply Qle_refl | intros y []].
  - destruct (IH (Qmax' x a)) as [H1 H2].
    assert (Hx : x <= Qmax' x a /\ a <= Qmax' x a).
    { unfold Qmax'. destruct (Qle_bool x a) eqn:E.
      - apply Qle_bool_iff in E. split; [exact E | apply Qle_refl].
      - split; [apply Qle_refl|].
        destruct (Qlt_le_dec a x) as [Hlt | Hle];
          [apply Qlt_le_weak; exact Hlt|].
        apply Qle_bool_iff in Hle. congruence. }
    destruct Hx as [Hx Ha]. split.
    + eapply Qle_trans; eassumption.
    + intros y [<- | Hy]; [eapply Qle_trans; eassumption | apply H2; exact Hy].
Qed.

Lemma series_min_le_max (s : list Q) (lo hi : Q) :
  series_min s = Fin lo -> series_max s = Fin hi -> lo <= hi.
Proof.
  destruct s as [|x t]; [discriminate|].
  simpl. intros [= <-] [= <-].
  apply Qle_trans with x;
    [apply (proj1 (fold_min_le t x)) | apply (proj1 (fold_max_ge t x))].
Qed.

(** X13: [get_price_position] answers unknown when the 120-day fetch
    raises or is empty and when all closes are equal.  Otherwise a price at
    or below the lowest close of the window is low, a price at or above the
    highest close is high, and an undefined price is mid. *)
Theorem get_price_position_edges (ak : Provider) (stock_code : string) :
  (stock_zh_a_hist ak stock_code 120 = Raise \/
   stock_zh_a_hist ak stock_code 120 = Ok [] ->
   forall price, get_price_position ak stock_code price = Unknown) /\
  (forall hist_data lo hi,
     stock_zh_a_hist ak stock_code 120 = Ok hist_data ->
     series_min (closes hist_data) = Fin lo ->
     series_max (closes hist_data) = Fin hi ->
     (lo == hi ->
      forall price, get_price_position ak stock_code price = Unknown) /\
     (~ lo == hi ->
      get_price_position ak stock_code NaN = Mid /\
      forall p,
        (p <= lo -> get_price_position ak stock_code (Fin p) = Low) /\
        (hi <= p -> get_price_position ak stock_code (Fin p) = High))).
Proof.
  split.
  - intros [H | H] price; unfold get_price_position; rewrite H; reflexivity.
  - intros hist_data lo hi Hfetch Hlo Hhi.
    assert (Hne : empty hist_data = false).
    { destruct hist_data; [discriminate Hlo | reflexivity]. }
    pose proof (series_min_le_max _ _ _ Hlo Hhi) as Hle.
    unfold get_price_position. rewrite Hfetch. cbn [rbind].
    rewrite Hne, Hlo, Hhi. cbv zeta.
    change (Fin hi - Fin lo)%F with (Fin (hi + - lo)). cbn [feq].
    split.
    + intros Heq price.
      replace (Qeq_bool (hi + - lo) 0) with true; [reflexivity|].
      symmetry. apply Qeq_bool_iff. rewrite Heq. ring.
    + intros Hneq.
      assert (Hrange : 0 < hi + - lo).
      { apply (proj1 (Qlt_minus_iff lo hi)). apply Qle_lteq in Hle.
        destruct Hle as [Hlt | Heq]; [exact Hlt | contradiction]. }
      assert (E0 : Qeq_bool (hi + - lo) 0 = false).
      { destruct (Qeq_bool (hi + - lo) 0) eqn:E; [|reflexivity].
        apply Qeq_bool_iff in E. rewrite E in Hrange.
        exfalso. exact (Qlt_irrefl _ Hrange). }
      rewrite E0. split; [reflexivity|].
      intros p. change (Fin p - Fin lo)%F with (Fin (p + - lo)).
      unfold fdiv, fmul, fgt. rewrite E0.
      change (flt (Fin ?a) (Fin ?b)) with (Qltb a b). split.
      * intros Hp.
        assert (H : (p + - lo) / (hi + - lo) * 100 < 30).
        { apply Qle_lt_trans with (0 * 100); [|reflexivity].
          apply Qmult_le_compat_r; [|discriminate].
          apply Qle_shift_div_r; [exact Hrange|].
          rewrite Qmult_0_l, <- (Qplus_opp_r lo).
          apply Qplus_le_l. exact Hp. }
        apply Qltb_lt in H. rewrite H. reflexivity.
      * intros Hp.
        assert (H : 100 <= (p + - lo) / (hi + - lo) * 100).
        { apply Qle_trans with (1 * 100); [discriminate|].
          apply Qmult_le_compat_r; [|discriminate].
          apply Qle_shift_div_l; [exact Hrange|].
          rewrite Qmult_1_l. apply Qplus_le_l. exact Hp. }
        assert (H30 : Qltb ((p + - lo) / (hi + - lo) * 100) 30 = false).
        { destruct (Qltb _ 30) eqn:E; [|reflexivity].
          apply Qltb_lt in E. exfalso.
          apply (Qlt_irrefl 100). eapply Qle_lt_trans; [exact H|].
          eapply Qlt_trans; [exact E | reflexivity]. }
        assert (H70 : Qltb 70 ((p + - lo) / (hi + - lo) * 100) = true).
        { apply Qltb_lt. eapply Qlt_le_trans; [|exact H]. reflexivity. }
        rewrite H30, H70. reflexivity.
Qed.

(** ** analyze_limit_up_stocks *)

Lemma flat_map_short {A B} (f : A -> list B) (l : list A) :
  (forall x, (length (f x) <= 1)%nat) ->
  (length (flat_map f l) <= length l)%nat.
Proof.
  intros H. induction l as [|x l IH]; [reflexivity|].
  simpl. rewrite length_app. specialize (H x). lia.
Qed.

(** X14: [analyze_limit_up_stocks] returns the empty list when the snapshot
    or one of the frames fetched before the loop cannot be fetched.
    Otherwise it returns at most one analysis per main-board limit-up row,
    and every analysis it returns is the analysis of such a row (change at
    or above 9.5, code outside the excluded prefixes) on its non-empty
    30-day history. *)
Theorem analyze_limit_up_stocks_provenance (Context Analysis : Type)
    (prefetch : res Context)
    (analyse : Context -> Snapshot -> list Bar -> res Analysis)
    (ak : Provider) :
  (stock_zh_a_spot_em ak = Raise \/ prefetch = Raise ->
   analyze_limit_up_stocks Context Analysis prefetch analyse ak = []) /\
  (forall df ctx,
     stock_zh_a_spot_em ak = Ok df -> prefetch = Ok ctx ->
     (length (analyze_limit_up_stocks Context Analysis prefetch analyse ak)
      <= length (limit_up_rows df))%nat /\
     forall a,
       In a (analyze_limit_up_stocks Context Analysis prefetch analyse ak) ->
       exists stock hist_data,
         In stock df /\
         (pct_change stock >=? Fin 9.5)%F = true /\
         main_board (code stock) = true /\
         stock_zh_a_hist ak (code stock) 30 = Ok hist_data /\
         hist_data <> [] /\
         analyse ctx stock hist_data = Ok a).
Proof.
  split.
  - intros [H | H]; unfold analyze_limit_up_stocks; rewrite H;
      [reflexivity|].
    destruct (stock_zh_a_spot_em ak); reflexivity.
  - intros df ctx Hspot Hpre.
    unfold analyze_limit_up_stocks. rewrite Hspot, Hpre. cbn [rbind].
    rewrite (limit_up_loop_flat analyse ak ctx (limit_up_rows df) []).
    cbn [app]. split.
    + apply flat_map_short. intros stock.
      destruct (limit_up_try _ _ _ _ _ _) as [[a|]|]; simpl; lia.
    + intros a Ha. apply in_flat_map in Ha.
      destruct Ha as (stock & Hstock & Ha).
      unfold limit_up_rows in Hstock. apply filter_In in Hstock.
      destruct Hstock as [Hin Hcond]. apply andb_true_iff in Hcond.
      destruct Hcond as [Hpct Hboard].
      unfold limit_up_try in Ha.
      destruct (stock_zh_a_hist ak (code stock) 30) as [hist_data|] eqn:Eh;
        [|contradiction].
      cbn [rbind] in Ha.
      destruct hist_data as [|b h]; [contradiction|].
      cbn [empty] in Ha.
      destruct (analyse ctx stock (b :: h)) as [a'|] eqn:Ea; [|contradiction].
      cbn [rbind] in Ha. destruct Ha as [<- | []].
      exists stock, (b :: h). repeat split; try assumption. discriminate.
Qed.

(** ** float on decimal texts *)

Lemma transform_ascii (s : pystr) :
  forallb (fun c => c <? 128)%N s = true -> transform s = Ok s.
Proof.
  induction s as [|c s IH]; [reflexivity|].
  simpl. intros H. apply andb_true_iff in H. destruct H as [Hc Hs].
  unfold to_ascii. rewrite Hc. cbn [rbind]. rewrite IH by exact Hs.
  reflexivity.
Qed.

Lemma underscores_ok_none (s : pystr) (prev : N) :
  (prev =? 95)%N = false ->
  forallb (fun c => negb (c =? 95)%N) s = true ->
  underscores_ok prev s = true.
Proof.
  revert prev. induction s as [|c s IH]; intros prev Hp Hs.
  - simpl. rewrite Hp. reflexivity.
  - simpl in *. apply andb_true_iff in Hs. destruct Hs as [Hc Hs].
    apply negb_true_iff in Hc. rewrite Hc, Hp. cbn [andb negb].
    apply IH; assumption.
Qed.

Lemma remove_char_none (c : N) (s : pystr) :
  forallb (fun x => negb (x =? c)%N) s = true -> remove_char c s = s.
Proof.
  induction s as [|x s IH]; [reflexivity|].
  simpl. intros H. apply andb_true_iff in H. destruct H as [Hx Hs].
  rewrite Hx. rewrite IH by exact Hs. reflexivity.
Qed.

Lemma lstrip_clean (space : N -> bool) (s : pystr) :
  forallb (fun c => negb (space c)) s = true -> lstrip space s = s.
Proof.
  destruct s as [|c s]; [reflexivity|].
  simpl. intros H. apply andb_true_iff in H. destruct H as [Hc _].
  apply negb_true_iff in Hc. rewrite Hc. reflexivity.
Qed.

Lemma strip_with_clean (space : N -> bool) (s : pystr) :
  forallb (fun c => negb (space c)) s = true -> strip_with space s = s.
Proof.
  intros H. unfold strip_with.
  rewrite (lstrip_clean space s H).
  rewrite lstrip_clean by (apply forallb_rev_true; exact H).
  apply rev_involutive.
Qed.

Lemma forallb_impl {A} (f g : A -> bool) (l : list A) :
  (forall x, f x = true -> g x = true) ->
  forallb f l = true -> forallb g l = true.
Proof.
  intros Hfg. rewrite !forallb_forall. intros H x Hx. apply Hfg, H, Hx.
Qed.

Lemma span_digits_app (ip r : pystr) :
  all_digits ip = true ->
  match r with [] => True | c :: _ => is_digit c = false end ->
  span_digits (ip ++ r) = (ip, r).
Proof.
  intros Hip Hr. induction ip as [|c ip IH].
  - destruct r as [|c r]; [reflexivity|]. simpl. rewrite Hr. reflexivity.
  - unfold all_digits in Hip. simpl in Hip.
    apply andb_true_iff in Hip. destruct Hip as [Hc Hip].
    simpl. rewrite Hc, (IH Hip). reflexivity.
Qed.

Lemma is_digit_bounds (c : N) : is_digit c = true -> (48 <= c <= 57)%N.
Proof.
  unfold is_digit. intros H. apply andb_true_iff in H.
  destruct H as [H1 H2]. apply N.leb_le in H1, H2. lia.
Qed.

Lemma decimal_char_bounds (c : N) :
  decimal_char c = true -> (45 <= c <= 57)%N.
Proof.
  unfold decimal_char. intros H.
  apply orb_true_iff in H. destruct H as [H | H];
    [apply orb_true_iff in H; destruct H as [H | H]|].
  - apply is_digit_bounds in H. lia.
  - apply N.eqb_eq in H. lia.
  - apply N.eqb_eq in H. lia.
Qed.

Lemma decimal_text_chars (neg : bool) (ip fp : pystr) :
  all_digits ip = true -> all_digits fp = true ->
  forallb decimal_char (decimal_text neg ip fp) = true.
Proof.
  intros Hip Hfp. unfold decimal_text.
  assert (Hd : forall s, all_digits s = true -> forallb decimal_char s = true).
  { intros s. apply forallb_impl. intros c Hc. unfold decimal_char.
    rewrite Hc. reflexivity. }
  rewrite !forallb_app, (Hd ip Hip). cbn [andb].
  apply andb_true_iff. split.
  - destruct neg; reflexivity.
  - destruct fp as [|d fp]; [reflexivity|].
    change (forallb decimal_char (46%N :: d :: fp))
      with (decimal_char 46 && forallb decimal_char (d :: fp)).
    rewrite (Hd (d :: fp) Hfp). reflexivity.
Qed.

(** [float] reads a decimal text as its value. *)
Lemma py_float_decimal (neg : bool) (ip fp : pystr) :
  ip <> [] -> all_digits ip = true -> all_digits fp = true ->
  py_float (decimal_text neg ip fp) = Ok (Fin (decimal_value neg ip fp)).
Proof.
  intros Hne Hip Hfp.
  pose proof (decimal_text_chars neg ip fp Hip Hfp) as Hch.
  unfold py_float.
  rewrite transform_ascii
    by (revert Hch; apply forallb_impl; intros c Hc;
        apply decimal_char_bounds in Hc; apply N.ltb_lt; lia).
  cbn [rbind].
  rewrite underscores_ok_none;
    [| reflexivity
     | revert Hch; apply forallb_impl; intros c Hc;
       apply decimal_char_bounds in Hc; apply negb_true_iff, N.eqb_neq; lia].
  cbn [negb].
  rewrite remove_char_none
    by (revert Hch; apply forallb_impl; intros c Hc;
        apply decimal_char_bounds in Hc; apply negb_true_iff, N.eqb_neq; lia).
  rewrite strip_with_clean.
  2:{ revert Hch. apply forallb_impl. intros c Hc.
      apply decimal_char_bounds in Hc. apply negb_true_iff.
      unfold is_ascii_space. apply orb_false_iff.
      split; [apply andb_false_iff; right; apply N.leb_gt; lia
             | apply N.eqb_neq; lia]. }
  assert (Hsign : take_sign (decimal_text neg ip fp) =
                  (neg, decimal_text false ip fp)).
  { unfold decimal_text. destruct neg; [reflexivity|].
    destruct ip as [|c ip]; [congruence|].
    unfold all_digits in Hip. simpl in Hip.
    apply andb_true_iff in Hip. destruct Hip as [Hc _].
    apply is_digit_bounds in Hc. cbn [app take_sign].
    replace (c =? 45)%N with false by (symmetry; apply N.eqb_neq; lia).
    replace (c =? 43)%N with false by (symmetry; apply N.eqb_neq; lia).
    reflexivity. }
  rewrite Hsign.
  assert (Hdec : parse_decimal (decimal_text false ip fp) =
                 Some (decimal_value false ip fp)).
  { unfold parse_decimal, decimal_text. cbn [app].
    destruct fp as [|d fp].
    - rewrite span_digits_app by (try exact Hip; exact I).
      destruct (ip ++ [])%list eqn:E;
        [apply app_eq_nil in E; destruct E; congruence|].
      rewrite <- E. reflexivity.
    - rewrite span_digits_app by (try exact Hip; reflexivity).
      change ((46 =? 46)%N) with true. cbv iota.
      rewrite <- (app_nil_r (d :: fp)) at 1.
      rewrite span_digits_app by (try exact Hfp; exact I).
      destruct (ip ++ d :: fp)%list eqn:E;
        [apply app_eq_nil in E; destruct E; congruence|].
      rewrite <- E. reflexivity. }
  rewrite Hdec. unfold decimal_value. destruct neg; reflexivity.
Qed.

(** ** NumericTableWidgetItem.__lt__ *)

Lemma span_digits_spec (s : pystr) :
  s = (fst (span_digits s) ++ snd (span_digits s))%list
  /\ all_digits (fst (span_digits s)) = true.
Proof.
  induction s as [|c s [IH1 IH2]]; [split; reflexivity|].
  simpl. destruct (is_digit c) eqn:Ec.
  - destruct (span_digits s) as [d r]. simpl in *.
    split; [congruence|]. unfold all_digits in *. simpl.
    rewrite Ec, IH2. reflexivity.
  - split; reflexivity.
Qed.

Lemma digits_no_percent (d : pystr) :
  all_digits d = true -> ~ In percent d.
Proof.
  unfold all_digits. rewrite forallb_forall. intros H Hin.
  apply H, is_digit_bounds in Hin. unfold percent in Hin. lia.
Qed.

Lemma take_sign_spec (s : pystr) :
  s = snd (take_sign s) \/
  exists c, (c = 45 \/ c = 43)%N /\ s = c :: snd (take_sign s).
Proof.
  destruct s as [|c t]; [left; reflexivity|].
  simpl. destruct (N.eqb_spec c 45) as [->|H45].
  - right. exists 45%N. split; [left|]; reflexivity.
  - destruct (N.eqb_spec c 43) as [->|H43].
    + right. exists 43%N. split; [right|]; reflexivity.
    + left. reflexivity.
Qed.

Lemma take_sign_keeps_percent (s : pystr) :
  In percent s -> In percent (snd (take_sign s)).
Proof.
  intros Hin. destruct (take_sign_spec s) as [E | (c & Hc & E)].
  - rewrite <- E. exact Hin.
  - rewrite E in Hin. destruct Hin as [Hin | Hin]; [|exact Hin].
    unfold percent in Hin. destruct Hc; subst c; discriminate.
Qed.

Lemma parse_exponent_no_percent (r : pystr) (e : Z) :
  parse_exponent r = Some e -> ~ In percent r.
Proof.
  destruct r as [|c t]; [intros _ []|].
  unfold parse_exponent.
  destruct ((c =? 101) || (c =? 69))%N eqn:Ec; [|discriminate].
  pose proof (take_sign_keeps_percent t) as Hsign.
  destruct (take_sign t) as [neg t'].
  pose proof (span_digits_spec t') as [Hsplit Hdig].
  destruct (span_digits t') as [d r']. cbn [fst snd] in *.
  destruct d as [|d0 d]; [discriminate|].
  destruct r' as [|? ?]; [|discriminate].
  intros _ [Hin | Hin].
  - subst c. discriminate.
  - apply Hsign in Hin. rewrite Hsplit, app_nil_r in Hin.
    exact (digits_no_percent _ Hdig Hin).
Qed.

Lemma parse_decimal_no_percent (t : pystr) (q : Q) :
  parse_decimal t = Some q -> ~ In percent t.
Proof.
  unfold parse_decimal.
  pose proof (span_digits_spec t) as [Hsplit Hdig].
  destruct (span_digits t) as [ip r]. cbn [fst snd] in *.
  intros H Hin. rewrite Hsplit in Hin. apply in_app_or in Hin.
  destruct Hin as [Hin | Hin]; [exact (digits_no_percent _ Hdig Hin)|].
  destruct r as [|c r].
  - destruct Hin.
  - destruct (N.eqb_spec c 46) as [->|Hc].
    + pose proof (span_digits_spec r) as [Hsplit' Hdig'].
      destruct (span_digits r) as [fp r']. cbn [fst snd] in *.
      destruct (ip ++ fp)%list; [discriminate|].
      destruct (parse_exponent r') as [e|] eqn:Ee; [|discriminate].
      destruct Hin as [Hin | Hin]; [discriminate|].
      rewrite Hsplit' in Hin. apply in_app_or in Hin.
      destruct Hin as [Hin | Hin];
        [exact (digits_no_percent _ Hdig' Hin)
        |exact (parse_exponent_no_percent _ _ Ee Hin)].
    + destruct (ip ++ [])%list; [discriminate|].
      destruct (parse_exponent (c :: r)) as [e|] eqn:Ee; [|discriminate].
      exact (parse_exponent_no_percent _ _ Ee Hin).
Qed.

Lemma pystr_eqb_eq (a b : pystr) : pystr_eqb a b = true -> a = b.
Proof.
  revert b. induction a as [|x a IH]; intros [|y b] H;
    try discriminate; [reflexivity|].
  simpl in H. apply andb_true_iff in H. destruct H as [Hx H].
  apply N.eqb_eq in Hx. rewrite Hx, (IH b H). reflexivity.
Qed.

Lemma lower_percent (c : N) : lower c = percent -> c = percent.
Proof.
  unfold lower, percent.
  destruct ((65 <=? c) && (c <=? 90))%N eqn:E; [|trivial].
  apply andb_true_iff in E. destruct E as [E1 E2].
  apply N.leb_le in E1. lia.
Qed.

Lemma parse_inf_or_nan_no_percent (body : pystr) (x : pyfloat) :
  parse_inf_or_nan body = Some x -> ~ In percent body.
Proof.
  unfold parse_inf_or_nan.
  pose proof (take_sign_keeps_percent body) as Hsign.
  destruct (take_sign body) as [neg t]. cbn [snd] in Hsign.
  intros H Hin. apply Hsign in Hin.
  apply (in_map lower) in Hin. change (lower percent) with percent in Hin.
  destruct (pystr_eqb (map lower t) [105; 110; 102]%N) eqn:E1.
  { apply pystr_eqb_eq in E1. rewrite E1 in Hin.
    revert Hin. unfold percent. cbn [In]. intuition discriminate. }
  destruct (pystr_eqb (map lower t)
              [105; 110; 102; 105; 110; 105; 116; 121]%N) eqn:E2.
  { apply pystr_eqb_eq in E2. rewrite E2 in Hin.
    revert Hin. unfold percent. cbn [In]. intuition discriminate. }
  cbn [orb] in H.
  destruct (pystr_eqb (map lower t) [110; 97; 110]%N) eqn:E3; [|discriminate].
  apply pystr_eqb_eq in E3. rewrite E3 in Hin.
  revert Hin. unfold percent. cbn [In]. intuition discriminate.
Qed.

Lemma transform_keeps_percent (s a : pystr) :
  transform s = Ok a -> In percent s -> In percent a.
Proof.
  revert a. induction s as [|c s IH]; intros a H Hin; [destruct Hin|].
  simpl in H. destruct (to_ascii c) as [c'|] eqn:Ec; [|discriminate].
  cbn [rbind] in H. destruct (transform s) as [s'|]; [|discriminate].
  cbn [rbind] in H. injection H as <-.
  destruct Hin as [-> | Hin]; [|right; apply (IH s' eq_refl Hin)].
  left. unfold to_ascii, percent in *.
  change ((37 <? 128)%N) with true in Ec. cbv iota in Ec. congruence.
Qed.

Lemma lstrip_keeps (space : N -> bool) (c : N) (s : pystr) :
  space c = false -> In c s -> In c (lstrip space s).
Proof.
  intros Hc. induction s as [|x s IH]; [intros []|].
  intros Hin. simpl. destruct (space x) eqn:Ex; [|exact Hin].
  destruct Hin as [-> | Hin]; [congruence|]. apply IH, Hin.
Qed.

Lemma strip_with_keeps (space : N -> bool) (c : N) (s : pystr) :
  space c = false -> In c s -> In c (strip_with space s).
Proof.
  intros Hc Hin. unfold strip_with.
  apply in_rev. rewrite rev_involutive.
  apply lstrip_keeps; [exact Hc|]. apply -> in_rev.
  apply lstrip_keeps; assumption.
Qed.

Lemma contains_In (c : N) (s : pystr) : contains c s = true <-> In c s.
Proof.
  unfold contains. rewrite existsb_exists. split.
  - intros (x & Hx & E). apply N.eqb_eq in E. subst x. exact Hx.
  - intros H. exists c. split; [exact H | apply N.eqb_refl].
Qed.

(** [float] rejects every text that holds a percent sign. *)
Lemma py_float_percent (s : pystr) :
  contains percent s = true -> py_float s = Raise.
Proof.
  intros Hc. apply contains_In in Hc. unfold py_float.
  destruct (transform s) as [a|] eqn:Ea; [|reflexivity].
  cbn [rbind]. apply (transform_keeps_percent s a Ea) in Hc.
  destruct (negb (underscores_ok 0 a)); [reflexivity|].
  assert (Hbody : In percent
            (strip_with is_ascii_space (remove_char 95 a))).
  { apply strip_with_keeps; [reflexivity|].
    unfold remove_char. apply filter_In. split; [exact Hc | reflexivity]. }
  pose proof (take_sign_keeps_percent _ Hbody) as Ht.
  destruct (take_sign _) as [neg t]. cbn [snd] in Ht.
  destruct (parse_decimal t) as [q|] eqn:Eq;
    [destruct (parse_decimal_no_percent t q Eq Ht)|].
  destruct (parse_inf_or_nan _) as [x|] eqn:Ex;
    [destruct (parse_inf_or_nan_no_percent _ x Ex Hbody)|].
  reflexivity.
Qed.

Lemma fdiv_Fin (a b : Q) :
  Qeq_bool b 0 = false -> (Fin a / Fin b)%F = Fin (a / b).
Proof. intros H. unfold fdiv. rewrite H. reflexivity. Qed.

Lemma not_space_printable (c : N) : (33 <= c <= 127)%N -> is_space c = false.
Proof.
  intros H. unfold is_space. repeat rewrite orb_false_iff.
  repeat split; try (apply N.eqb_neq; lia);
    apply andb_false_iff;
    ((left; apply N.leb_gt; lia) || (right; apply N.leb_gt; lia)).
Qed.

Lemma decimal_text_lacks (c : N) (neg : bool) (ip fp : pystr) :
  all_digits ip = true -> all_digits fp = true ->
  (c < 45 \/ 57 < c)%N -> contains c (decimal_text neg ip fp) = false.
Proof.
  intros Hip Hfp Hc.
  destruct (contains c (decimal_text neg ip fp)) eqn:E; [|reflexivity].
  apply contains_In in E.
  pose proof (decimal_text_chars neg ip fp Hip Hfp) as Hch.
  rewrite forallb_forall in Hch. apply Hch, decimal_char_bounds in E. lia.
Qed.

Lemma strip_decimal_percent (neg : bool) (ip fp : pystr) :
  all_digits ip = true -> all_digits fp = true ->
  strip (decimal_text neg ip fp ++ [percent]) =
  (decimal_text neg ip fp ++ [percent])%list.
Proof.
  intros Hip Hfp. unfold strip. apply strip_with_clean.
  rewrite forallb_app. apply andb_true_iff. split; [|reflexivity].
  generalize (decimal_text_chars neg ip fp Hip Hfp).
  apply forallb_impl. intros c Hc. apply decimal_char_bounds in Hc.
  apply negb_true_iff, not_space_printable. lia.
Qed.

Lemma parse_percentage_decimal (neg : bool) (ip fp : pystr) :
  ip <> [] -> all_digits ip = true -> all_digits fp = true ->
  parse_percentage (decimal_text neg ip fp ++ [percent]) =
  Fin (decimal_value neg ip fp / 100).
Proof.
  intros Hne Hip Hfp. unfold parse_percentage.
  rewrite strip_decimal_percent by assumption.
  rewrite remove_char_suffix
    by (apply decimal_text_lacks; try assumption; left; reflexivity).
  rewrite py_float_decimal by assumption.
  apply fdiv_Fin. reflexivity.
Qed.

Lemma Qltb_iff (a b c d : Q) :
  (a < b <-> c < d) -> (Qltb a b = true <-> c < d).
Proof. intros H. rewrite Qltb_lt. exact H. Qed.

(** X15: two table cells that both hold a decimal number of at most 15
    digits, or both such a number followed by a percent sign, are ordered
    by the value of the number and not by their text; the comparison of
    the base class plays no part.  Within 15 digits two different decimal
    numbers are different doubles, also after the division by 100, so the
    order of the values [float] returns is the order of the numbers; a
    longer text may be rounded onto its neighbour and is left out. *)
Theorem numeric_item_lt_by_value (super_lt : pystr -> pystr -> bool)
    (n1 n2 : bool) (i1 f1 i2 f2 : pystr) :
  i1 <> [] -> all_digits i1 = true -> all_digits f1 = true ->
  i2 <> [] -> all_digits i2 = true -> all_digits f2 = true ->
  (length i1 + length f1 <= 15)%nat ->
  (length i2 + length f2 <= 15)%nat ->
  let a := decimal_text n1 i1 f1 in
  let b := decimal_text n2 i2 f2 in
  (numeric_item_lt super_lt a b = true <->
   decimal_value n1 i1 f1 < decimal_value n2 i2 f2) /\
  (numeric_item_lt super_lt (a ++ [percent]) (b ++ [percent]) = true <->
   decimal_value n1 i1 f1 < decimal_value n2 i2 f2).
Proof.
  intros Hn1 Hi1 Hf1 Hn2 Hi2 Hf2 _ _ a b. subst a b. split.
  - unfold numeric_item_lt.
    rewrite (decimal_text_lacks percent n1 i1 f1)
      by (try assumption; left; reflexivity).
    cbn [andb].
    rewrite !py_float_decimal by assumption.
    cbn [rbind flt]. apply Qltb_lt.
  - unfold numeric_item_lt.
    rewrite !contains_app.
    change (contains percent [percent]) with true.
    rewrite !orb_true_r. cbn [andb].
    rewrite !parse_percentage_decimal by assumption.
    cbn [flt]. apply Qltb_iff.
    unfold Qdiv. apply Qmult_lt_r. reflexivity.
Qed.

(** X16: when at least one of two cell texts is not a number, and they do
    not both hold a percent sign, the cells are ordered by the comparison
    of the base class; this is so in particular when exactly one of them
    holds a percent sign.  When both hold one and the first is not a
    number once the sign is removed, the first sorts before every cell
    with a finite percentage and no cell sorts before it. *)
Theorem numeric_item_lt_fallbacks (super_lt : pystr -> pystr -> bool)
    (a b : pystr) :
  (contains percent a && contains percent b = false ->
   py_float a = Raise \/ py_float b = Raise ->
   numeric_item_lt super_lt a b = super_lt a b) /\
  (contains percent a <> contains percent b ->
   numeric_item_lt super_lt a b = super_lt a b) /\
  (contains percent a = true -> contains percent b = true ->
   py_float (remove_char percent (strip a)) = Raise ->
   numeric_item_lt super_lt b a = false /\
   forall y, py_float (remove_char percent (strip b)) = Ok (Fin y) ->
             numeric_item_lt super_lt a b = true).
Proof.
  assert (Hraise : contains percent a && contains percent b = false ->
                   py_float a = Raise \/ py_float b = Raise ->
                   numeric_item_lt super_lt a b = super_lt a b).
  { intros Hc Hr. unfold numeric_item_lt. rewrite Hc.
    destruct Hr as [Hr | Hr]; rewrite Hr; [reflexivity|].
    destruct (py_float a); reflexivity. }
  split; [exact Hraise|]. split.
  - intros Hne.
    destruct (contains percent a) eqn:Ea, (contains percent b) eqn:Eb;
      try congruence.
    + apply Hraise; [reflexivity|]. left. apply py_float_percent, Ea.
    + apply Hraise; [reflexivity|]. right. apply py_float_percent, Eb.
  - intros Ha Hb Hr. unfold numeric_item_lt. rewrite Ha, Hb. cbn [andb].
    unfold parse_percentage at 2. rewrite Hr. split.
    + destruct (parse_percentage b); reflexivity.
    + intros y Hy. unfold parse_percentage. rewrite Hr, Hy.
      rewrite fdiv_Fin by reflexivity. reflexivity.
Qed.

(** ** The two money-flow converters *)

Lemma flow_sign (neg : bool) (ip fp u : pystr) :
  ip <> [] -> all_digits ip = true ->
  startswith minus (decimal_text neg ip fp ++ u) = neg /\
  (if neg then tl (decimal_text neg ip fp ++ u)
   else (decimal_text neg ip fp ++ u)%list)
  = (decimal_text false ip fp ++ u)%list.
Proof.
  intros Hne Hip. destruct neg; [split; reflexivity|].
  split; [|reflexivity].
  destruct ip as [|c ip]; [congruence|].
  unfold all_digits in Hip. simpl in Hip.
  apply andb_true_iff in Hip. destruct Hip as [Hc _].
  apply is_digit_bounds in Hc.
  unfold decimal_text. cbn [app startswith].
  apply N.eqb_neq. unfold minus. lia.
Qed.

Lemma decimal_value_neg (ip fp : pystr) :
  decimal_value true ip fp = - decimal_value false ip fp.
Proof. reflexivity. Qed.

(** X17: on a text without surrounding white space that is, commas apart,
    a decimal number followed by 亿, by 万 or by nothing, the converter of
    the sector analysis returns the amount in yuan and the converter of
    the ranking window the same amount in units of 亿. *)
Theorem rank_flow_value_scale (float_of_other : res pyfloat)
    (neg : bool) (ip fp : pystr) (s u : pystr) (k : Q) :
  ip <> [] -> all_digits ip = true -> all_digits fp = true ->
  In (u, k) flow_units -> strip s = s ->
  remove_char comma s = (decimal_text neg ip fp ++ u)%list ->
  exists r y,
    rank_flow_value float_of_other (VStr s) = Fin r /\
    convert_flow_value (VStr s) = Fin y /\
    y == decimal_value neg ip fp * k /\ r * 100000000 == y.
Proof.
  intros Hne Hip Hfp Hu Hstrip Hrm.
  pose proof (flow_sign neg ip fp u Hne Hip) as [Hsign Hbody].
  assert (Hyi : forall n, contains yi (decimal_text n ip fp) = false)
    by (intros n; apply decimal_text_lacks; try assumption; right; reflexivity).
  assert (Hwan : forall n, contains wan (decimal_text n ip fp) = false)
    by (intros n; apply decimal_text_lacks; try assumption; right; reflexivity).
  unfold rank_flow_value, convert_flow_value, flow_of_str.
  rewrite Hstrip, Hrm, Hsign, Hbody. clear Hsign Hbody Hstrip Hrm.
  destruct Hu as [E | [E | [E | []]]]; injection E as <- <-.
  - rewrite !contains_app, !Hyi. cbn [orb contains existsb].
    rewrite !remove_char_suffix by apply Hyi.
    rewrite !py_float_decimal by assumption. cbn [rbind fmul].
    destruct neg; cbn [fneg]; rewrite ?decimal_value_neg;
      eexists _, _; (split; [reflexivity|]); (split; [reflexivity|]);
      split; ring.
  - rewrite !contains_app, !Hyi, !Hwan.
    change (contains yi [wan]) with false.
    change (contains wan [wan]) with true. cbn [orb].
    rewrite !remove_char_suffix by apply Hwan.
    rewrite !py_float_decimal by assumption. cbn [rbind fmul].
    rewrite fdiv_Fin by reflexivity.
    destruct neg; cbn [fneg]; rewrite ?decimal_value_neg;
      eexists _, _; (split; [reflexivity|]); (split; [reflexivity|]);
      split; field.
  - rewrite !app_nil_r, !Hyi, !Hwan.
    rewrite !py_float_decimal by assumption. cbn [rbind].
    rewrite fdiv_Fin by reflexivity.
    destruct neg; cbn [fneg]; rewrite ?decimal_value_neg;
      eexists _, _; (split; [reflexivity|]); (split; [reflexivity|]);
      split; field.
Qed.

(** ** The further properties on sample data *)

Lemma show_ma_up_stocks_lists_witness :
  snd (show_ma_up_stocks
         (sample_provider [sample_row "600002" 1 1] sample_histories) ∅) =
  Some (names_where
          (fun r => (pct_change r >? Fin 0)%F && main_board (code r)
                    && trend_flag
                         (sample_provider [sample_row "600002" 1 1]
                                          sample_histories) ∅ (code r))
          [sample_row "600002" 1 1]).
Proof.
  apply (show_ma_up_stocks_lists
           (sample_provider [sample_row "600002" 1 1] sample_histories) ∅
           [sample_row "600002" 1 1]).
  reflexivity.
Defined.

Lemma show_ma_stocks_lists_witness :
  snd (show_ma_stocks
         (sample_provider [sample_row "600002" 1 1] sample_histories) ∅) =
  Some (ma_stocks_spec
          (sample_provider [sample_row "600002" 1 1] sample_histories) ∅
          [sample_row "600002" 1 1]).
Proof.
  apply (show_ma_stocks_lists
           (sample_provider [sample_row "600002" 1 1] sample_histories) ∅
           [sample_row "600002" 1 1]).
  reflexivity.
Defined.

Lemma volume_stage_keeps_witness :
  exists kept,
    volume_increase_filter volume_criteria
      (sample_provider [sample_row "600000" 1 1] (fun _ => climbing_minutes))
      [sample_row "600000" 1 1] = Ok kept /\
    forall row, In row [sample_row "600000" 1 1] ->
      (In row kept <->
       let v := map bar_volume climbing_minutes in
       (3 <= length v)%nat /\
       nth (length v - 3) v 0 < nth (length v - 2) v 0 /\
       nth (length v - 2) v 0 < nth (length v - 1) v 0).
Proof.
  apply (volume_stage_keeps volume_criteria
           (sample_provider [sample_row "600000" 1 1]
                            (fun _ => climbing_minutes))
           [sample_row "600000" 1 1] (fun _ => climbing_minutes)).
  - reflexivity.
  - intros row _. reflexivity.
Defined.

Lemma filter_stocks_sound_witness :
  exists df,
    stock_zh_a_spot_em
      (sample_provider [sample_row "600000" 1 1; sample_row "600001" 30 1]
                       sample_histories) = Ok df /\
    (forall r, In r [sample_row "600000" 1 1] ->
       In r df /\
       in_range (turnover r) 0 100 = true /\
       in_range (pct_change r) (-20) 20 = true /\
       (volume_ratio r >=? Fin 0)%F = true /\
       (0 < 0 -> (volume_ratio r <=? Fin 0)%F = true) /\
       in_range (latest_price r) 0 10000 = true /\
       in_range (total_cap r) (0 * 100000000) (10000 * 100000000) = true /\
       (false = true -> (pct_change r >? Fin 0)%F = true) /\
       (false = true -> (pct_change r <? Fin 9.5)%F = true)) /\
    ((0 < 0)%Z -> (Z.of_nat 1 <= 0)%Z).
Proof.
  apply (filter_stocks_sound
           (sample_criteria 20 0 0 false 0 0)
           (sample_provider [sample_row "600000" 1 1; sample_row "600001" 30 1]
                            sample_histories)
           [sample_row "600000" 1 1]).
  vm_compute. reflexivity.
Defined.

Lemma quiet_history_fails_checks_witness :
  ma_alignment (rising_history 5) = Ok false /\
  kdj_golden (rising_history 5) = Ok false.
Proof.
  assert (Hne : rising_history 5 <> []) by discriminate.
  destruct (quiet_history_fails_checks (rising_history 5) Hne)
    as (Hma & Hkdj & _).
  split; [apply Hma | apply Hkdj]; vm_compute; lia.
Defined.

Lemma numeric_item_lt_by_value_witness :
  numeric_item_lt (fun _ _ => false) [57]%N [49; 48]%N = true /\
  numeric_item_lt (fun _ _ => false) [57; 37]%N [49; 48; 37]%N = true.
Proof.
  assert (Hne : forall c (s : pystr), c :: s <> []) by discriminate.
  destruct (numeric_item_lt_by_value (fun _ _ => false) false false
              [57]%N [] [49; 48]%N []
              (Hne _ _) eq_refl eq_refl (Hne _ _) eq_refl eq_refl
              ltac:(simpl; lia) ltac:(simpl; lia))
    as [Hplain Hpct].
  split; [apply Hplain | apply Hpct]; reflexivity.
Defined.

Lemma rank_flow_value_scale_witness :
  exists r y,
    rank_flow_value Raise (VStr sample_flow_text) = Fin r /\
    convert_flow_value (VStr sample_flow_text) = Fin y /\
    y == decimal_value true [49; 50; 51; 52]%N [53]%N * 10000 /\
    r * 100000000 == y.
Proof.
  apply (rank_flow_value_scale Raise true [49; 50; 51; 52]%N [53]%N
           sample_flow_text [wan] 10000).
  - discriminate.
  - reflexivity.
  - reflexivity.
  - right. left. reflexivity.
  - vm_compute. reflexivity.
  - vm_compute. reflexivity.
Defined.

(** ** RSI *)

Lemma length_map2 {A B C} (f : A -> B -> C) (a : list A) (b : list B) :
  length (map2 f a b) = Nat.min (length a) (length b).
Proof. unfold map2. rewrite length_map, length_combine. reflexivity. Qed.

Lemma nth_map2 {A B C} (f : A -> B -> C) (a : list A) (b : list B)
    (i : nat) (da : A) (db : B) (dc : C) :
  (i < length a)%nat -> (i < length b)%nat ->
  nth i (map2 f a b) dc = f (nth i a da) (nth i b db).
Proof.
  revert b i. induction a as [|x a IH]; intros [|y b] i Ha Hb;
    simpl in Ha, Hb; try lia.
  destruct i as [|i]; [reflexivity|].
  change (nth i (map2 f a b) dc = f (nth i a da) (nth i b db)).
  apply IH; lia.
Qed.

Lemma length_rolling_fmean (n : nat) (s : list pyfloat) :
  length (rolling_fmean n s) = length s.
Proof. unfold rolling_fmean. rewrite length_map, length_seq. reflexivity. Qed.

Lemma nth_rolling_fmean (n i : nat) (s : list pyfloat) :
  (i < length s)%nat ->
  nth i (rolling_fmean n s) NaN =
  if (S i <? n)%nat then NaN else fmean (window n i s).
Proof.
  intros Hi. unfold rolling_fmean. rewrite nth_map_seq by exact Hi.
  reflexivity.
Qed.

Lemma firstn_seq_le (n a len : nat) :
  (n <= len)%nat -> firstn n (seq a len) = seq a n.
Proof.
  revert a len. induction n as [|n IH]; intros a [|len] H;
    try reflexivity; [lia|].
  cbn [seq firstn]. rewrite IH by lia. reflexivity.
Qed.

Lemma window_seq (n i len : nat) :
  (n <= S i)%nat -> (i < len)%nat ->
  window n i (seq 0 len) = seq (S i - n) n.
Proof.
  intros Hn Hi. unfold window.
  rewrite skipn_seq, firstn_seq_le by lia. reflexivity.
Qed.

Lemma window_map {A B} (f : A -> B) (n i : nat) (l : list A) :
  window n i (map f l) = map f (window n i l).
Proof. unfold window. rewrite skipn_map, firstn_map. reflexivity. Qed.

Lemma fold_fadd_Fin (g : nat -> Q) (l : list nat) (a : Q) :
  fold_left fadd (map (fun i => Fin (g i)) l) (Fin a) =
  Fin (fold_left Qplus (map g l) a).
Proof.
  revert a. induction l as [|x l IH]; intros a; [reflexivity|].
  cbn [map fold_left fadd]. apply IH.
Qed.

Lemma inject_Z_nat_pos (n : nat) : (0 < n)%nat -> 0 < inject_Z (Z.of_nat n).
Proof.
  intros Hn. change 0 with (inject_Z 0). rewrite <- Zlt_Qlt. lia.
Qed.

Lemma Qeq_bool_pos (q : Q) : 0 < q -> Qeq_bool q 0 = false.
Proof.
  intros H. destruct (Qeq_bool q 0) eqn:E; [|reflexivity].
  apply Qeq_bool_eq in E. rewrite E in H. destruct (Qlt_irrefl _ H).
Qed.

(** A full window of a rolling mean over a column given position by
    position. *)
Lemma nth_rolling_fmean_seq (g : nat -> Q) (n i len : nat) :
  (0 < n)%nat -> (n <= S i)%nat -> (i < len)%nat ->
  nth i (rolling_fmean n (map (fun k => Fin (g k)) (seq 0 len))) NaN =
  Fin (sum_over g (S i - n) n / inject_Z (Z.of_nat n)).
Proof.
  intros Hpos Hn Hi.
  rewrite nth_rolling_fmean by (rewrite length_map, length_seq; exact Hi).
  replace (S i <? n)%nat with false by (symmetry; apply Nat.ltb_ge; lia).
  rewrite window_map, window_seq by assumption.
  unfold fmean. rewrite fold_fadd_Fin, length_map, length_seq.
  unfold of_nat. apply fdiv_Fin, Qeq_bool_pos, inject_Z_nat_pos, Hpos.
Qed.

Lemma delta_seq (data : list Q) :
  diff (map Fin data) =
  map (fun i => match i with
                | O => NaN
                | S j => Fin (nth i data 0 + - nth j data 0)
                end) (seq 0 (length data)).
Proof.
  unfold diff. rewrite length_map. apply map_ext_in. intros i Hi.
  apply in_seq in Hi. destruct i as [|j]; [reflexivity|].
  rewrite (nth_indep (map Fin data) NaN (Fin 0) (n := S j))
    by (rewrite length_map; lia).
  rewrite (nth_indep (map Fin data) NaN (Fin 0) (n := j))
    by (rewrite length_map; lia).
  rewrite !map_nth. reflexivity.
Qed.

Lemma gains_seq (data : list Q) :
  where_else_zero (fun d => (d >? Fin 0)%F) (diff (map Fin data)) =
  map (fun i => Fin (gain_at data i)) (seq 0 (length data)).
Proof.
  rewrite delta_seq. unfold where_else_zero. rewrite map_map.
  apply map_ext. intros [|j]; [reflexivity|].
  unfold gain_at.
  change (Fin (nth (S j) data 0 + - nth j data 0) >? Fin 0)%F
    with (Qltb 0 (nth (S j) data 0 + - nth j data 0)).
  destruct (Qltb 0 _); reflexivity.
Qed.

Lemma losses_seq (data : list Q) :
  map fneg (where_else_zero (fun d => (d <? Fin 0)%F) (diff (map Fin data))) =
  map (fun i => Fin (loss_at data i)) (seq 0 (length data)).
Proof.
  rewrite delta_seq. unfold where_else_zero. rewrite !map_map.
  apply map_ext. intros [|j]; [reflexivity|].
  unfold loss_at.
  change (Fin (nth (S j) data 0 + - nth j data 0) <? Fin 0)%F
    with (Qltb (nth (S j) data 0 + - nth j data 0) 0).
  destruct (Qltb _ 0); reflexivity.
Qed.

Lemma gain_at_nonneg (data : list Q) (i : nat) : 0 <= gain_at data i.
Proof.
  destruct i as [|j]; [apply Qle_refl|]. unfold gain_at.
  destruct (Qltb 0 _) eqn:E; [|apply Qle_refl].
  apply Qltb_lt in E. apply Qlt_le_weak, E.
Qed.

Lemma loss_at_nonneg (data : list Q) (i : nat) : 0 <= loss_at data i.
Proof.
  destruct i as [|j]; [discriminate|]. unfold loss_at.
  destruct (Qltb _ 0) eqn:E; [|discriminate].
  apply Qltb_lt in E. apply Qlt_le_weak.
  apply (proj1 (Qlt_minus_iff _ 0)) in E. rewrite Qplus_0_l in E. exact E.
Qed.

Lemma fold_Qplus_le (l : list Q) (a : Q) :
  Forall (fun q => 0 <= q) l -> a <= fold_left Qplus l a.
Proof.
  intros H. revert a. induction H as [|q l Hq _ IH]; intros a.
  - apply Qle_refl.
  - cbn [fold_left]. apply Qle_trans with (a + q); [|apply IH].
    rewrite <- (Qplus_0_r a) at 1. apply Qplus_le_r. exact Hq.
Qed.

Lemma sum_over_nonneg (g : nat -> Q) (a n : nat) :
  (forall i, 0 <= g i) -> 0 <= sum_over g a n.
Proof.
  intros H. unfold sum_over. apply fold_Qplus_le.
  apply Forall_map, List.Forall_forall. intros i _. apply H.
Qed.

Lemma sum_over_last (g : nat -> Q) (a n : nat) :
  (forall i, 0 <= g i) -> g (a + n)%nat <= sum_over g a (S n).
Proof.
  intros H. unfold sum_over. rewrite seq_S, map_app, fold_left_app.
  cbn [map fold_left].
  rewrite <- (Qplus_0_l (g (a + n)%nat)) at 1. apply Qplus_le_l.
  apply (sum_over_nonneg g a n H).
Qed.

Lemma fold_Qplus_zero (l : list Q) (a : Q) :
  Forall (fun q => q == 0) l -> fold_left Qplus l a == a.
Proof.
  intros H. revert a. induction H as [|q l Hq _ IH]; intros a.
  - reflexivity.
  - cbn [fold_left]. rewrite IH, Hq. apply Qplus_0_r.
Qed.

(** The value of the RSI formula on a mean gain and a mean loss. *)
Lemma rsi_value (g l : Q) :
  0 <= g -> 0 <= l ->
  let r := (Fin 100 - Fin 100 / (Fin 1 + Fin g / Fin l))%F in
  (r = NaN \/ exists q, r = Fin q /\ 0 <= q /\ q <= 100) /\
  (l == 0 -> 0 < g -> exists q, r = Fin q /\ q == 100).
Proof.
  intros Hg Hl r. subst r.
  destruct (Qeq_bool l 0) eqn:El.
  - assert (Hr : (Fin g / Fin l)%F = inf_of_sign (Qsgn g))
      by (unfold fdiv; rewrite El; reflexivity).
    rewrite Hr. clear Hr.
    destruct g as [n d]. unfold Qsgn. cbn [Qnum].
    destruct n as [|n|n].
    + split; [left; reflexivity|].
      intros _ H. destruct (Qlt_irrefl 0). exact H.
    + split; [right|intros _ _]; exists (100 + - 0);
        (split; [reflexivity|]); [split; discriminate | reflexivity].
    + exfalso. apply (Qle_not_lt _ _ Hg). reflexivity.
  - assert (Hl' : 0 < l).
    { apply Qle_lteq in Hl. destruct Hl as [Hl | Hl]; [exact Hl|].
      apply Qeq_sym, Qeq_bool_iff in Hl. congruence. }
    assert (Hx : 1 <= 1 + g / l).
    { rewrite <- (Qplus_0_r 1) at 1. apply Qplus_le_r.
      apply Qle_shift_div_l; [exact Hl'|]. rewrite Qmult_0_l. exact Hg. }
    assert (Hx0 : 0 < 1 + g / l)
      by (apply Qlt_le_trans with 1; [reflexivity | exact Hx]).
    rewrite (fdiv_Fin g l El). cbn [fadd].
    rewrite fdiv_Fin by (apply Qeq_bool_pos, Hx0).
    split.
    + right. exists (100 + - (100 / (1 + g / l))).
      split; [reflexivity|]. split.
      * apply (proj1 (Qle_minus_iff _ _)).
        apply Qle_shift_div_r; [exact Hx0|].
        rewrite <- (Qmult_1_r 100) at 1.
        apply Qmult_le_l; [reflexivity | exact Hx].
      * apply Qle_trans with (100 + 0); [|rewrite Qplus_0_r; apply Qle_refl].
        apply (proj2 (Qplus_le_r _ _ _)).
        change (- (100 / (1 + g / l)) <= - 0). apply Qopp_le_compat.
        apply Qle_shift_div_l; [exact Hx0|]. rewrite Qmult_0_l. discriminate.
    + intros E. apply Qeq_bool_iff in E. congruence.
Qed.

Lemma nth_calculate_rsi (data : list Q) (periods i : nat) :
  (0 < periods)%nat -> (periods <= S i)%nat -> (i < length data)%nat ->
  nth i (calculate_rsi data periods) NaN =
  (Fin 100 - Fin 100 /
     (Fin 1 + Fin (sum_over (gain_at data) (S i - periods) periods
                   / inject_Z (Z.of_nat periods))
              / Fin (sum_over (loss_at data) (S i - periods) periods
                     / inject_Z (Z.of_nat periods))))%F.
Proof.
  intros Hpos Hn Hi. unfold calculate_rsi.
  rewrite gains_seq, losses_seq.
  change NaN
    with ((fun x => (Fin 100 - Fin 100 / (Fin 1 + x))%F) NaN) at 1.
  rewrite map_nth.
  rewrite (nth_map2 _ _ _ _ NaN NaN)
    by (rewrite length_rolling_fmean, length_map, length_seq; exact Hi).
  rewrite !nth_rolling_fmean_seq by assumption. reflexivity.
Qed.

Lemma nth_calculate_rsi_early (data : list Q) (periods i : nat) :
  (S i < periods)%nat -> nth i (calculate_rsi data periods) NaN = NaN.
Proof.
  intros Hn. unfold calculate_rsi.
  rewrite gains_seq, losses_seq.
  change NaN
    with ((fun x => (Fin 100 - Fin 100 / (Fin 1 + x))%F) NaN) at 1.
  rewrite map_nth.
  destruct (Nat.lt_ge_cases i (length data)) as [Hi | Hi].
  - rewrite (nth_map2 _ _ _ _ NaN NaN)
      by (rewrite length_rolling_fmean, length_map, length_seq; exact Hi).
    rewrite nth_rolling_fmean by (rewrite length_map, length_seq; exact Hi).
    replace (S i <? periods)%nat with true
      by (symmetry; apply Nat.ltb_lt; exact Hn).
    reflexivity.
  - rewrite nth_overflow; [reflexivity|].
    rewrite length_map2, !length_rolling_fmean, !length_map, length_seq.
    lia.
Qed.

(** X18: the RSI column has one value per bar; it is undefined on the
    first [periods - 1] bars; every value is undefined or lies between 0
    and 100; and on closes that rise from each bar to the next it is 100
    on every bar from the second on whose window is full. *)
Theorem calculate_rsi_range (data : list Q) (periods : nat) :
  (0 < periods)%nat ->
  length (calculate_rsi data periods) = length data /\
  (forall i, (S i < periods)%nat ->
     nth i (calculate_rsi data periods) NaN = NaN) /\
  (forall i,
     nth i (calculate_rsi data periods) NaN = NaN \/
     exists q, nth i (calculate_rsi data periods) NaN = Fin q /\
               0 <= q /\ q <= 100) /\
  ((forall j, (S j < length data)%nat -> nth j data 0 < nth (S j) data 0) ->
   forall i, (1 <= i)%nat -> (periods <= S i)%nat -> (i < length data)%nat ->
     exists q, nth i (calculate_rsi data periods) NaN = Fin q /\ q == 100).
Proof.
  intros Hpos.
  assert (HP : 0 < inject_Z (Z.of_nat periods))
    by (apply inject_Z_nat_pos, Hpos).
  assert (Hlen : length (calculate_rsi data periods) = length data).
  { unfold calculate_rsi. rewrite gains_seq, losses_seq.
    rewrite length_map, length_map2, !length_rolling_fmean, !length_map,
      length_seq.
    apply Nat.min_id. }
  assert (Hmean : forall g a,
            (forall i, 0 <= g i) ->
            0 <= sum_over g a periods / inject_Z (Z.of_nat periods)).
  { intros g a Hg. apply Qle_shift_div_l; [exact HP|].
    rewrite Qmult_0_l. apply sum_over_nonneg, Hg. }
  split; [exact Hlen|]. split; [intros i; apply nth_calculate_rsi_early|].
  split.
  - intros i.
    destruct (Nat.lt_ge_cases i (length data)) as [Hi | Hi];
      [|left; apply nth_overflow; rewrite Hlen; exact Hi].
    destruct (Nat.lt_ge_cases (S i) periods) as [Hn | Hn];
      [left; apply nth_calculate_rsi_early, Hn|].
    rewrite nth_calculate_rsi by assumption.
    apply rsi_value; apply Hmean;
      [apply gain_at_nonneg | apply loss_at_nonneg].
  - intros Hrise i Hi1 Hn Hi.
    rewrite nth_calculate_rsi by assumption.
    apply rsi_value.
    + apply Hmean, gain_at_nonneg.
    + apply Hmean, loss_at_nonneg.
    + unfold Qdiv. unfold sum_over.
      rewrite fold_Qplus_zero; [apply Qmult_0_l|].
      apply Forall_map, List.Forall_forall. intros k Hk.
      apply in_seq in Hk. destruct k as [|j]; [reflexivity|].
      unfold loss_at.
      assert (Hd : nth j data 0 < nth (S j) data 0)
        by (apply Hrise; lia).
      destruct (Qltb _ 0) eqn:E; [|reflexivity].
      apply Qltb_lt in E. exfalso.
      apply (Qlt_irrefl (nth (S j) data 0)).
      apply Qlt_trans with (nth j data 0); [|exact Hd].
      apply (proj2 (Qlt_minus_iff _ _)).
      apply (proj1 (Qlt_minus_iff _ 0)) in E.
      rewrite Qplus_0_l in E.
      setoid_rewrite Qopp_plus in E. rewrite Qopp_opp in E.
      rewrite Qplus_comm. exact E.
    + apply Qlt_shift_div_l; [exact HP|]. rewrite Qmult_0_l.
      destruct periods as [|n]; [lia|].
      apply Qlt_le_trans with (gain_at data (S i - S n + n));
        [|apply sum_over_last, gain_at_nonneg].
      replace (S i - S n + n)%nat with i by lia.
      destruct i as [|j]; [lia|]. unfold gain_at.
      assert (Hd : 0 < nth (S j) data 0 + - nth j data 0)
        by (apply (proj1 (Qlt_minus_iff _ _)), Hrise; exact Hi).
      apply Qltb_lt in Hd as Hb. rewrite Hb. exact Hd.
Qed.

Lemma calculate_rsi_range_witness :
  length (calculate_rsi [1; 2; 3] 2) = 3%nat /\
  (forall i, (S i < 2)%nat -> nth i (calculate_rsi [1; 2; 3] 2) NaN = NaN) /\
  (forall i,
     nth i (calculate_rsi [1; 2; 3] 2) NaN = NaN \/
     exists q, nth i (calculate_rsi [1; 2; 3] 2) NaN = Fin q /\
               0 <= q /\ q <= 100) /\
  ((forall j, (S j < length [1; 2; 3])%nat ->
      nth j [1; 2; 3] 0 < nth (S j) [1; 2; 3] 0) ->
   forall i, (1 <= i)%nat -> (2 <= S i)%nat -> (i < length [1; 2; 3])%nat ->
     exists q, nth i (calculate_rsi [1; 2; 3] 2) NaN = Fin q /\ q == 100).
Proof.
  apply (calculate_rsi_range [1; 2; 3] 2). lia.
Defined.

(** ** The trend of analyze_market_trend *)

Lemma iloc_back_ok {A} (s : list A) (z : Z) :
  (0 < - z <= Z.of_nat (length s))%Z -> exists x, iloc s z = Ok x.
Proof.
  intros Hz. destruct s as [|d s]; [simpl in Hz; lia|].
  replace z with (- Z.of_nat (Z.to_nat (- z)))%Z by lia.
  eexists. apply (iloc_from_end _ _ d). lia.
Qed.

Lemma iloc_back_short {A} (s : list A) (z : Z) :
  (Z.of_nat (length s) < - z)%Z -> iloc s z = Raise.
Proof.
  intros Hz. unfold iloc.
  replace (z <? 0)%Z with true by (symmetry; apply Z.ltb_lt; lia).
  replace (Z.of_nat (length s) + z <? 0)%Z with true
    by (symmetry; apply Z.ltb_lt; lia).
  reflexivity.
Qed.

Lemma length_macd_line (hist_data : list Bar) :
  length (macd_line hist_data) = length hist_data.
Proof.
  unfold macd_line, closes.
  rewrite length_map2, !length_ewm_mean, !length_map. apply Nat.min_id.
Qed.

Lemma length_calculate_rsi (data : list Q) (periods : nat) :
  length (calculate_rsi data periods) = length data.
Proof.
  unfold calculate_rsi. rewrite gains_seq, losses_seq.
  rewrite length_map, length_map2, !length_rolling_fmean, !length_map,
    length_seq.
  apply Nat.min_id.
Qed.

Lemma flt_NaN_r (x : pyfloat) : (x <? NaN)%F = false.
Proof. destruct x; reflexivity. Qed.

(** On five bars or more nothing raises, and the trend is the label of
    the six flags. *)
Lemma market_trend_value (sh_index : list Bar) :
  (5 <= length sh_index)%nat ->
  exists a b c d m s golden dead,
    iloc (rolling_mean 5 (closes sh_index)) (-1) = Ok a /\
    iloc (rolling_mean 10 (closes sh_index)) (-1) = Ok b /\
    iloc (rolling_mean 20 (closes sh_index)) (-1) = Ok c /\
    iloc (rolling_mean 60 (closes sh_index)) (-1) = Ok d /\
    market_trend sh_index =
    Ok (Some (trend_label
                ((a >? b) && (b >? c) && (c >? d))%F
                ((a <? b) && (b <? c) && (c <? d))%F
                golden dead
                ((m >? Fin 0) && (s >? Fin 0))%F
                ((m <? Fin 0) && (s <? Fin 0))%F)).
Proof.
  intros Hlen. unfold market_trend.
  assert (E : empty sh_index = false)
    by (destruct sh_index; [simpl in Hlen; lia | reflexivity]).
  rewrite E.
  assert (Hc : length (closes sh_index) = length sh_index)
    by (unfold closes; apply length_map).
  assert (Hs : length (ewm_mean (alpha_of_span 9) false (macd_line sh_index))
               = length sh_index)
    by (rewrite length_ewm_mean; apply length_macd_line).
  destruct (iloc_back_ok sh_index (-1)) as [latest ->]; [lia|].
  destruct (iloc_back_ok (rolling_mean 5 (closes sh_index)) (-1))
    as [a Ha]; [rewrite length_rolling_mean; lia|].
  destruct (iloc_back_ok (rolling_mean 10 (closes sh_index)) (-1))
    as [b Hb]; [rewrite length_rolling_mean; lia|].
  destruct (iloc_back_ok (rolling_mean 20 (closes sh_index)) (-1))
    as [c Hc']; [rewrite length_rolling_mean; lia|].
  destruct (iloc_back_ok (rolling_mean 60 (closes sh_index)) (-1))
    as [d Hd]; [rewrite length_rolling_mean; lia|].
  destruct (iloc_back_ok (macd_line sh_index) (-1))
    as [m Hm]; [rewrite length_macd_line; lia|].
  destruct (iloc_back_ok
              (ewm_mean (alpha_of_span 9) false (macd_line sh_index)) (-1))
    as [s Hsig]; [rewrite Hs; lia|].
  destruct (iloc_back_ok (calculate_rsi (closes sh_index) 14) (-1))
    as [r Hr]; [rewrite length_calculate_rsi; lia|].
  destruct (iloc_back_ok (rolling_mean 5 (closes sh_index)) (-5))
    as [a5 Ha5]; [rewrite length_rolling_mean; lia|].
  destruct (iloc_back_ok (rolling_mean 10 (closes sh_index)) (-5))
    as [b5 Hb5]; [rewrite length_rolling_mean; lia|].
  destruct (iloc_back_ok (macd_line sh_index) (-2))
    as [m2 Hm2]; [rewrite length_macd_line; lia|].
  destruct (iloc_back_ok
              (ewm_mean (alpha_of_span 9) false (macd_line sh_index)) (-2))
    as [s2 Hs2]; [rewrite Hs; lia|].
  rewrite Ha, Hb, Hc', Hd, Hm, Hsig, Hr, Ha5, Hb5, Hm2, Hs2.
  cbn [rbind]. unfold and_then. cbn [rbind].
  exists a, b, c, d, m, s.
  destruct (m >? s)%F, (m <? s)%F; cbn [rbind]; eexists _, _;
    repeat split; reflexivity.
Qed.

Lemma trend_label_neither (golden dead above below : bool) :
  trend_label false false golden dead above below = Consolidation.
Proof. reflexivity. Qed.

Lemma market_trend_short (sh_index : list Bar) :
  (0 < length sh_index < 5)%nat -> market_trend sh_index = Raise.
Proof.
  intros Hlen. unfold market_trend.
  assert (E : empty sh_index = false)
    by (destruct sh_index; [simpl in Hlen; lia | reflexivity]).
  rewrite E.
  assert (Hc : length (closes sh_index) = length sh_index)
    by (unfold closes; apply length_map).
  destruct (iloc_back_ok sh_index (-1)) as [latest ->]; [lia|].
  destruct (iloc_back_ok (rolling_mean 5 (closes sh_index)) (-1))
    as [a ->]; [rewrite length_rolling_mean; lia|].
  destruct (iloc_back_ok (rolling_mean 10 (closes sh_index)) (-1))
    as [b ->]; [rewrite length_rolling_mean; lia|].
  destruct (iloc_back_ok (rolling_mean 20 (closes sh_index)) (-1))
    as [c ->]; [rewrite length_rolling_mean; lia|].
  destruct (iloc_back_ok (rolling_mean 60 (closes sh_index)) (-1))
    as [d ->]; [rewrite length_rolling_mean; lia|].
  destruct (iloc_back_ok (macd_line sh_index) (-1))
    as [m ->]; [rewrite length_macd_line; lia|].
  destruct (iloc_back_ok
              (ewm_mean (alpha_of_span 9) false (macd_line sh_index)) (-1))
    as [s ->]; [rewrite length_ewm_mean, length_macd_line; lia|].
  destruct (iloc_back_ok (calculate_rsi (closes sh_index) 14) (-1))
    as [r ->]; [rewrite length_calculate_rsi; lia|].
  cbn [rbind].
  rewrite (iloc_back_short (rolling_mean 5 (closes sh_index)) (-5))
    by (rewrite length_rolling_mean; lia).
  reflexivity.
Qed.

(** X19: the trend of the market analysis is computed on five index bars
    or more: on an empty frame the function returns early, on one to four
    bars the look-back of the MA slopes raises.  With fewer than 60 bars
    MA60 is undefined and the trend is always "consolidation"; so it is on
    closes that are all equal. *)
Theorem market_trend_labels (sh_index : list Bar) :
  (sh_index = [] -> market_trend sh_index = Ok None) /\
  ((0 < length sh_index < 5)%nat -> market_trend sh_index = Raise) /\
  ((5 <= length sh_index)%nat ->
   exists t, market_trend sh_index = Ok (Some t)) /\
  ((5 <= length sh_index < 60)%nat ->
   market_trend sh_index = Ok (Some Consolidation)) /\
  (forall c, (5 <= length sh_index)%nat -> flat_closes c sh_index ->
     market_trend sh_index = Ok (Some Consolidation)).
Proof.
  assert (Hshort : (5 <= length sh_index < 60)%nat ->
                   market_trend sh_index = Ok (Some Consolidation)).
  { intros [H5 H60].
    destruct (market_trend_value sh_index H5)
      as (a & b & c & d & m & s & golden & dead & _ & _ & _ & Hd & ->).
    rewrite rolling_last_undefined in Hd.
    - injection Hd as <-.
      rewrite fgt_NaN_r, flt_NaN_r, !andb_false_r. reflexivity.
    - apply nonempty_length. unfold closes. rewrite length_map. lia.
    - unfold closes. rewrite length_map. exact H60. }
  split; [intros ->; reflexivity|].
  split; [apply market_trend_short|].
  split.
  { intros H5.
    destruct (market_trend_value sh_index H5)
      as (a & b & c & d & m & s & golden & dead & _ & _ & _ & _ & ->).
    eexists. reflexivity. }
  split; [exact Hshort|].
  intros c0 H5 Hflat.
  destruct (Nat.lt_ge_cases (length sh_index) 60) as [H60 | H60];
    [apply Hshort; lia|].
  assert (Hxs : Forall (fun q => q == c0) (closes sh_index)).
  { unfold closes. apply List.Forall_forall. intros q Hq.
    apply in_map_iff in Hq. destruct Hq as (bar & <- & Hbar).
    unfold flat_closes in Hflat. rewrite List.Forall_forall in Hflat.
    apply Hflat. exact Hbar. }
  assert (Hc : length (closes sh_index) = length sh_index)
    by (unfold closes; apply length_map).
  destruct (market_trend_value sh_index H5)
    as (a & b & c & d & m & s & golden & dead & Ha & Hb & _ & _ & ->).
  destruct (ma_last_flat c0 5 (closes sh_index)) as (m5 & H5' & E5);
    [lia | exact Hxs |].
  destruct (ma_last_flat c0 10 (closes sh_index)) as (m10 & H10' & E10);
    [lia | exact Hxs |].
  rewrite H5' in Ha. rewrite H10' in Hb.
  injection Ha as <-. injection Hb as <-.
  assert (Hgt : (Fin m5 >? Fin m10)%F = false).
  { destruct (Fin m5 >? Fin m10)%F eqn:G; [|reflexivity].
    apply fgt_Fin in G. rewrite E5, E10 in G.
    destruct (Qlt_irrefl _ G). }
  assert (Hlt : (Fin m5 <? Fin m10)%F = false).
  { destruct (Fin m5 <? Fin m10)%F eqn:G; [|reflexivity].
    apply (fgt_Fin m10 m5) in G. rewrite E5, E10 in G.
    destruct (Qlt_irrefl _ G). }
  rewrite Hgt, Hlt. reflexivity.
Qed.

Lemma market_trend_labels_witness :
  market_trend (rising_history 20) = Ok (Some Consolidation).
Proof.
  apply (proj1 (proj2 (proj2 (proj2 (market_trend_labels (rising_history 20)))))).
  vm_compute. lia.
Defined.

(** ** analyze_money_flow *)

Section SortByOn.
Context {A : Type} (before : A -> A -> bool) (P : A -> Prop).
Hypothesis before_total_on :
  forall x y, P x -> P y -> before x y = false -> before y x = true.
Hypothesis before_trans_on :
  forall x y z, P x -> P y -> P z ->
    before x y = true -> before y z = true -> before x z = true.

Lemma insert_by_sorted_on (x : A) (l : list A) :
  P x -> Forall P l ->
  StronglySorted (goes_first before) l ->
  StronglySorted (goes_first before) (insert_by before x l).
Proof.
  intros Hx. induction l as [|y t IH]; intros HP Hs; simpl.
  - constructor; constructor.
  - apply StronglySorted_inv in Hs. destruct Hs as [Ht Hy].
    apply Forall_cons_iff in HP. destruct HP as [HPy HPt].
    destruct (before x y) eqn:E.
    + constructor; [constructor; assumption|].
      constructor; [exact E|].
      rewrite List.Forall_forall in *. intros z Hz.
      apply (before_trans_on x y z); auto. apply Hy, Hz.
    + constructor; [apply IH; assumption|].
      apply (Permutation_Forall (Permutation_sym (insert_by_perm before x t))).
      constructor; [apply before_total_on; assumption | exact Hy].
Qed.

Lemma sort_by_sorted_on (l : list A) :
  Forall P l -> StronglySorted (goes_first before) (sort_by before l).
Proof.
  induction l as [|x l IH]; intros HP; simpl; [constructor|].
  apply Forall_cons_iff in HP. destruct HP as [HPx HPl].
  apply insert_by_sorted_on; [exact HPx | | apply IH; exact HPl].
  apply (Permutation_Forall (Permutation_sym (sort_by_perm before l))).
  exact HPl.
Qed.
End SortByOn.

Lemma tier_not_nan (c : Q) (info : FlowInfo) :
  (fabs (info_flow info) >=? Fin c)%F = true ->
  is_nan (fabs (info_flow info)) = false.
Proof. unfold fge. intros H. apply fle_not_nan in H. apply H. Qed.

Lemma larger_flow_total (x y : FlowInfo) :
  is_nan (fabs (info_flow x)) = false ->
  is_nan (fabs (info_flow y)) = false ->
  larger_flow x y = false -> larger_flow y x = true.
Proof.
  unfold larger_flow, fge. intros Hx Hy. apply fle_total; assumption.
Qed.

Lemma larger_flow_trans (x y z : FlowInfo) :
  larger_flow x y = true -> larger_flow y z = true -> larger_flow x z = true.
Proof.
  unfold larger_flow, fge. intros Hxy Hyz. eapply fle_trans; eassumption.
Qed.

Lemma sort_by_larger_flow_sorted (keep : FlowInfo -> bool) (c : Q)
    (infos : list FlowInfo) :
  (forall info, keep info = true ->
     (fabs (info_flow info) >=? Fin c)%F = true) ->
  StronglySorted (goes_first larger_flow)
    (sort_by larger_flow (List.filter keep infos)).
Proof.
  intros Hkeep.
  apply (sort_by_sorted_on larger_flow
           (fun info => is_nan (fabs (info_flow info)) = false)).
  - apply larger_flow_total.
  - intros x y z _ _ _. apply larger_flow_trans.
  - apply List.Forall_forall. intros info Hin.
    apply filter_In in Hin. apply (tier_not_nan c), Hkeep, Hin.
Qed.

Lemma tiers_exclusive (infos : list FlowInfo) :
  (length (List.filter tier_5000w infos)
   + length (List.filter tier_1000w infos)
   + length (List.filter tier_100w infos) <= length infos)%nat.
Proof.
  induction infos as [|info infos IH]; [reflexivity|].
  cbn [List.filter]. unfold tier_1000w, tier_100w, tier_5000w in *.
  destruct (fabs (info_flow info) >=? Fin 50000000)%F;
    destruct (fabs (info_flow info) >=? Fin 10000000)%F;
    destruct (fabs (info_flow info) >=? Fin 1000000)%F;
    cbn [negb andb length]; lia.
Qed.

Section MoneyFlowFacts.
Variable py_str : pyval -> pystr.
Variable stock_name_map : gmap string string.

Lemma fold_flow_step (rows : list FlowRow) (t0 : FlowTiers) :
  fold_left (flow_step py_str stock_name_map) rows t0 =
  mkFlowTiers
    (stock_flows_5000w t0
     ++ List.filter tier_5000w (flow_infos py_str stock_name_map rows))
    (stock_flows_1000w t0
     ++ List.filter tier_1000w (flow_infos py_str stock_name_map rows))
    (stock_flows_100w t0
     ++ List.filter tier_100w (flow_infos py_str stock_name_map rows)).
Proof.
  revert t0. induction rows as [|row rows IH]; intros t0.
  - destruct t0. cbn. rewrite !app_nil_r. reflexivity.
  - cbn [fold_left flow_infos flat_map]. rewrite IH. unfold flow_step.
    fold (flow_infos py_str stock_name_map rows).
    destruct (flow_info py_str stock_name_map row) as [info|];
      [|reflexivity].
    cbn [app List.filter]. unfold classify, tier_1000w, tier_100w, tier_5000w.
    destruct (fabs (info_flow info) >=? Fin 50000000)%F;
      destruct (fabs (info_flow info) >=? Fin 10000000)%F;
      destruct (fabs (info_flow info) >=? Fin 1000000)%F;
      cbn [negb andb stock_flows_5000w stock_flows_1000w stock_flows_100w];
      rewrite <- ?app_assoc; reflexivity.
Qed.

Lemma length_flow_infos (rows : list FlowRow) :
  (length (flow_infos py_str stock_name_map rows) <= length rows)%nat.
Proof.
  unfold flow_infos. apply flat_map_short. intros row.
  destruct (flow_info py_str stock_name_map row); simpl; lia.
Qed.
End MoneyFlowFacts.

(** X20: [analyze_money_flow] answers None when one of its two fetches
    raises.  Otherwise each of its three lists holds exactly the rows with
    a code whose absolute main flow is in the tier (at least 5000万, from
    1000万 up to it, from 100万 up to that), in descending order of the
    absolute flow; a row is in at most one list, and a row whose main flow
    is undefined or below 100万 is in none. *)
Theorem analyze_money_flow_tiers (py_str : pyval -> pystr)
    (stock_flow : res (list FlowRow)) (ak : Provider) :
  (stock_flow = Raise \/ stock_zh_a_spot_em ak = Raise ->
   analyze_money_flow py_str stock_flow ak = None) /\
  (forall rows df,
     stock_flow = Ok rows -> stock_zh_a_spot_em ak = Ok df ->
     exists tiers,
       analyze_money_flow py_str stock_flow ak = Some tiers /\
       let infos := flow_infos py_str (name_map df) rows in
       Permutation (stock_flows_5000w tiers) (List.filter tier_5000w infos) /\
       Permutation (stock_flows_1000w tiers) (List.filter tier_1000w infos) /\
       Permutation (stock_flows_100w tiers) (List.filter tier_100w infos) /\
       StronglySorted (goes_first larger_flow) (stock_flows_5000w tiers) /\
       StronglySorted (goes_first larger_flow) (stock_flows_1000w tiers) /\
       StronglySorted (goes_first larger_flow) (stock_flows_100w tiers) /\
       (length (stock_flows_5000w tiers) + length (stock_flows_1000w tiers)
        + length (stock_flows_100w tiers) <= length rows)%nat).
Proof.
  split.
  - intros [-> | H]; [reflexivity|].
    unfold analyze_money_flow. rewrite H. destruct stock_flow; reflexivity.
  - intros rows df -> Hdf. unfold analyze_money_flow. rewrite Hdf.
    rewrite fold_flow_step. cbn [stock_flows_5000w stock_flows_1000w
                                 stock_flows_100w app].
    eexists. split; [reflexivity|].
    cbn [stock_flows_5000w stock_flows_1000w stock_flows_100w].
    repeat split; try apply sort_by_perm.
    + apply (sort_by_larger_flow_sorted _ 50000000). intros info H. exact H.
    + apply (sort_by_larger_flow_sorted _ 10000000). intros info H.
      unfold tier_1000w in H. apply andb_true_iff in H. apply H.
    + apply (sort_by_larger_flow_sorted _ 1000000). intros info H.
      unfold tier_100w in H. apply andb_true_iff in H. apply H.
    + rewrite !(Permutation_length (sort_by_perm larger_flow _)).
      etransitivity; [apply tiers_exclusive | apply length_flow_infos].
Qed.

Lemma name_map_fold_other (l : list Snapshot) (m : gmap string string)
    (c : string) :
  (forall r, In r l -> code r <> c) ->
  fold_left (fun m r => <[code r := name r]> m) l m !! c = m !! c.
Proof.
  revert m. induction l as [|r l IH]; intros m H; [reflexivity|].
  cbn [fold_left]. rewrite IH by (intros r' Hr'; apply H; right; exact Hr').
  apply lookup_insert_ne. apply H. left. reflexivity.
Qed.

(** X21: a row without a code, or with an empty one, is skipped.  The info
    of any other row carries the code of the row and the name of the last
    snapshot row with that code; when the snapshot has no such row the name
    is the code behind the prefix 未知股票. *)
Theorem flow_info_name (py_str : pyval -> pystr) (df : list Snapshot)
    (row : FlowRow) :
  (flow_code row = None \/ flow_code row = Some ""%string ->
   flow_info py_str (name_map df) row = None) /\
  (forall c, flow_code row = Some c -> c <> ""%string ->
     exists info,
       flow_info py_str (name_map df) row = Some info /\
       info_code info = c /\
       ((forall r, In r df -> code r <> c) ->
        info_name info = String.append "未知股票" c) /\
       (forall older r newer,
          df = (older ++ r :: newer)%list -> code r = c ->
          (forall r', In r' newer -> code r' <> c) ->
          info_name info = name r)).
Proof.
  split.
  - unfold flow_info. intros [-> | ->]; reflexivity.
  - intros c Hc Hne. unfold flow_info. rewrite Hc.
    replace (String.eqb c "") with false
      by (symmetry; apply String.eqb_neq; exact Hne).
    eexists. split; [reflexivity|]. cbn [info_code info_name].
    split; [reflexivity|]. split.
    + intros Hnone. unfold name_map.
      rewrite name_map_fold_other by exact Hnone.
      rewrite lookup_empty. reflexivity.
    + intros older r newer -> Hr Hnewer. unfold name_map.
      rewrite fold_left_app. cbn [fold_left].
      rewrite name_map_fold_other by exact Hnewer.
      rewrite Hr, lookup_insert_eq. reflexivity.
Qed.

(** ** clear_filter_conditions, set_default_conditions *)

Lemma in_range_point (x : pyfloat) (lo : Q) :
  in_range x lo lo = true -> feq x (Fin lo) = true.
Proof.
  unfold in_range, fge. intros H. apply andb_true_iff in H.
  destruct H as [H1 H2]. destruct x as [q| | |]; try discriminate.
  cbn [fle feq] in *. apply Qle_bool_iff in H1, H2.
  apply Qeq_bool_iff. apply Qle_antisym; assumption.
Qed.

(** X22: after [clear_filter_conditions] the pipeline fetches no history
    and returns the range-filtered snapshot in frame order; the turnover
    maximum is then 0, so every row it returns has a turnover of exactly 0,
    while the volume-ratio maximum of 0 bounds nothing.  After
    [set_default_conditions] every row returned rose by 3 to 10 percent,
    with a turnover from 3 to 10, a volume ratio from 1 to 10 and a price
    from 1 to 5. *)
Theorem filter_conditions_presets (c : Criteria) (ak : Provider) :
  filter_stocks (clear_filter_conditions c) ak =
    match stock_zh_a_spot_em ak with
    | Ok df => Some (range_filters (clear_filter_conditions c) df)
    | Raise => None
    end /\
  (forall out r,
     filter_stocks (clear_filter_conditions c) ak = Some out -> In r out ->
     feq (turnover r) (Fin 0) = true /\
     in_range (pct_change r) (-20) 20 = true /\
     (volume_ratio r >=? Fin 0)%F = true) /\
  (forall out r,
     filter_stocks (set_default_conditions c) ak = Some out -> In r out ->
     in_range (pct_change r) 3 10 = true /\
     in_range (turnover r) 3 10 = true /\
     in_range (volume_ratio r) 1 10 = true /\
     in_range (latest_price r) 1 5 = true).
Proof.
  assert (Hclear :
    filter_stocks (clear_filter_conditions c) ak =
    match stock_zh_a_spot_em ak with
    | Ok df => Some (range_filters (clear_filter_conditions c) df)
    | Raise => None
    end).
  { unfold filter_stocks, filter_stocks_body, before_limit_up,
      before_technical.
    destruct (stock_zh_a_spot_em ak) as [df|]; reflexivity. }
  split; [exact Hclear|]. split.
  - intros out r Hout Hr. rewrite Hclear in Hout.
    destruct (stock_zh_a_spot_em ak) as [df|]; [|discriminate].
    injection Hout as <-. apply In_range_filters in Hr.
    destruct Hr as (_ & Ht & Hp & Hv & _).
    split; [apply in_range_point, Ht|]. split; [exact Hp | exact Hv].
  - intros out r. set (d := set_default_conditions c).
    unfold filter_stocks, filter_stocks_body, before_limit_up,
      before_technical.
    destruct (stock_zh_a_spot_em ak) as [df|]; [|discriminate].
    cbn [rbind].
    destruct (volume_increase_filter _ _ _) as [df1|] eqn:E1; [|discriminate].
    cbn [rbind].
    destruct (technical_filter _ _ _) as [df2|] eqn:E2; [|discriminate].
    cbn [rbind].
    destruct (limit_up_filter _ _ _) as [df3|] eqn:E3; [|discriminate].
    intros [= <-] Hr.
    assert (Hcb : In r (checkbox_filters d (range_filters d df))).
    { eapply volume_increase_filter_incl; [exact E1|].
      eapply technical_filter_incl; [exact E2|].
      apply hot_filter_incl with d. apply leaders_filter_incl with d.
      eapply limit_up_filter_incl; [exact E3 | exact Hr]. }
    apply In_checkbox_filters in Hcb. destruct Hcb as (Hrange & _).
    apply In_range_filters in Hrange.
    destruct Hrange as (_ & Ht & Hp & Hv1 & Hv2 & Hpr & _).
    split; [exact Hp|]. split; [exact Ht|]. split; [|exact Hpr].
    unfold in_range. apply andb_true_iff.
    split; [exact Hv1 | apply Hv2; reflexivity].
Qed.

(** ** The analysis of one limit-up stock *)

Lemma grows_trans (a b c a' b' c' : Z) (s s' s'' : Scores) :
  grows a b c s s' -> grows a' b' c' s' s'' ->
  grows (a + a') (b + b') (c + c') s s''.
Proof. unfold grows. lia. Qed.

Lemma grows_same (a b c : Z) (s : Scores) :
  (0 <= a)%Z -> (0 <= b)%Z -> (0 <= c)%Z -> grows a b c s s.
Proof. unfold grows. lia. Qed.

Lemma grows_rate (n a b c : Z) (s : Scores) :
  (0 <= n <= a)%Z -> (0 <= b)%Z -> (n <= c)%Z -> grows a b c s (rate n s).
Proof. unfold grows, rate. cbn [rating_score risk_score]. lia. Qed.

Lemma grows_risk (n a b c : Z) (s : Scores) :
  (0 <= a)%Z -> (0 <= n <= b)%Z -> (n <= c)%Z -> grows a b c s (risk n s).
Proof. unfold grows, risk. cbn [rating_score risk_score]. lia. Qed.

Lemma score_streak_grows (n : nat) (s : Scores) :
  grows 2 1 3 s (score_streak n s).
Proof.
  unfold score_streak.
  destruct (3 <=? n)%nat; [|destruct (n =? 2)%nat].
  - unfold grows, rate, risk. cbn [rating_score risk_score]. lia.
  - apply grows_rate; lia.
  - apply grows_same; lia.
Qed.

Lemma score_volume_ratio_grows (stock : Snapshot) (s : Scores) :
  grows 2 1 2 s (score_volume_ratio stock s).
Proof.
  unfold score_volume_ratio.
  repeat match goal with
         | |- context [if ?b then _ else _] => destruct b
         end;
    first [apply grows_rate; lia | apply grows_risk; lia
          | apply grows_same; lia].
Qed.

Lemma score_industry_grows (flow_value : option pyfloat) (s : Scores) :
  grows 2 2 2 s (score_industry flow_value s).
Proof.
  unfold score_industry. destruct flow_value as [v|];
    [|apply grows_same; lia].
  repeat match goal with
         | |- context [if ?b then _ else _] => destruct b
         end;
    first [apply grows_rate; lia | apply grows_risk; lia
          | apply grows_same; lia].
Qed.

Lemma score_position_grows (position : pyfloat) (s : Scores) :
  grows 2 2 2 s (score_position position s).
Proof.
  unfold score_position.
  repeat match goal with
         | |- context [if ?b then _ else _] => destruct b
         end;
    first [apply grows_rate; lia | apply grows_risk; lia
          | apply grows_same; lia].
Qed.

Lemma score_volume_grows (hist_data : list Bar) (latest : Bar) (s : Scores) :
  grows 2 1 2 s (score_volume hist_data latest s).
Proof.
  unfold score_volume. cbv zeta.
  repeat match goal with
         | |- context [if ?b then _ else _] => destruct b
         end;
    first [apply grows_rate; lia | apply grows_risk; lia
          | apply grows_same; lia].
Qed.

Lemma score_turnover_grows (stock : Snapshot) (s : Scores) :
  grows 2 1 2 s (score_turnover stock s).
Proof.
  unfold score_turnover.
  repeat match goal with
         | |- context [if ?b then _ else _] => destruct b
         end;
    first [apply grows_rate; lia | apply grows_risk; lia
          | apply grows_same; lia].
Qed.

Lemma iloc_last_ok {A} (s : list A) :
  s <> [] -> exists x, iloc s (-1) = Ok x.
Proof.
  intros Hs. apply iloc_back_ok.
  destruct s; [congruence | simpl; lia].
Qed.

Lemma chained_total (cmp : pyfloat -> pyfloat -> bool)
    (x y z : list pyfloat) :
  x <> [] -> y <> [] -> z <> [] -> exists b, chained cmp x y z = Ok b.
Proof.
  intros Hx Hy Hz. unfold chained.
  destruct (iloc_last_ok x Hx) as [a ->].
  destruct (iloc_last_ok y Hy) as [b ->].
  destruct (iloc_last_ok z Hz) as [c ->].
  cbn [rbind]. destruct (cmp a b); eexists; reflexivity.
Qed.

(** The bullish order of the three averages needs a defined MA20. *)
Lemma chained_bullish_long (xs : list Q) :
  chained fgt (rolling_mean 5 xs) (rolling_mean 10 xs) (rolling_mean 20 xs)
  = Ok true ->
  (20 <= length xs)%nat.
Proof.
  intros H. destruct (Nat.lt_ge_cases (length xs) 20) as [Hlt | Hge];
    [|exact Hge].
  exfalso. unfold chained in H.
  destruct (iloc (rolling_mean 5 xs) (-1)) as [a|]; [|discriminate].
  destruct (iloc (rolling_mean 10 xs) (-1)) as [b|]; [|discriminate].
  cbn [rbind] in H. destruct (a >? b)%F; [|discriminate].
  destruct xs as [|x xs].
  - discriminate.
  - rewrite rolling_last_undefined in H by (try discriminate; exact Hlt).
    cbn [rbind] in H. rewrite fgt_NaN_r in H. discriminate.
Qed.

Lemma ma5_slope_total (ma5 : list pyfloat) :
  (5 <= length ma5)%nat -> exists v, ma5_slope ma5 = Ok v.
Proof.
  intros H. unfold ma5_slope.
  destruct (iloc_back_ok ma5 (-1)) as [a ->]; [lia|].
  destruct (iloc_back_ok ma5 (-5)) as [b ->]; [lia|].
  eexists. reflexivity.
Qed.

Lemma dead_cross_ewm (alpha : Q) (adjust : bool) (x : list pyfloat) :
  x <> [] -> exists b, dead_cross x (ewm_mean alpha adjust x) = Ok b.
Proof.
  intros Hx. unfold dead_cross.
  destruct x as [|v [|w x]]; [congruence | |].
  - rewrite ewm_mean_single. exists false.
    change (iloc [v] (-1)) with (Ok v).
    unfold and_then. cbn [rbind]. rewrite flt_irrefl. reflexivity.
  - set (s := v :: w :: x) in *.
    set (y := ewm_mean alpha adjust s).
    assert (Hy : length y = length s) by apply length_ewm_mean.
    assert (Hs : (2 <= length s)%nat) by (simpl; lia).
    change (-1)%Z with (- Z.of_nat 1)%Z.
    rewrite (iloc_from_end s 1 NaN), (iloc_from_end y 1 NaN) by lia.
    change (-2)%Z with (- Z.of_nat 2)%Z.
    rewrite (iloc_from_end s 2 NaN), (iloc_from_end y 2 NaN) by lia.
    unfold and_then. cbn [rbind].
    destruct (_ <? _)%F; eexists; reflexivity.
Qed.

Lemma both_positive_total (x y : list pyfloat) :
  x <> [] -> y <> [] -> exists b, both_positive x y = Ok b.
Proof.
  intros Hx Hy. unfold both_positive.
  destruct (iloc_last_ok x Hx) as [a ->].
  destruct (iloc_last_ok y Hy) as [b ->].
  unfold and_then. cbn [rbind]. destruct (a >? Fin 0)%F; eexists; reflexivity.
Qed.

Lemma if_elif_total (a b : res bool) :
  (exists x, a = Ok x) -> (exists y, b = Ok y) -> if_elif a b = Ok tt.
Proof.
  intros [x ->] [y ->]. unfold if_elif. cbn [rbind]. destruct x; reflexivity.
Qed.

Section OneStock.
Variable hist_data : list Bar.
Hypothesis nonempty : hist_data <> [].

Lemma indicators_nonempty :
  ind_ma5 (indicators hist_data) <> [] /\
  ind_ma10 (indicators hist_data) <> [] /\
  ind_ma20 (indicators hist_data) <> [] /\
  ind_rsi (indicators hist_data) <> [] /\
  ind_macd (indicators hist_data) <> [] /\
  ind_signal (indicators hist_data) <> [].
Proof.
  assert (Hlen : (0 < length hist_data)%nat)
    by (destruct hist_data; [congruence | simpl; lia]).
  assert (Hc : length (closes hist_data) = length hist_data)
    by (unfold closes; apply length_map).
  unfold indicators. cbn [ind_ma5 ind_ma10 ind_ma20 ind_rsi ind_macd
                                   ind_signal].
  repeat split; apply nonempty_length;
    rewrite ?length_rolling_mean, ?length_calculate_rsi, ?length_ewm_mean,
      ?length_macd_line, ?Hc; exact Hlen.
Qed.

Lemma bullish_total :
  exists b, chained fgt (ind_ma5 (indicators hist_data)) (ind_ma10 (indicators hist_data)) (ind_ma20 (indicators hist_data)) = Ok b /\
            (b = true -> exists v, ma5_slope (ind_ma5 (indicators hist_data)) = Ok v).
Proof.
  destruct indicators_nonempty as (H5 & H10 & H20 & _).
  destruct (chained_total fgt _ _ _ H5 H10 H20) as [b Hb].
  exists b. split; [exact Hb|]. intros ->.
  apply ma5_slope_total. unfold indicators in *.
  cbn [ind_ma5 ind_ma10 ind_ma20] in *.
  apply chained_bullish_long in Hb. rewrite length_rolling_mean. lia.
Qed.

Lemma bearish_total :
  exists b, chained flt (ind_ma5 (indicators hist_data)) (ind_ma10 (indicators hist_data)) (ind_ma20 (indicators hist_data)) = Ok b.
Proof.
  destruct indicators_nonempty as (H5 & H10 & H20 & _).
  apply chained_total; assumption.
Qed.

Lemma golden_total :
  exists b, golden_cross (ind_macd (indicators hist_data)) (ind_signal (indicators hist_data)) = Ok b.
Proof.
  destruct indicators_nonempty as (_ & _ & _ & _ & Hm & _).
  apply golden_cross_ewm. exact Hm.
Qed.

Lemma dead_total :
  exists b, dead_cross (ind_macd (indicators hist_data)) (ind_signal (indicators hist_data)) = Ok b.
Proof.
  destruct indicators_nonempty as (_ & _ & _ & _ & Hm & _).
  apply dead_cross_ewm. exact Hm.
Qed.

Lemma strong_total :
  exists b, both_positive (ind_macd (indicators hist_data)) (ind_signal (indicators hist_data)) = Ok b.
Proof.
  destruct indicators_nonempty as (_ & _ & _ & _ & Hm & Hs).
  apply both_positive_total; assumption.
Qed.

Lemma feature_tests_total : feature_tests (indicators hist_data) = Ok tt.
Proof.
  destruct indicators_nonempty as (_ & _ & _ & Hr & _).
  destruct (iloc_last_ok _ Hr) as [r Hrsi].
  unfold feature_tests.
  rewrite if_elif_total;
    [|destruct bullish_total as (b & Hb & _); eauto | apply bearish_total].
  cbn [rbind]. rewrite Hrsi. cbn [rbind].
  rewrite if_elif_total by eauto. cbn [rbind].
  apply if_elif_total; [apply golden_total | apply dead_total].
Qed.

Lemma reason_tests_total : reason_tests (indicators hist_data) = Ok tt.
Proof.
  destruct indicators_nonempty as (_ & _ & _ & Hr & _).
  destruct (iloc_last_ok _ Hr) as [r Hrsi].
  unfold reason_tests.
  destruct bullish_total as (b & -> & Hslope). cbn [rbind].
  assert (Hma : (if b
                 then do slope <- ma5_slope (ind_ma5 (indicators hist_data)); Ok tt
                 else do bearish <- chained flt (ind_ma5 (indicators hist_data)) (ind_ma10 (indicators hist_data))
                                             (ind_ma20 (indicators hist_data));
                      Ok tt) = Ok tt).
  { destruct b.
    - destruct (Hslope eq_refl) as [v ->]. reflexivity.
    - destruct bearish_total as [b' ->]. reflexivity. }
  rewrite Hma. cbn [rbind]. rewrite Hrsi. cbn [rbind].
  rewrite if_elif_total;
    [|eauto | destruct (r <? Fin 30)%F; eauto].
  cbn [rbind].
  apply if_elif_total; [apply golden_total | apply strong_total].
Qed.

Lemma score_ma_total (s : Scores) :
  exists s', score_ma (indicators hist_data) s = Ok s' /\ grows 2 1 2 s s'.
Proof.
  unfold score_ma. destruct bullish_total as (b & -> & Hslope).
  cbn [rbind]. destruct b.
  - destruct (Hslope eq_refl) as [v ->]. cbn [rbind].
    eexists. split; [reflexivity|].
    destruct (v >? Fin 2)%F; apply grows_rate; lia.
  - destruct bearish_total as [b' ->]. cbn [rbind].
    eexists. split; [reflexivity|].
    destruct b'; [apply grows_risk | apply grows_same]; lia.
Qed.

Lemma score_rsi_total (s : Scores) :
  exists s', score_rsi (indicators hist_data) s = Ok s' /\ grows 1 2 2 s s'.
Proof.
  destruct indicators_nonempty as (_ & _ & _ & Hr & _).
  destruct (iloc_last_ok _ Hr) as [r Hrsi].
  unfold score_rsi. rewrite Hrsi. cbn [rbind].
  destruct ((Fin 50 <? r)%F && (r <? Fin 70)%F);
    [eexists; split; [reflexivity | apply grows_rate; lia]|].
  destruct (r >? Fin 80)%F;
    [eexists; split; [reflexivity | apply grows_risk; lia]|].
  eexists. split; [reflexivity|].
  destruct (r <? Fin 30)%F; [apply grows_risk | apply grows_same]; lia.
Qed.

Lemma score_macd_total (s : Scores) :
  exists s', score_macd (indicators hist_data) s = Ok s' /\ grows 2 1 2 s s'.
Proof.
  unfold score_macd.
  destruct golden_total as [g ->]. cbn [rbind].
  destruct g; [eexists; split; [reflexivity | apply grows_rate; lia]|].
  destruct strong_total as [p ->]. cbn [rbind].
  destruct p; [eexists; split; [reflexivity | apply grows_rate; lia]|].
  destruct dead_total as [d ->]. cbn [rbind].
  eexists. split; [reflexivity|].
  destruct d; [apply grows_risk | apply grows_same]; lia.
Qed.

Lemma limit_up_analysis_value (flow_value : option pyfloat)
    (stock : Snapshot) :
  exists a,
    limit_up_analysis flow_value stock hist_data = Ok a /\
    analysed a = stock /\
    rating a = limit_up_rating (final_scores a) /\
    grows 17 12 19 (mkScores 0 0) (final_scores a).
Proof.
  unfold limit_up_analysis. cbv zeta.
  destruct (iloc_last_ok hist_data nonempty) as [latest ->]. cbn [rbind].
  rewrite feature_tests_total, reason_tests_total. cbn [rbind].
  set (s2 := score_volume_ratio stock _).
  destruct (score_ma_total s2) as (s3 & -> & H3). cbn [rbind].
  destruct (score_rsi_total s3) as (s4 & -> & H4). cbn [rbind].
  destruct (score_macd_total s4) as (s5 & -> & H5). cbn [rbind].
  eexists. split; [reflexivity|].
  cbn [analysed rating final_scores].
  split; [reflexivity|]. split; [reflexivity|].
  pose proof (score_streak_grows (consecutive_limit_ups hist_data)
                (mkScores 0 0)) as H1.
  pose proof (score_volume_ratio_grows stock
                (score_streak (consecutive_limit_ups hist_data)
                              (mkScores 0 0))) as H2.
  fold s2 in H2.
  pose proof (score_industry_grows flow_value s5) as H6.
  pose proof (score_position_grows (current_position hist_data latest)
                (score_industry flow_value s5)) as H7.
  pose proof (score_volume_grows hist_data latest
                (score_position (current_position hist_data latest)
                   (score_industry flow_value s5))) as H8.
  pose proof (score_turnover_grows stock
                (score_volume hist_data latest
                   (score_position (current_position hist_data latest)
                      (score_industry flow_value s5)))) as H9.
  unfold grows in *. cbn [rating_score risk_score] in *. lia.
Qed.
End OneStock.

(** X23: on a non-empty history the analysis of a limit-up stock never
    raises, however short the history is: the look-back of the MA5 slope is
    read only under the bullish order of the averages, which needs 20 bars,
    and the bars before the last of MACD only when the last ones differ.
    The rating is the label of the two scores, the rating score is between
    0 and 17, the risk score between 0 and 12, and their sum is at most
    19. *)
Theorem limit_up_analysis_total (flow_value : option pyfloat)
    (stock : Snapshot) (hist_data : list Bar) :
  hist_data <> [] ->
  exists a,
    limit_up_analysis flow_value stock hist_data = Ok a /\
    analysed a = stock /\
    rating a = limit_up_rating (final_scores a) /\
    (0 <= rating_score (final_scores a) <= 17)%Z /\
    (0 <= risk_score (final_scores a) <= 12)%Z /\
    (rating_score (final_scores a) + risk_score (final_scores a) <= 19)%Z.
Proof.
  intros Hne.
  destruct (limit_up_analysis_value hist_data Hne flow_value stock)
    as (a & Ha & Hs & Hr & Hg).
  exists a. split; [exact Ha|]. split; [exact Hs|]. split; [exact Hr|].
  unfold grows in Hg. cbn [rating_score risk_score] in Hg. lia.
Qed.

Lemma limit_up_analysis_total_witness :
  exists a,
    limit_up_analysis None (sample_row "600000" 10 1) (rising_history 3)
    = Ok a /\
    analysed a = sample_row "600000" 10 1 /\
    rating a = limit_up_rating (final_scores a) /\
    (0 <= rating_score (final_scores a) <= 17)%Z /\
    (0 <= risk_score (final_scores a) <= 12)%Z /\
    (rating_score (final_scores a) + risk_score (final_scores a) <= 19)%Z.
Proof.
  apply (limit_up_analysis_total None (sample_row "600000" 10 1)
           (rising_history 3)).
  discriminate.
Defined.

Lemma limit_up_try_analysis {Context : Type}
    (flow_of : Context -> Snapshot -> option pyfloat)
    (ak : Provider) (ctx : Context) (stock : Snapshot) :
  map analysed
      match limit_up_try Context LimitUpAnalysis
              (fun ctx stock hist_data =>
                 limit_up_analysis (flow_of ctx stock) stock hist_data)
              ak ctx stock with
      | Ok (Some a) => [a]
      | _ => []
      end =
  if has_history ak stock then [stock] else [].
Proof.
  unfold limit_up_try, has_history.
  destruct (stock_zh_a_hist ak (code stock) 30) as [hist_data|];
    [|reflexivity].
  cbn [rbind]. destruct hist_data as [|b h]; [reflexivity|].
  cbn [empty negb].
  destruct (limit_up_analysis_value (b :: h) ltac:(discriminate)
              (flow_of ctx stock) stock) as (a & -> & Hs & _).
  cbn [rbind map]. rewrite Hs. reflexivity.
Qed.

(** X24: with this analysis in its loop, [analyze_limit_up_stocks]
    analyses every main-board limit-up row whose 30-day history was fetched
    and is not empty, once and in frame order: the analysis itself drops
    no row. *)
Theorem analyze_limit_up_stocks_complete (Context : Type)
    (prefetch : res Context)
    (flow_of : Context -> Snapshot -> option pyfloat)
    (ak : Provider) (df : list Snapshot) (ctx : Context) :
  stock_zh_a_spot_em ak = Ok df -> prefetch = Ok ctx ->
  map analysed
      (analyze_limit_up_stocks Context LimitUpAnalysis prefetch
         (fun ctx stock hist_data =>
            limit_up_analysis (flow_of ctx stock) stock hist_data) ak) =
  List.filter (has_history ak) (limit_up_rows df).
Proof.
  intros Hspot Hpre. unfold analyze_limit_up_stocks.
  rewrite Hspot, Hpre. cbn [rbind].
  rewrite limit_up_loop_flat. cbn [app].
  induction (limit_up_rows df) as [|stock rows IH]; [reflexivity|].
  cbn [flat_map List.filter]. rewrite map_app, IH.
  rewrite (limit_up_try_analysis flow_of ak ctx stock).
  destruct (has_history ak stock); reflexivity.
Qed.

Lemma analyze_limit_up_stocks_complete_witness :
  map analysed
      (analyze_limit_up_stocks unit LimitUpAnalysis (Ok tt)
         (fun ctx stock hist_data => limit_up_analysis None stock hist_data)
         (sample_provider [sample_row "600000" 10 1; sample_row "600003" 10 1]
                          sample_histories)) =
  List.filter
    (has_history
       (sample_provider [sample_row "600000" 10 1; sample_row "600003" 10 1]
                        sample_histories))
    (limit_up_rows [sample_row "600000" 10 1; sample_row "600003" 10 1]).
Proof.
  apply (analyze_limit_up_stocks_complete unit (Ok tt) (fun _ _ => None)
           (sample_provider
              [sample_row "600000" 10 1; sample_row "600003" 10 1]
              sample_histories)
           [sample_row "600000" 10 1; sample_row "600003" 10 1] tt);
    reflexivity.
Defined.
